(** * load_html_files: extraction of the BY 4.0 license texts and assembly
      of the per-language message catalogs

    Shallow embedding of [licenses/management/commands/load_html_files.py].
    Python text is a [string]: one [ascii] per character, so the model
    covers text whose code points are below 256.  Exceptions are values of
    [Py.Exn] carried by [Py.Result].  The document tree follows
    BeautifulSoup's [Tag] / [NavigableString] split. *)

From Stdlib Require Import String Ascii List Bool Arith Lia.
Import ListNotations.
Open Scope string_scope.
Open Scope list_scope.

(* ===================================================================== *)
(** ** Python builtins used by the command *)
(* ===================================================================== *)

Module Py.

(** The exceptions the command can meet.  [NotFound] and
    [IncompleteExtraction] are the failures of the helpers and of the
    validator, which are called but defined elsewhere. *)
Inductive Exn : Type :=
| AttributeError
| TypeError
| IndexError
| ValueError
| KeyError (key : string)
| AssertionError
| DoesNotExist
| SystemExit (code : nat)
| NotFound
| IncompleteExtraction (field : string).

Inductive Result (A : Type) : Type :=
| Ok (a : A)
| Raise (e : Exn).
Arguments Ok {A} a.
Arguments Raise {A} e.

Definition bind {A B : Type} (r : Result A) (k : A -> Result B) : Result B :=
  match r with
  | Ok a => k a
  | Raise e => Raise e
  end.

(** A value stored in the messages dictionary: a [str] or [None]. *)
Inductive Val : Type :=
| Str (s : string)
| None_.

(** *** str *)

(** [s.startswith(p)] *)
Fixpoint startswith (s p : string) {struct p} : bool :=
  match p with
  | EmptyString => true
  | String a p' =>
      match s with
      | EmptyString => false
      | String b s' => Ascii.eqb a b && startswith s' p'
      end
  end.

(** [sub in s] *)
Fixpoint contains (s sub : string) : bool :=
  startswith s sub ||
  match s with
  | EmptyString => false
  | String _ s' => contains s' sub
  end.

(** [s.endswith(p)] *)
Fixpoint endswith (s p : string) : bool :=
  String.eqb s p ||
  match s with
  | EmptyString => false
  | String _ s' => endswith s' p
  end.

(** [s.replace(old, new)] for a non-empty [old]: scan from the left, and at
    every position where [old] starts emit [new] and skip [old].  [skip]
    counts the characters of a matched [old] still to drop. *)
Fixpoint replace_from (old new : string) (skip : nat) (s : string) : string :=
  match s with
  | EmptyString => EmptyString
  | String c s' =>
      match skip with
      | S k => replace_from old new k s'
      | O =>
          if startswith s old
          then new ++ replace_from old new (String.length old - 1) s'
          else String c (replace_from old new 0 s')
      end
  end.

(** With an empty [old] Python puts [new] before every character and at
    the end. *)
Fixpoint interleave (new s : string) : string :=
  match s with
  | EmptyString => new
  | String c s' => new ++ String c (interleave new s')
  end.

Definition replace (s old new : string) : string :=
  match old with
  | EmptyString => interleave new s
  | String _ _ => replace_from old new 0 s
  end.

(** [c.isspace()] for a code point below 256. *)
Definition isspace (c : ascii) : bool :=
  let n := nat_of_ascii c in
  (Nat.leb 9 n && Nat.leb n 13) || (Nat.leb 28 n && Nat.leb n 32)
  || Nat.eqb n 133 || Nat.eqb n 160.

Fixpoint lstrip (s : string) : string :=
  match s with
  | EmptyString => EmptyString
  | String c s' => if isspace c then lstrip s' else s
  end.

Fixpoint rstrip (s : string) : string :=
  match s with
  | EmptyString => EmptyString
  | String c s' =>
      match rstrip s' with
      | EmptyString => if isspace c then EmptyString else String c EmptyString
      | t => String c t
      end
  end.

(** [s.strip()] *)
Definition strip (s : string) : string := lstrip (rstrip s).

(** [v.strip()] on a stored value: [None] has no such attribute. *)
Definition strip_val (v : Val) : Result string :=
  match v with
  | Str s => Ok (strip s)
  | None_ => Raise AttributeError
  end.

(** [str.join] with an empty separator *)
Definition join (parts : list string) : string :=
  fold_right String.append EmptyString parts.

(** *** list *)

(** [x in l] for a list of strings *)
Definition mem (x : string) (l : list string) : bool :=
  existsb (String.eqb x) l.

(** [l.index(x)] *)
Fixpoint index (x : string) (l : list string) : Result nat :=
  match l with
  | [] => Raise ValueError
  | y :: l' =>
      if String.eqb y x then Ok 0
      else bind (index x l') (fun i => Ok (S i))
  end.

(** [l.insert(i, x)]: past the end it appends. *)
Fixpoint insert {A : Type} (i : nat) (x : A) (l : list A) : list A :=
  match i, l with
  | O, _ => x :: l
  | S _, [] => [x]
  | S i', y :: l' => y :: insert i' x l'
  end.

(** [l.remove(x)]: drops the first occurrence. *)
Fixpoint remove (x : string) (l : list string) : Result (list string) :=
  match l with
  | [] => Raise ValueError
  | y :: l' =>
      if String.eqb y x then Ok l'
      else bind (remove x l') (fun r => Ok (y :: r))
  end.

(** [l[i]] *)
Definition item {A : Type} (l : list A) (i : nat) : Result A :=
  match nth_error l i with
  | Some a => Ok a
  | None => Raise IndexError
  end.

(** [l[a:b]] for [0 <= a <= b] *)
Definition slice {A : Type} (l : list A) (a b : nat) : list A :=
  firstn (b - a) (skipn a l).

(** *** dict

    A dictionary keeps its keys in insertion order; assigning to a key
    already present keeps its place and replaces the value. *)
Definition dict (V : Type) : Type := list (string * V).

Fixpoint setitem {V : Type} (d : dict V) (k : string) (v : V) : dict V :=
  match d with
  | [] => [(k, v)]
  | (k', v') :: d' =>
      if String.eqb k' k then (k', v) :: d'
      else (k', v') :: setitem d' k v
  end.

(** [d.get(k)] *)
Fixpoint get {V : Type} (d : dict V) (k : string) : option V :=
  match d with
  | [] => None
  | (k', v') :: d' => if String.eqb k' k then Some v' else get d' k
  end.

(** [k in d] *)
Definition haskey {V : Type} (d : dict V) (k : string) : bool :=
  match get d k with
  | Some _ => true
  | None => false
  end.

(** [d[k]] *)
Definition getitem {V : Type} (d : dict V) (k : string) : Result V :=
  match get d k with
  | Some v => Ok v
  | None => Raise (KeyError k)
  end.

(** [d.items()] *)
Definition items {V : Type} (d : dict V) : list (string * V) := d.

End Py.

Import Py.

Declare Scope py_scope.
Delimit Scope py_scope with py.
Notation "x <- e ;; k" := (Py.bind e (fun x => k))
  (at level 61, e at next level, right associativity) : py_scope.
Notation "e ;;; k" := (Py.bind e (fun _ => k))
  (at level 61, right associativity) : py_scope.
Open Scope py_scope.

(* ===================================================================== *)
(** ** Section 1: the expected definitions (lines 250-294) *)
(* ===================================================================== *)

(** The definitions common to all the BY 4.0 licenses (lines 255-266). *)
Definition common_definitions : list string :=
  [ "adapted_material";
    "copyright_and_similar_rights";
    "effective_technological_measures";
    "exceptions_and_limitations";
    "licensed_material";
    "licensed_rights";
    "licensor";
    "share";
    "sui_generis_database_rights";
    "you" ].

(** The nested [insert_after] (lines 269-271); the list it closes over is
    passed and returned. *)
Definition insert_after (after_this what_to_insert : string)
    (expected_definitions : list string) : Result (list string) :=
  i <- Py.index after_this expected_definitions ;;
  Ok (Py.insert (i + 1) what_to_insert expected_definitions).

(** The list [expected_definitions] as it stands after line 294. *)
Definition expected_definitions (license_code language_code : string)
    : Result (list string) :=
  let ed := common_definitions in
  if license_code =? "by-sa" then
    ed <- insert_after "adapted_material" "adapters_license" ed ;;
    ed <- insert_after "adapters_license" "by_sa_compatible_license" ed ;;
    ed <- insert_after "exceptions_and_limitations" "license_elements_sa" ed ;;
    if language_code =? "pt" then insert_after "you" "you2" ed else Ok ed
  else if license_code =? "by" then
    insert_after "adapted_material" "adapters_license" ed
  else if license_code =? "by-nc" then
    ed <- insert_after "adapted_material" "adapters_license" ed ;;
    insert_after "licensor" "noncommercial" ed
  else if license_code =? "by-nd" then
    Ok ed
  else if license_code =? "by-nc-nd" then
    insert_after "licensor" "noncommercial" ed
  else if license_code =? "by-nc-sa" then
    ed <- insert_after "adapted_material" "adapters_license" ed ;;
    ed <- insert_after "exceptions_and_limitations" "license_elements_nc_sa" ed ;;
    ed <- insert_after "adapters_license" "by_nc_sa_compatible_license" ed ;;
    insert_after "licensor" "noncommercial" ed
  else
    Ok ed.

(* ===================================================================== *)
(** ** The document tree (BeautifulSoup) *)
(* ===================================================================== *)

Module Bs4.

(** A page element: a [Tag] with its name, attributes and contents, or a
    [NavigableString].  Comments, doctypes and processing instructions are
    not represented. *)
#[warnings="-register-all"]
Inductive Node : Type :=
| Tag (name : string) (attrs : list (string * string)) (contents : list Node)
| NavigableString (text : string).

(** A tag reached by a search, with what the command asks of its place in
    the tree: the siblings after it and its parent. *)
Record Element : Type := mkElement {
  node : Node;
  next_siblings : list Node;
  parent : Node
}.

(** [isinstance(x, Tag)] *)
Definition is_tag (n : Node) : bool :=
  match n with
  | Tag _ _ _ => true
  | NavigableString _ => false
  end.

(** [x.name]: [None] on a string. *)
Definition name (n : Node) : option string :=
  match n with
  | Tag nm _ _ => Some nm
  | NavigableString _ => None
  end.

(** [tag.get(key)] *)
Definition attr (n : Node) (key : string) : option string :=
  match n with
  | Tag _ attrs _ => Py.get attrs key
  | NavigableString _ => None
  end.

(** [tag.contents], [tag.children], [list(tag)] *)
Definition contents (n : Node) : list Node :=
  match n with
  | Tag _ _ cs => cs
  | NavigableString _ => []
  end.

Definition option_eqb (o : option string) (s : string) : bool :=
  match o with
  | Some t => String.eqb t s
  | None => false
  end.

(** The two filters the command searches with. *)
Definition has_id (i : string) (n : Node) : bool :=
  is_tag n && option_eqb (attr n "id") i.

Definition has_name (nm : string) (n : Node) : bool :=
  option_eqb (name n) nm.

(** First descendant of [n], in document order, that passes [p]. *)
Fixpoint find_first (p : Node -> bool) (n : Node) {struct n} : option Element :=
  match n with
  | NavigableString _ => None
  | Tag _ _ cs =>
      (fix scan (l : list Node) : option Element :=
         match l with
         | [] => None
         | c :: l' =>
             if p c then Some (mkElement c l' n)
             else match find_first p c with
                  | Some e => Some e
                  | None => scan l'
                  end
         end) cs
  end.

(** [soup.find(id=i)] *)
Definition find_id (soup : Node) (i : string) : option Element :=
  find_first (has_id i) soup.

(** [tag.h2], [tag.strong], [tag.ol], ...: [tag.find(nm)], the first
    descendant with that name, at any depth. *)
Definition descendant_tag (e : Element) (nm : string) : option Element :=
  find_first (has_name nm) (node e).

(** [tag.find_all(nm)]: every descendant with that name, in document
    order. *)
Fixpoint find_all (nm : string) (n : Node) {struct n} : list Node :=
  match n with
  | NavigableString _ => []
  | Tag _ _ cs =>
      (fix scan (l : list Node) : list Node :=
         match l with
         | [] => []
         | c :: l' =>
             (if has_name nm c then [c] else []) ++ find_all nm c ++ scan l'
         end) cs
  end.

(** [tag.find_all(nm, recursive=False)] *)
Definition find_all_children (nm : string) (n : Node) : list Node :=
  filter (has_name nm) (contents n).

(** [tag.find_next_siblings(nm)] *)
Fixpoint siblings_named (nm : string) (par : Node) (sibs : list Node)
    : list Element :=
  match sibs with
  | [] => []
  | c :: rest =>
      (if has_name nm c then [mkElement c rest par] else [])
      ++ siblings_named nm par rest
  end.

Definition find_next_siblings (e : Element) (nm : string) : list Element :=
  siblings_named nm (parent e) (next_siblings e).

(** [tag.find_next_sibling(nm)] *)
Definition find_next_sibling (e : Element) (nm : string) : option Element :=
  hd_error (find_next_siblings e nm).

(** [x.string]: a string is its own [.string]; a tag with exactly one
    child has that child's [.string]; any other tag has [None]. *)
Fixpoint string_of (n : Node) : Val :=
  match n with
  | NavigableString s => Str s
  | Tag _ _ [c] => string_of c
  | Tag _ _ _ => None_
  end.

(** [tag.get_text()]: the strings below the tag, joined. *)
Fixpoint get_text (n : Node) : string :=
  match n with
  | NavigableString s => s
  | Tag _ _ cs =>
      (fix scan (l : list Node) : string :=
         match l with
         | [] => EmptyString
         | c :: l' => (get_text c ++ scan l')%string
         end) cs
  end.

End Bs4.

Import Bs4.

(** Reading an attribute of the result of a search: [None] has none. *)
Definition found {A : Type} (o : option A) : Result A :=
  match o with
  | Some a => Ok a
  | None => Raise AttributeError
  end.

(** [list(x)[0]]: [None] is not iterable, an empty tag has no item 0. *)
Definition first_item (o : option Element) : Result Node :=
  match o with
  | Some e => Py.item (contents (node e)) 0
  | None => Raise TypeError
  end.

(** The node behind a search result, as handed to a helper. *)
Definition node_of (o : option Element) : option Node :=
  option_map node o.

(* ===================================================================== *)
(** ** Collaborators of the command *)
(* ===================================================================== *)

(** What the command calls and this file does not contain: the parser and
    serializer of BeautifulSoup, the helpers of [licenses.bs_utils] and the
    validator of [licenses.utils].  The command is embedded over any such
    environment. *)
Record Env : Type := mkEnv {
  (** [BeautifulSoup(raw_html, "lxml")] *)
  BeautifulSoup : string -> Node;
  (** [str(tag)] *)
  str_tag : Node -> string;
  inner_html : option Node -> Result string;
  (** the dictionary's ['name'] and ['text'] *)
  name_and_text : option Node -> Result (string * string);
  text_up_to : option Node -> string -> Result string;
  nested_text : option Node -> Result string;
  validate_dictionary_is_all_text : dict Val -> Result unit
}.

(* ===================================================================== *)
(** ** import_by_40_license_html (lines 225-528) *)
(* ===================================================================== *)

(** [messages[key] = value]: the right-hand side is evaluated first and may
    raise. *)
Definition assign (messages : dict Val) (key : string) (value : Result string)
    : Result (dict Val) :=
  v <- value ;; Ok (Py.setitem messages key (Str v)).

(** The same for a right-hand side that may be [None]. *)
Definition assign_val (messages : dict Val) (key : string) (value : Result Val)
    : Result (dict Val) :=
  v <- value ;; Ok (Py.setitem messages key v).

(** Lines 235-236: the four textual replacements, in order. *)
Definition normalize_emphasis (raw_html : string) : string :=
  let raw_html := Py.replace (Py.replace raw_html "<b>" "<strong>") "</b>" "</strong>" in
  Py.replace (Py.replace raw_html "<B>" "<strong>") "</B>" "</strong>".

Section Extractor.

Variable E : Env.

(** [str(x)] of a page element: the text of a string, the markup of a
    tag. *)
Definition str (n : Node) : string :=
  match n with
  | NavigableString s => s
  | Tag _ _ _ => str_tag E n
  end.

(** [str(x)] of the result of a search: [str(None)] is the text "None". *)
Definition str_found (o : option Element) : string :=
  match o with
  | Some e => str (node e)
  | None => "None"
  end.

(** Lines 243-248: the license titles and intro text. *)
Definition titles_and_intro (soup : Node) (messages : dict Val)
    : Result (dict Val) :=
  let deed_main_content := find_id soup "deed-main-content" in
  messages <- assign messages "license_medium"
    (deed_license <- found (find_id soup "deed-license") ;;
     inner_html E (node_of (descendant_tag deed_license "h2"))) ;;
  messages <- assign messages "license_long"
    (dmc <- found deed_main_content ;;
     inner_html E (node_of (descendant_tag dmc "h3"))) ;;
  assign messages "license_intro"
    (dmc <- found deed_main_content ;;
     h3 <- found (descendant_tag dmc "h3") ;;
     inner_html E (node_of (find_next_sibling h3 "p"))).

(** Lines 298-305: the loop over the list items of the definitions. *)
Fixpoint definitions_loop (i : nat) (lis : list Node)
    (expected_definitions : list string) (messages : dict Val)
    : Result (dict Val) :=
  match lis with
  | [] => Ok messages
  | definition :: rest =>
      thing <- name_and_text E (Some definition) ;;
      defn_key <- Py.item expected_definitions i ;;
      definitions_loop (S i) rest expected_definitions
        (Py.setitem messages ("s1_definitions_" ++ defn_key)
           (Str ("*" ++ fst thing ++ "* " ++ snd thing)))
  end.

(** Lines 250-305: Section 1, definitions. *)
Definition section1_definitions (soup : Node)
    (license_code language_code : string) (messages : dict Val)
    : Result (dict Val) :=
  ed <- expected_definitions license_code language_code ;;
  messages <- assign messages "s1_definitions_title"
    (s1 <- found (find_id soup "s1") ;;
     inner_html E (node_of (descendant_tag s1 "strong"))) ;;
  s1 <- found (find_id soup "s1") ;;
  ol <- Py.item (find_next_siblings s1 "ol") 0 ;;
  definitions_loop 0 (find_all "li" (node ol)) ed messages.

(** Line 308: Section 2, scope. *)
Definition section2_scope (soup : Node) (messages : dict Val)
    : Result (dict Val) :=
  assign messages "s2_scope"
    (s2 <- found (find_id soup "s2") ;;
     inner_html E (node_of (descendant_tag s2 "strong"))).

(** Lines 312-319: the title of the license grant.  A tag is true
    whatever it holds, [None] is false.  The [print] before [sys.exit(1)]
    only writes to standard output. *)
Definition s2a_license_grant_title (soup : Node) (messages : dict Val)
    : Result (dict Val) :=
  s2a <- found (find_id soup "s2a") ;;
  match descendant_tag s2a "strong" with
  | Some strong =>
      assign messages "s2a_license_grant_title" (inner_html E (Some (node strong)))
  | None =>
      match descendant_tag s2a "b" with
      | Some b =>
          assign messages "s2a_license_grant_title" (inner_html E (Some (node b)))
      | None => Raise (SystemExit 1)
      end
  end.

(** [str(list(soup.find(id=i))[0]).strip()] *)
Definition first_item_text (soup : Node) (i : string) : Result string :=
  c <- first_item (find_id soup i) ;; Ok (Py.strip (str c)).

(** Lines 322-348: s2a1, the rights granted. *)
Definition s2a1_rights (soup : Node) (license_code : string)
    (messages : dict Val) : Result (dict Val) :=
  messages <- assign messages "s2a_license_grant_intro"
    (first_item_text soup "s2a1") ;;
  messages <-
    (if Py.contains license_code "nc" then
       assign messages "s2a_license_grant_share_nc" (first_item_text soup "s2a1A")
     else
       assign messages "s2a_license_grant_share" (first_item_text soup "s2a1A")) ;;
  if Py.contains license_code "nc" && Py.contains license_code "nd" then
    assign messages "s2a_license_grant_adapted_nc_nd" (first_item_text soup "s2a1B")
  else if Py.contains license_code "nc" then
    assign messages "s2a_license_grant_adapted_nc" (first_item_text soup "s2a1B")
  else if Py.contains license_code "nd" then
    assign messages "s2a_license_grant_adapted_nd" (first_item_text soup "s2a1B")
  else
    assign messages "s2a_license_grant_adapted" (first_item_text soup "s2a1B").

(** [nt = name_and_text(soup.find(id=i))] followed by the two assignments
    of [nt["name"]] and [nt["text"]]. *)
Definition assign_name_and_text (soup : Node) (i name_key text_key : string)
    (messages : dict Val) : Result (dict Val) :=
  nt <- name_and_text E (node_of (find_id soup i)) ;;
  let messages := Py.setitem messages name_key (Str (fst nt)) in
  Ok (Py.setitem messages text_key (Str (snd nt))).

(** Lines 370-375 *)
Definition expected_downstreams (license_code : string) : list string :=
  let l := ["offer"; "no_restrictions"] in
  if Py.mem license_code ["by-sa"; "by-nc-sa"]
  then Py.insert 1 "adapted_material" l
  else l.

(** Lines 378-384: the loop over the top-level list items of s2a5. *)
Fixpoint downstream_loop (i : nat) (lis : list Node)
    (expected_downstreams : list string) (messages : dict Val)
    : Result (dict Val) :=
  match lis with
  | [] => Ok messages
  | li :: rest =>
      key <- Py.item expected_downstreams i ;;
      thing <- name_and_text E (Some li) ;;
      let messages :=
        Py.setitem messages
          ("s2a5_license_grant_downstream_" ++ key ++ "_name") (Str (fst thing)) in
      let messages :=
        Py.setitem messages
          ("s2a5_license_grant_downstream_" ++ key ++ "_text") (Str (snd thing)) in
      downstream_loop (S i) rest expected_downstreams messages
  end.

(** Lines 351-388: s2a2 to s2a6. *)
Definition s2a2_to_s2a6 (soup : Node) (license_code : string)
    (messages : dict Val) : Result (dict Val) :=
  messages <- assign_name_and_text soup "s2a2"
    "s2a2_license_grant_exceptions_name" "s2a2_license_grant_exceptions_text"
    messages ;;
  messages <- assign_name_and_text soup "s2a3"
    "s2a3_license_grant_term_name" "s2a3_license_grant_term_text" messages ;;
  messages <- assign_name_and_text soup "s2a4"
    "s2a4_license_grant_media_name" "s2a4_license_grant_media_text" messages ;;
  messages <- assign messages "s2a5_license_grant_downstream_title"
    (s2a5 <- found (find_id soup "s2a5") ;;
     Ok (str_found (descendant_tag s2a5 "strong"))) ;;
  let expected := expected_downstreams license_code in
  s2a5 <- found (find_id soup "s2a5") ;;
  div <- found (descendant_tag s2a5 "div") ;;
  ol <- found (descendant_tag div "ol") ;;
  messages <- downstream_loop 0 (find_all_children "li" (node ol)) expected
    messages ;;
  assign_name_and_text soup "s2a6"
    "s2a6_license_grant_no_endorsement_name"
    "s2a6_license_grant_no_endorsement_text" messages.

(** Lines 391-398: s2b, other rights. *)
Definition s2b_other_rights (soup : Node) (license_code : string)
    (messages : dict Val) : Result (dict Val) :=
  messages <- assign messages "s2b_other_rights_title"
    (text_up_to E (node_of (find_id soup "s2b")) "ol") ;;
  s2b <- found (find_id soup "s2b") ;;
  ol <- found (descendant_tag s2b "ol") ;;
  let text_items := find_all_children "li" (node ol) in
  messages <- assign messages "s2b_other_rights_moral"
    (x <- Py.item text_items 0 ;; Ok (str x)) ;;
  messages <- assign messages "s2b_other_rights_patent"
    (x <- Py.item text_items 1 ;; Ok (str x)) ;;
  if Py.contains license_code "nc" then
    assign messages "s2b_other_rights_waive_nc"
      (x <- Py.item text_items 2 ;; Ok (str x))
  else
    assign messages "s2b_other_rights_waive_non_nc"
      (x <- Py.item text_items 2 ;; Ok (str x)).

(** [list(soup.find(id=i))[0].string] *)
Definition first_item_string (soup : Node) (i : string) : Result Val :=
  c <- first_item (find_id soup i) ;; Ok (string_of c).

(** Lines 401-433: Section 3, conditions. *)
Definition section3_conditions (soup : Node) (license_code : string)
    (messages : dict Val) : Result (dict Val) :=
  messages <- assign messages "s3_conditions_title"
    (nested_text E (node_of (find_id soup "s3"))) ;;
  messages <- assign messages "s3_conditions_intro"
    (s3 <- found (find_id soup "s3") ;;
     nested_text E (node_of (find_next_sibling s3 "p"))) ;;
  let s3a := find_id soup "s3a" in
  messages <- assign messages "s3_conditions_attribution"
    (text_up_to E (node_of s3a) "ol") ;;
  messages <-
    (if Py.contains license_code "nd" then
       assign messages "s3_conditions_if_you_share_nd"
         (text_up_to E (node_of (find_id soup "s3a1")) "ol")
     else
       assign messages "s3_conditions_if_you_share_non_nd"
         (text_up_to E (node_of (find_id soup "s3a1")) "ol")) ;;
  messages <- assign messages "s3_conditions_retain_the_following"
    (text_up_to E (node_of (find_id soup "s3a1A")) "ol") ;;
  messages <- assign messages "s3_conditions_identification"
    (nested_text E (node_of (find_id soup "s3a1Ai"))) ;;
  let messages := Py.setitem messages "s3_conditions_copyright"
    (Str (str_found (find_id soup "s3a1Aii"))) in
  let messages := Py.setitem messages "s3_conditions_license"
    (Str (str_found (find_id soup "s3a1Aiii"))) in
  let messages := Py.setitem messages "s3_conditions_disclaimer"
    (Str (str_found (find_id soup "s3a1Aiv"))) in
  let messages := Py.setitem messages "s3_conditions_link"
    (Str (str_found (find_id soup "s3a1Av"))) in
  let messages := Py.setitem messages "s3_conditions_modified"
    (Str (str_found (find_id soup "s3a1B"))) in
  let messages := Py.setitem messages "s3_conditions_licensed"
    (Str (str_found (find_id soup "s3a1C"))) in
  messages <- assign_val messages "s3_conditions_satisfy"
    (first_item_string soup "s3a2") ;;
  messages <- assign_val messages "s3_conditions_remove"
    (first_item_string soup "s3a3") ;;
  if Py.endswith license_code "-sa" then
    messages <- assign messages "sharealike_name"
      (s3b <- found (find_id soup "s3b") ;;
       nested_text E (node_of (descendant_tag s3b "strong"))) ;;
    assign messages "sharealike_intro"
      (s3b <- found (find_id soup "s3b") ;;
       nested_text E (node_of (descendant_tag s3b "p")))
  else
    Ok messages.

(** [soup.find(id=i).get_text()] *)
Definition text_of_id (soup : Node) (i : string) : Result string :=
  e <- found (find_id soup i) ;; Ok (get_text (node e)).

(** [soup.find(id=i).string] *)
Definition string_of_id (soup : Node) (i : string) : Result Val :=
  e <- found (find_id soup i) ;; Ok (string_of (node e)).

(** Lines 436-465: Section 4, sui generis database rights, up to s4c. *)
Definition section4_database_rights (soup : Node) (license_code : string)
    (messages : dict Val) : Result (dict Val) :=
  messages <- assign messages "s4_sui_generics_database_rights_titles"
    (nested_text E (node_of (find_id soup "s4"))) ;;
  messages <- assign_val messages "s4_sui_generics_database_rights_intro"
    (s4 <- found (find_id soup "s4") ;;
     p <- found (find_next_sibling s4 "p") ;;
     Ok (string_of (node p))) ;;
  messages <-
    (if Py.contains license_code "nc" && Py.contains license_code "nd" then
       assign messages "s4_sui_generics_database_rights_extract_reuse_nc_nd"
         (nested_text E (node_of (find_id soup "s4a")))
     else if Py.contains license_code "nc" then
       Ok (Py.setitem messages "s4_sui_generics_database_rights_extract_reuse_nc"
             (Str (str_found (find_id soup "s4a"))))
     else if Py.contains license_code "nd" then
       Ok (Py.setitem messages "s4_sui_generics_database_rights_extract_reuse_nd"
             (Str (str_found (find_id soup "s4a"))))
     else
       assign messages
         "s4_sui_generics_database_rights_extract_reuse_non_nc_non_nd"
         (text_of_id soup "s4a")) ;;
  s4b <- text_of_id soup "s4b" ;;
  let messages :=
    if Py.endswith license_code "-sa" then
      Py.setitem messages "s4_sui_generics_database_rights_adapted_material_sa"
        (Str s4b)
    else
      Py.setitem messages
        "s4_sui_generics_database_rights_adapted_material_non-sa" (Str s4b) in
  assign messages "s4_sui_generics_database_rights_comply_s3a"
    (text_of_id soup "s4c").

(** Lines 468-480: the loop over [parent.children] with its two flags.
    [break] ends the loop after the assignment, [continue] and the end of
    the body go to the next child; when the children run out the loop just
    ends. *)
Fixpoint postscript_loop (s4_seen take_next : bool) (children : list Node)
    (messages : dict Val) : dict Val :=
  match children with
  | [] => messages
  | item :: rest =>
      if take_next then
        Py.setitem messages "s4_sui_generics_database_rights_postscript"
          (string_of item)
      else if negb s4_seen then
        if is_tag item && option_eqb (attr item "id") "s4" then
          postscript_loop true take_next rest messages
        else
          postscript_loop s4_seen take_next rest messages
      else if negb take_next && option_eqb (name item) "ol" then
        postscript_loop s4_seen true rest messages
      else
        postscript_loop s4_seen take_next rest messages
  end.

(** Lines 466-480 *)
Definition s4_postscript (soup : Node) (messages : dict Val)
    : Result (dict Val) :=
  s4 <- found (find_id soup "s4") ;;
  let parent := parent s4 in
  Ok (postscript_loop false false (contents parent) messages).

(** Lines 500-504: the text of s6b's children up to its first [ol]. *)
Fixpoint text_before_ol (children : list Node) (s : string) : string :=
  match children with
  | [] => s
  | child :: rest =>
      if option_eqb (name child) "ol" then s
      else text_before_ol rest (s ++ str child)
  end.

(** Lines 483-524: Sections 5 to 8. *)
Definition sections5_to_8 (soup : Node) (messages : dict Val)
    : Result (dict Val) :=
  messages <- assign_val messages "s5_disclaimer_title" (string_of_id soup "s5") ;;
  messages <- assign_val messages "s5_a" (string_of_id soup "s5a") ;;
  messages <- assign_val messages "s5_b" (string_of_id soup "s5b") ;;
  messages <- assign_val messages "s5_c" (string_of_id soup "s5c") ;;
  messages <- assign messages "s6_termination_title"
    (nested_text E (node_of (find_id soup "s6"))) ;;
  messages <- assign messages "s6_termination_applies"
    (nested_text E (node_of (find_id soup "s6a"))) ;;
  s6b <- found (find_id soup "s6b") ;;
  messages <-
    match descendant_tag s6b "p" with
    | Some _ =>
        assign messages "s6_termination_reinstates_where"
          (s6b <- found (find_id soup "s6b") ;;
           p <- found (descendant_tag s6b "p") ;;
           Ok (get_text (node p)))
    | None =>
        Ok (Py.setitem messages "s6_termination_reinstates_where"
              (Str (text_before_ol (contents (node s6b)) EmptyString)))
    end ;;
  messages <- assign messages "s6_termination_reinstates_automatically"
    (text_of_id soup "s6b1") ;;
  messages <- assign messages "s6_termination_reinstates_express"
    (text_of_id soup "s6b2") ;;
  s6b <- found (find_id soup "s6b") ;;
  let children_of_s6b := contents (node s6b) in
  let messages := Py.setitem messages "s6_termination_reinstates_postscript"
    (Str (Py.strip (Py.join (map str (Py.slice children_of_s6b 4 7))))) in
  messages <- assign_val messages "s7_other_terms_title" (string_of_id soup "s7") ;;
  messages <- assign_val messages "s7_a" (string_of_id soup "s7a") ;;
  messages <- assign_val messages "s7_b" (string_of_id soup "s7b") ;;
  messages <- assign_val messages "s8_interpretation_title"
    (string_of_id soup "s8") ;;
  messages <- assign messages "s8a" (inner_html E (node_of (find_id soup "s8a"))) ;;
  messages <- assign messages "s8b" (inner_html E (node_of (find_id soup "s8b"))) ;;
  messages <- assign messages "s8c" (inner_html E (node_of (find_id soup "s8c"))) ;;
  assign messages "s8d" (inner_html E (node_of (find_id soup "s8d"))).

(** Lines 229 and 241-524: the dictionary as it stands before line 526. *)
Definition extract_fields (soup : Node) (license_code language_code : string)
    : Result (dict Val) :=
  let messages : dict Val := [] in
  messages <- titles_and_intro soup messages ;;
  messages <- section1_definitions soup license_code language_code messages ;;
  messages <- section2_scope soup messages ;;
  messages <- s2a_license_grant_title soup messages ;;
  messages <- s2a1_rights soup license_code messages ;;
  messages <- s2a2_to_s2a6 soup license_code messages ;;
  messages <- s2b_other_rights soup license_code messages ;;
  messages <- section3_conditions soup license_code messages ;;
  messages <- section4_database_rights soup license_code messages ;;
  messages <- s4_postscript soup messages ;;
  sections5_to_8 soup messages.

(** The whole method.  The [print] of line 231 only writes to standard
    output. *)
Definition import_by_40_license_html (content license_code language_code : string)
    : Result (dict Val) :=
  let raw_html := content in
  let raw_html := normalize_emphasis raw_html in
  let soup := BeautifulSoup E raw_html in
  messages <- extract_fields soup license_code language_code ;;
  validate_dictionary_is_all_text E messages ;;;
  Ok messages.

End Extractor.

(* ===================================================================== *)
(** ** handle: the message files (lines 106-217) *)
(* ===================================================================== *)

(** [POEntry(msgid=..., msgstr=...)] *)
Record POEntry : Type := mkPOEntry {
  msgid : Val;
  msgstr : string
}.

(** A [.po] file as saved at line 199, with the pair it was built for. *)
Record Catalog : Type := mkCatalog {
  catalog_language : string;
  catalog_license : string;
  catalog_entries : list POEntry
}.

(** What lines 31-104 and the input directory leave for the second half of
    [handle]: the language codes of the query of lines 113-120, and for a
    license code and a language code the text read at lines 130-138
    ([None] when [LegalCode.objects.get] finds no row). *)
Record Store : Type := mkStore {
  language_codes : list string;
  html_file : string -> string -> option string
}.

(** Line 109 *)
Definition LICENSE_CODES : list string :=
  ["by"; "by-sa"; "by-nc-nd"; "by-nc"; "by-nc-sa"; "by-nd"].

(** Lines 174-184: one [POEntry] appended per item of [messages_text]. *)
Fixpoint pofile_loop (english_text : dict Val) (language_code : string)
    (items : list (string * Val)) (pofile : list POEntry)
    : Result (list POEntry) :=
  match items with
  | [] => Ok pofile
  | (internal_key, translation) :: rest =>
      message_key <-
        (if Py.haskey english_text internal_key
         then Py.getitem english_text internal_key
         else Ok translation) ;;
      let message_value :=
        if language_code =? "en" then Str EmptyString else translation in
      stripped <- Py.strip_val message_value ;;
      pofile_loop english_text language_code rest
        (pofile ++ [mkPOEntry message_key stripped])
  end.

(** Lines 160-186: the catalog of one pair, from the English messages and
    the messages of the language. *)
Definition assemble_pofile (english_text messages_text : dict Val)
    (language_code : string) : Result (list POEntry) :=
  pofile <- pofile_loop english_text language_code (Py.items messages_text) [] ;;
  if Py.haskey messages_text "license_medium" then Ok pofile
  else Raise AssertionError.

(** The state of the loops of line 128: the dictionary
    [english_by_license_code] and the catalogs assembled so far, each of
    which the body hands to [pofile.save] at line 199. *)
Record Run : Type := mkRun {
  english_by_license_code : dict (dict Val);
  saved : list Catalog
}.

(** A loop either runs to its end or is left by an exception; the files
    saved before the exception stay. *)
Inductive Outcome : Type :=
| Completed (r : Run)
| Aborted (e : Exn) (saved_before : list Catalog).

Section Handle.

Variable E : Env.
Variable store : Store.

(** Lines 130-186: what the body of the inner loop computes, up to the
    catalog it has assembled when it gets past the assertion of line 186.
    The calls the body makes outside this file are not part of it, nor
    are the exceptions they can raise: finding and reading the file
    (lines 130-138) is the lookup in [html_file]; the translation domain
    and the names (lines 150-158 and 190-194), the directory, the two
    files written and the [gettext] check (lines 195-217) are left to
    the database and the file system.  A run of the command does what
    this body does up to the pair at which such a call raises. *)
Definition handle_pair (language_code license_code : string) (r : Run)
    : Result Run :=
  content <-
    match html_file store license_code language_code with
    | Some content => Ok content
    | None => Raise DoesNotExist
    end ;;
  messages_text <-
    import_by_40_license_html E content license_code language_code ;;
  let english_by_license_code :=
    if language_code =? "en"
    then Py.setitem (english_by_license_code r) license_code messages_text
    else english_by_license_code r in
  english_text <- Py.getitem english_by_license_code license_code ;;
  pofile <- assemble_pofile english_text messages_text language_code ;;
  Ok (mkRun english_by_license_code
        (saved r ++ [mkCatalog language_code license_code pofile])).

(** Line 129: [for license_code in LICENSE_CODES] *)
Fixpoint for_license_codes (language_code : string) (codes : list string)
    (r : Run) : Outcome :=
  match codes with
  | [] => Completed r
  | license_code :: rest =>
      match handle_pair language_code license_code r with
      | Ok r' => for_license_codes language_code rest r'
      | Raise e => Aborted e (saved r)
      end
  end.

(** Line 128: [for language_code in ["en"] + language_codes] *)
Fixpoint for_language_codes (codes : list string) (r : Run) : Outcome :=
  match codes with
  | [] => Completed r
  | language_code :: rest =>
      match for_license_codes language_code LICENSE_CODES r with
      | Completed r' => for_language_codes rest r'
      | Aborted e s => Aborted e s
      end
  end.

(** Lines 106-217 *)
Definition handle : Outcome :=
  match Py.remove "en" (language_codes store) with
  | Raise e => Aborted e []
  | Ok others => for_language_codes ("en" :: others) (mkRun [] [])
  end.

End Handle.

(* ===================================================================== *)
(** ** A model of the collaborators *)
(* ===================================================================== *)

(** One environment, to run the command on the sample documents.  What is
    proved of the command for every text is proved for every environment. *)

Module Model.

Local Open Scope string_scope.

Definition quotation_mark : ascii := ascii_of_nat 34.
Definition apostrophe : ascii := ascii_of_nat 39.

Definition char (c : ascii) : string := String c EmptyString.

(** ASCII lower case, as the parser applies it to tag and attribute
    names. *)
Definition lower_char (c : ascii) : ascii :=
  let n := nat_of_ascii c in
  if Nat.leb 65 n && Nat.leb n 90 then ascii_of_nat (n + 32) else c.

Fixpoint lower (s : string) : string :=
  match s with
  | EmptyString => EmptyString
  | String c s' => String (lower_char c) (lower s')
  end.

(** *** Serializer

    Model of [Tag.decode] with the default formatter: the start tag with
    its attributes in double quotation marks, the contents, the end tag;
    in a string below a tag the characters ampersand, less-than and
    greater-than are written as entities.  Elements without an end tag
    ([br] and the like) are outside the model. *)
Fixpoint escape (s : string) : string :=
  match s with
  | EmptyString => EmptyString
  | String c s' =>
      (if Ascii.eqb c "&" then "&amp;"
       else if Ascii.eqb c "<" then "&lt;"
       else if Ascii.eqb c ">" then "&gt;"
       else char c) ++ escape s'
  end.

Definition decode_attrs (attrs : list (string * string)) : string :=
  Py.join (map (fun kv : string * string =>
                  " " ++ fst kv ++ "=" ++ char quotation_mark ++ snd kv
                  ++ char quotation_mark) attrs).

Fixpoint decode (n : Node) : string :=
  match n with
  | NavigableString s => escape s
  | Tag nm attrs cs =>
      "<" ++ nm ++ decode_attrs attrs ++ ">"
      ++ (fix scan (l : list Node) : string :=
            match l with
            | [] => EmptyString
            | c :: l' => (decode c ++ scan l')%string
            end) cs
      ++ "</" ++ nm ++ ">"
  end.

(** *** Parser

    Model of [BeautifulSoup(raw_html, "lxml")] on plain markup: start tags
    with attributes (quoted either way or bare), end tags and character
    data.  Names are lower-cased; an end tag that closes no open element
    is dropped; an end tag closes the open elements above the one it
    names; what is still open at the end of the text is closed there.  The
    parser's repairs of block structure, its entity decoding, comments and
    elements without an end tag are outside the model. *)
Inductive Piece : Type :=
| Markup (s : string)
| Chars (s : string).

Definition chars_piece (acc : string) : list Piece :=
  match acc with
  | EmptyString => []
  | _ => [Chars acc]
  end.

Fixpoint pieces (in_markup : bool) (acc s : string) : list Piece :=
  match s with
  | EmptyString => if in_markup then [Chars ("<" ++ acc)] else chars_piece acc
  | String c s' =>
      if in_markup then
        if Ascii.eqb c ">" then Markup acc :: pieces false EmptyString s'
        else pieces true (acc ++ char c) s'
      else
        if Ascii.eqb c "<" then (chars_piece acc ++ pieces true EmptyString s')%list
        else pieces false (acc ++ char c) s'
  end.

Inductive AttrState : Type :=
| Between
| InKey (key : string)
| AfterEquals (key : string)
| InQuoted (key : string) (q : ascii) (value : string)
| InBare (key value : string).

Fixpoint attrs_from (st : AttrState) (s : string) : list (string * string) :=
  match s with
  | EmptyString =>
      match st with
      | Between => []
      | InKey k | AfterEquals k => [(lower k, EmptyString)]
      | InQuoted k _ v | InBare k v => [(lower k, v)]
      end
  | String c s' =>
      match st with
      | Between =>
          if Py.isspace c || Ascii.eqb c "/" then attrs_from Between s'
          else attrs_from (InKey (char c)) s'
      | InKey k =>
          if Ascii.eqb c "=" then attrs_from (AfterEquals k) s'
          else if Py.isspace c then (lower k, EmptyString) :: attrs_from Between s'
          else attrs_from (InKey (k ++ char c)) s'
      | AfterEquals k =>
          if Ascii.eqb c quotation_mark || Ascii.eqb c apostrophe
          then attrs_from (InQuoted k c EmptyString) s'
          else attrs_from (InBare k (char c)) s'
      | InQuoted k q v =>
          if Ascii.eqb c q then (lower k, v) :: attrs_from Between s'
          else attrs_from (InQuoted k q (v ++ char c)) s'
      | InBare k v =>
          if Py.isspace c then (lower k, v) :: attrs_from Between s'
          else attrs_from (InBare k (v ++ char c)) s'
      end
  end.

(** The name of a start tag and what follows it. *)
Fixpoint tag_name (acc s : string) : string * string :=
  match s with
  | EmptyString => (acc, EmptyString)
  | String c s' =>
      if Py.isspace c || Ascii.eqb c "/" then (acc, s)
      else tag_name (acc ++ char c) s'
  end.

Inductive Token : Type :=
| StartTag (name : string) (attrs : list (string * string))
| EndTag (name : string)
| Text (s : string).

Definition token (p : Piece) : Token :=
  match p with
  | Chars s => Text s
  | Markup (String "/" s) => EndTag (lower (Py.strip s))
  | Markup s =>
      let (nm, rest) := tag_name EmptyString s in
      StartTag (lower nm) (attrs_from Between rest)
  end.

(** An element still open, with the children it has so far. *)
Record Open : Type := mkOpen {
  open_name : string;
  open_attrs : list (string * string);
  open_contents : list Node
}.

Definition add_child (o : Open) (n : Node) : Open :=
  mkOpen (open_name o) (open_attrs o) (open_contents o ++ [n])%list.

Definition close (o : Open) : Node :=
  Tag (open_name o) (open_attrs o) (open_contents o).

(** Is an element of that name open, the document itself apart? *)
Fixpoint is_open (nm : string) (stack : list Open) : bool :=
  match stack with
  | [] | [_] => false
  | o :: rest => String.eqb (open_name o) nm || is_open nm rest
  end.

(** Close the open elements down to and including the one named [nm];
    [top] is the innermost open element, [below] the ones around it. *)
Fixpoint close_to (nm : string) (top : Open) (below : list Open) : list Open :=
  match below with
  | [] => [top]
  | p :: rest =>
      let p' := add_child p (close top) in
      if String.eqb (open_name top) nm then p' :: rest
      else close_to nm p' rest
  end.

(** Close whatever is open at the end of the text. *)
Fixpoint close_all (top : Open) (below : list Open) : Node :=
  match below with
  | [] => close top
  | p :: rest => close_all (add_child p (close top)) rest
  end.

(** Elements that never have contents. *)
Definition void_elements : list string :=
  ["br"; "hr"; "img"; "input"; "meta"; "link"].

Definition step (stack : list Open) (t : Token) : list Open :=
  match stack with
  | [] => []
  | top :: below =>
      match t with
      | Text s => add_child top (NavigableString s) :: below
      | StartTag nm attrs =>
          if Py.mem nm void_elements
          then add_child top (Tag nm attrs []) :: below
          else mkOpen nm attrs [] :: stack
      | EndTag nm =>
          if is_open nm stack then close_to nm top below else stack
      end
  end.

Definition parse (raw_html : string) : Node :=
  let tokens := map token (pieces false EmptyString raw_html) in
  match fold_left step tokens [mkOpen "[document]" [] []] with
  | [] => Tag "[document]" [] []
  | top :: below => close_all top below
  end.

(** *** Helpers of licenses.bs_utils and validator of licenses.utils *)

(** [str(x)] with the serializer above. *)
Definition str_of (n : Node) : string :=
  match n with
  | NavigableString s => s
  | Tag _ _ _ => decode n
  end.

(** Modelled from the spec: [inner_html] of licenses.bs_utils, the
    serialized content of all children of a node, without the node's own
    markers; it fails when the node is absent. *)
Definition inner_html (o : option Node) : Result string :=
  match o with
  | Some n => Ok (Py.join (map str_of (contents n)))
  | None => Raise NotFound
  end.

Definition is_emphasis (n : Node) : bool :=
  has_name "strong" n || has_name "b" n || has_name "em" n.

(** The first emphasized child and the other children. *)
Fixpoint split_emphasis (cs : list Node) : option (Node * list Node) :=
  match cs with
  | [] => None
  | c :: rest =>
      if is_emphasis c then Some (c, rest)
      else match split_emphasis rest with
           | Some (e, others) => Some (e, c :: others)
           | None => None
           end
  end.

(** Modelled from the spec: [name_and_text] of licenses.bs_utils, which
    splits a node's content into the content of its first emphasized child
    (the name) and all the remaining text of the node (the text); it fails
    when the node, or the emphasized child, is absent. *)
Definition name_and_text (o : option Node) : Result (string * string) :=
  match o with
  | Some n =>
      match split_emphasis (contents n) with
      | Some (e, others) =>
          Ok (Py.join (map str_of (contents e)), Py.join (map get_text others))
      | None => Raise NotFound
      end
  | None => Raise NotFound
  end.

Fixpoint up_to (boundary_tag : string) (cs : list Node) : list Node :=
  match cs with
  | [] => []
  | c :: rest =>
      if has_name boundary_tag c then [] else c :: up_to boundary_tag rest
  end.

(** Modelled from the spec: [text_up_to] of licenses.bs_utils, the
    serialized content of a node up to, not including, its first child
    matching the boundary tag; it fails when the node is absent. *)
Definition text_up_to (o : option Node) (boundary_tag : string) : Result string :=
  match o with
  | Some n => Ok (Py.join (map str_of (up_to boundary_tag (contents n))))
  | None => Raise NotFound
  end.

(** Modelled from the spec: [nested_text] of licenses.bs_utils, all the
    descendant text of a node, concatenated, markup discarded; it fails
    when the node is absent. *)
Definition nested_text (o : option Node) : Result string :=
  match o with
  | Some n => Ok (get_text n)
  | None => Raise NotFound
  end.

(** Modelled from the spec: [validate_dictionary_is_all_text] of
    licenses.utils, which verifies that every value of a completed field
    map is non-empty text and fails with [IncompleteExtraction] naming the
    first offending field. *)
Fixpoint validate_dictionary_is_all_text (d : dict Val) : Result unit :=
  match d with
  | [] => Ok tt
  | (k, Str (String _ _)) :: d' => validate_dictionary_is_all_text d'
  | (k, _) :: _ => Raise (IncompleteExtraction k)
  end.

Definition env : Env :=
  mkEnv parse decode inner_html name_and_text text_up_to nested_text
    validate_dictionary_is_all_text.

End Model.

(* ===================================================================== *)
(** ** Sample documents *)
(* ===================================================================== *)

Module Sample.

Local Open Scope string_scope.

(** The clauses of the license grant, s2a1 to s2a6. *)
Definition grant_clauses : string :=
  "<li id='s2a1'>Subject to the terms, the Licensor grants You a license to:"
  ++ "<ol><li id='s2a1A'>reproduce and Share the Licensed Material; and</li>"
  ++ "<li id='s2a1B'>produce, reproduce, and Share Adapted Material.</li></ol></li>"
  ++ "<li id='s2a2'><strong>Exceptions and Limitations</strong>. They apply.</li>"
  ++ "<li id='s2a3'><strong>Term</strong>. The term is specified in Section 6(a).</li>"
  ++ "<li id='s2a4'><strong>Media and formats</strong>. All media are allowed.</li>"
  ++ "<li id='s2a5'><strong>Downstream recipients</strong>."
  ++ "<div><ol>"
  ++ "<li id='s2a5A'><strong>Offer from the Licensor</strong>. Every recipient receives an offer.</li>"
  ++ "<li id='s2a5B'><strong>No downstream restrictions</strong>. You may not restrict.</li>"
  ++ "</ol></div></li>"
  ++ "<li id='s2a6'><strong>No endorsement</strong>. Nothing implies endorsement.</li>".

(** The license grant as the license texts have it: the clauses are
    nested in the s2a item, after its title. *)
Definition nested_grant (title : string) : string :=
  "<li id='s2a'>" ++ title ++ ".<ol>" ++ grant_clauses ++ "</ol></li>".

(** The license grant with the s2a item holding its title only, and the
    clauses in the item after it. *)
Definition flat_grant (title : string) : string :=
  "<li id='s2a'>" ++ title ++ ".</li><li><ol>" ++ grant_clauses ++ "</ol></li>".

(** A small license text with every anchor the command looks for.
    [license_name] is the text of the heading, [grant] the markup of the
    license grant, [section4] the markup from the Section 4 heading to the
    end of that section. *)
Definition document (license_name grant section4 : string) : string :=
  "<html><body>"
  ++ "<div id='deed-license'><h2>" ++ license_name ++ "</h2></div>"
  ++ "<div id='deed-main-content'>"
  ++ "<h3>Creative Commons " ++ license_name ++ " Public License</h3>"
  ++ "<p>By exercising the Licensed Rights, You accept these terms.</p>"
  ++ "<p id='s1'><strong>Section 1 - Definitions.</strong></p>"
  ++ "<ol>"
  ++ "<li id='s1a'><strong>Adapted Material</strong> means derived material.</li>"
  ++ "<li id='s1b'><strong>Copyright and Similar Rights</strong> means copyright.</li>"
  ++ "<li id='s1c'><strong>Effective Technological Measures</strong> means locks.</li>"
  ++ "<li id='s1d'><strong>Exceptions and Limitations</strong> means fair use.</li>"
  ++ "<li id='s1e'><strong>Licensed Material</strong> means the work.</li>"
  ++ "<li id='s1f'><strong>Licensed Rights</strong> means the rights granted.</li>"
  ++ "<li id='s1g'><strong>Licensor</strong> means the granting party.</li>"
  ++ "<li id='s1h'><strong>Share</strong> means to provide to the public.</li>"
  ++ "<li id='s1i'><strong>Sui Generis Database Rights</strong> means database rights.</li>"
  ++ "<li id='s1j'><strong>You</strong> means the party exercising the rights.</li>"
  ++ "</ol>"
  ++ "<p id='s2'><strong>Section 2 - Scope.</strong></p>"
  ++ "<ol>"
  ++ grant
  ++ "<li id='s2b'><strong>Other rights</strong>."
  ++ "<ol><li id='s2b1'>Moral rights are not licensed.</li>"
  ++ "<li id='s2b2'>Patent rights are not licensed.</li>"
  ++ "<li id='s2b3'>The Licensor waives royalties.</li></ol></li>"
  ++ "</ol>"
  ++ "<p id='s3'><strong>Section 3 - License Conditions.</strong></p>"
  ++ "<p>Your exercise of the Licensed Rights is subject to conditions.</p>"
  ++ "<ol><li id='s3a'><strong>Attribution</strong>."
  ++ "<ol><li id='s3a1'>If You Share the Licensed Material, You must:"
  ++ "<ol><li id='s3a1A'>retain the following if supplied:"
  ++ "<ol><li id='s3a1Ai'>identification of the creator;</li>"
  ++ "<li id='s3a1Aii'>a copyright notice;</li>"
  ++ "<li id='s3a1Aiii'>a notice that refers to this Public License;</li>"
  ++ "<li id='s3a1Aiv'>a notice that refers to the disclaimer;</li>"
  ++ "<li id='s3a1Av'>a URI to the Licensed Material;</li></ol></li>"
  ++ "<li id='s3a1B'>indicate if You modified the Licensed Material; and</li>"
  ++ "<li id='s3a1C'>indicate the license.</li></ol></li>"
  ++ "<li id='s3a2'>You may satisfy the conditions in any reasonable manner.</li>"
  ++ "<li id='s3a3'>If requested, You must remove the information.</li>"
  ++ "</ol></li>"
  ++ "<li id='s3b'><strong>ShareAlike</strong>."
  ++ "<p>In addition, if You Share Adapted Material, conditions apply.</p></li>"
  ++ "</ol>"
  ++ section4
  ++ "<p id='s5'><strong>Section 5 - Disclaimer of Warranties.</strong></p>"
  ++ "<ol><li id='s5a'><strong>The Licensed Material is offered as-is.</strong></li>"
  ++ "<li id='s5b'><strong>In no event will the Licensor be liable.</strong></li>"
  ++ "<li id='s5c'>The disclaimer shall be interpreted broadly.</li></ol>"
  ++ "<p id='s6'><strong>Section 6 - Term and Termination.</strong></p>"
  ++ "<ol><li id='s6a'>This Public License applies for the term of the rights.</li>"
  ++ "<li id='s6b'> <p>Where Your right has terminated, it reinstates:</p> "
  ++ "<ol><li id='s6b1'>automatically upon cure; or</li>"
  ++ "<li id='s6b2'>upon express reinstatement by the Licensor.</li></ol>"
  ++ " This Section 6(b) does not affect any right of the Licensor.</li></ol>"
  ++ "<p id='s7'><strong>Section 7 - Other Terms and Conditions.</strong></p>"
  ++ "<ol><li id='s7a'>The Licensor shall not be bound by additional terms.</li>"
  ++ "<li id='s7b'>Any arrangements not stated herein are separate.</li></ol>"
  ++ "<p id='s8'><strong>Section 8 - Interpretation.</strong></p>"
  ++ "<ol><li id='s8a'>This Public License does not reduce any use.</li>"
  ++ "<li id='s8b'>Unenforceable provisions are reformed.</li>"
  ++ "<li id='s8c'>No term will be waived unless expressly agreed.</li>"
  ++ "<li id='s8d'>Nothing limits privileges and immunities.</li></ol>"
  ++ "</div></body></html>".

Definition section4_heading : string :=
  "<p id='s4'><strong>Section 4 - Sui Generis Database Rights.</strong></p>"
  ++ "<p>Where the Licensed Rights include Sui Generis Database Rights:</p>".

Definition section4_list : string :=
  "<ol><li id='s4a'>Section 2(a)(1) grants You the right to extract;</li>"
  ++ "<li id='s4b'>if You include the contents, they are Adapted Material; and</li>"
  ++ "<li id='s4c'>You must comply with Section 3(a).</li></ol>".

(** Section 4 as the license texts have it: heading, list, and after the
    list a bare sentence. *)
Definition section4 : string :=
  section4_heading ++ section4_list
  ++ "This Section 4 supplements Your obligations. ".

(** Section 4 in a container of its own that ends with the list. *)
Definition section4_without_postscript : string :=
  "<div>" ++ section4_heading ++ section4_list ++ "</div>".

(** The title of the license grant, as the license texts have it. *)
Definition strong_title : string := "<strong>License grant</strong>".

Definition english : string :=
  document "Attribution 4.0 International" (nested_grant strong_title) section4.

Definition french : string :=
  document "Attribution 4.0 International (fr)" (nested_grant strong_title)
    section4.

(** The English text with the title of the license grant in a [b] element
    that is not spelled the way lines 235-236 look for (the start tag
    carries an attribute, the end tag a space), and with no other element
    in the s2a item. *)
Definition english_with_b : string :=
  document "Attribution 4.0 International"
    (flat_grant "<b class='title'>License grant</b >") section4.

(** The English text with a plain title and nothing else in the s2a
    item. *)
Definition english_without_emphasis : string :=
  document "Attribution 4.0 International" (flat_grant "License grant")
    section4.

(** The English text whose Section 4 ends with its list. *)
Definition english_without_postscript : string :=
  document "Attribution 4.0 International" (nested_grant strong_title)
    section4_without_postscript.

(** A store with the same texts under every license code, in English and
    French. *)
Definition store : Store :=
  mkStore ["en"; "fr"]
    (fun _ language_code =>
       if language_code =? "en" then Some english
       else if language_code =? "fr" then Some french
       else None).

(** The same store, but the English text of [by-nc] has a plain title
    of the license grant. *)
Definition store_with_plain_title : Store :=
  mkStore ["en"; "fr"]
    (fun license_code language_code =>
       if (license_code =? "by-nc") && (language_code =? "en")
       then Some english_without_emphasis
       else html_file store license_code language_code).

(** The English text whose postscript of Section 4 is a paragraph with
    markup inside, so that its [.string] is [None]. *)
Definition english_with_marked_up_postscript : string :=
  document "Attribution 4.0 International" (nested_grant strong_title)
    (section4_heading ++ section4_list
     ++ "<p>This Section 4 <em>supplements</em> Your obligations.</p>").

(** A store with one English text under every license code. *)
Definition store_of (content : string) : Store :=
  mkStore ["en"] (fun _ language_code =>
                    if language_code =? "en" then Some content else None).

End Sample.

(* ===================================================================== *)
(** ** Notions used to state the properties *)
(* ===================================================================== *)

(** The field that receives the content of anchor s2a1B, by the two
    variant flags, as the specification lists them. *)
Definition adapted_field (nc nd : bool) : string :=
  match nc, nd with
  | false, false => "s2a_license_grant_adapted"
  | true, false => "s2a_license_grant_adapted_nc"
  | false, true => "s2a_license_grant_adapted_nd"
  | true, true => "s2a_license_grant_adapted_nc_nd"
  end.

Definition adapted_fields : list string :=
  [ "s2a_license_grant_adapted"; "s2a_license_grant_adapted_nc";
    "s2a_license_grant_adapted_nd"; "s2a_license_grant_adapted_nc_nd" ].

Definition postscript_field : string :=
  "s4_sui_generics_database_rights_postscript".

(** The state machine of the specification for the postscript of
    Section 4; [DONE] carries the sibling it captured. *)
Inductive ScanState : Type :=
| SEEKING_ANCHOR
| SEEN_ANCHOR_AWAITING_LIST
| LIST_SEEN_TAKE_NEXT
| DONE (captured : Node).

Definition scan_step (st : ScanState) (item : Node) : ScanState :=
  match st with
  | SEEKING_ANCHOR =>
      if has_id "s4" item then SEEN_ANCHOR_AWAITING_LIST else SEEKING_ANCHOR
  | SEEN_ANCHOR_AWAITING_LIST =>
      if has_name "ol" item then LIST_SEEN_TAKE_NEXT
      else SEEN_ANCHOR_AWAITING_LIST
  | LIST_SEEN_TAKE_NEXT => DONE item
  | DONE c => DONE c
  end.

Definition scan (st : ScanState) (siblings : list Node) : ScanState :=
  fold_left scan_step siblings st.

(** The state the two flags of the loop stand for. *)
Definition state_of_flags (s4_seen take_next : bool) : ScanState :=
  if take_next then LIST_SEEN_TAKE_NEXT
  else if s4_seen then SEEN_ANCHOR_AWAITING_LIST
  else SEEKING_ANCHOR.

(** What the machine leaves in the field map. *)
Definition postscript_of (st : ScanState) : option Val :=
  match st with
  | DONE c => Some (string_of c)
  | _ => None
  end.

(** [m'] is [m] after some assignments, all to keys accepted by [P]. *)
Inductive Writes (P : string -> bool) : dict Val -> dict Val -> Prop :=
| Writes_nothing m : Writes P m m
| Writes_more m m' k v :
    Writes P m m' -> P k = true -> Writes P m (Py.setitem m' k v).

(** Keys with one of the prefixes, or one of the listed keys. *)
Definition among (prefixes keys : list string) (k : string) : bool :=
  existsb (Py.startswith k) prefixes || Py.mem k keys.

Definition titles_keys : list string :=
  ["license_medium"; "license_long"; "license_intro"].

Definition s2a1_keys : list string :=
  [ "s2a_license_grant_intro"; "s2a_license_grant_share_nc";
    "s2a_license_grant_share"; "s2a_license_grant_adapted_nc_nd";
    "s2a_license_grant_adapted_nc"; "s2a_license_grant_adapted_nd";
    "s2a_license_grant_adapted" ].

Definition s2a2_to_s2a6_keys : list string :=
  [ "s2a2_license_grant_exceptions_name"; "s2a2_license_grant_exceptions_text";
    "s2a3_license_grant_term_name"; "s2a3_license_grant_term_text";
    "s2a4_license_grant_media_name"; "s2a4_license_grant_media_text";
    "s2a6_license_grant_no_endorsement_name";
    "s2a6_license_grant_no_endorsement_text" ].

Definition s2b_keys : list string :=
  [ "s2b_other_rights_title"; "s2b_other_rights_moral";
    "s2b_other_rights_patent"; "s2b_other_rights_waive_nc";
    "s2b_other_rights_waive_non_nc" ].

Definition section3_keys : list string :=
  [ "s3_conditions_title"; "s3_conditions_intro"; "s3_conditions_attribution";
    "s3_conditions_if_you_share_nd"; "s3_conditions_if_you_share_non_nd";
    "s3_conditions_retain_the_following"; "s3_conditions_identification";
    "s3_conditions_copyright"; "s3_conditions_license";
    "s3_conditions_disclaimer"; "s3_conditions_link";
    "s3_conditions_modified"; "s3_conditions_licensed";
    "s3_conditions_satisfy"; "s3_conditions_remove";
    "sharealike_name"; "sharealike_intro" ].

Definition section4_keys : list string :=
  [ "s4_sui_generics_database_rights_titles";
    "s4_sui_generics_database_rights_intro";
    "s4_sui_generics_database_rights_extract_reuse_nc_nd";
    "s4_sui_generics_database_rights_extract_reuse_nc";
    "s4_sui_generics_database_rights_extract_reuse_nd";
    "s4_sui_generics_database_rights_extract_reuse_non_nc_non_nd";
    "s4_sui_generics_database_rights_adapted_material_sa";
    "s4_sui_generics_database_rights_adapted_material_non-sa";
    "s4_sui_generics_database_rights_comply_s3a" ].

Definition sections5_to_8_keys : list string :=
  [ "s5_disclaimer_title"; "s5_a"; "s5_b"; "s5_c";
    "s6_termination_title"; "s6_termination_applies";
    "s6_termination_reinstates_where";
    "s6_termination_reinstates_automatically";
    "s6_termination_reinstates_express";
    "s6_termination_reinstates_postscript";
    "s7_other_terms_title"; "s7_a"; "s7_b";
    "s8_interpretation_title"; "s8a"; "s8b"; "s8c"; "s8d" ].

(** The character [a] does not occur in [s]. *)
Fixpoint absent (a : ascii) (s : string) : bool :=
  match s with
  | EmptyString => true
  | String c s' => negb (Ascii.eqb a c) && absent a s'
  end.

(** [q] and [new] differ at some position both have. *)
Fixpoint clash (q new : string) : bool :=
  match q, new with
  | String a q', String b new' => negb (Ascii.eqb a b) || clash q' new'
  | _, _ => false
  end.

(** The pattern [q] cannot appear where [new] has been put in: both begin
    with the same character, which occurs nowhere else in them, and they
    differ at some position. *)
Definition kept_out (q new : string) : bool :=
  match q, new with
  | String a q', String b new' =>
      Ascii.eqb a b && absent a q' && absent a new' && clash q new
  | _, _ => false
  end.

(** Wherever [q] starts in [s], [old] starts too. *)
Fixpoint covered (q old s : string) : Prop :=
  (Py.startswith s q = true -> Py.startswith s old = true) /\
  match s with
  | EmptyString => True
  | String _ s' => covered q old s'
  end.

(** A catalog saved for a pair was assembled from the messages returned by
    [import_by_40_license_html] for that pair and for English. *)
Definition assembled_from_imports (E : Env) (store : Store) (c : Catalog) : Prop :=
  exists content content_en messages_text english_text,
    html_file store (catalog_license c) (catalog_language c) = Some content /\
    html_file store (catalog_license c) "en" = Some content_en /\
    import_by_40_license_html E content (catalog_license c) (catalog_language c)
      = Ok messages_text /\
    import_by_40_license_html E content_en (catalog_license c) "en"
      = Ok english_text /\
    validate_dictionary_is_all_text E messages_text = Ok tt /\
    validate_dictionary_is_all_text E english_text = Ok tt /\
    assemble_pofile english_text messages_text (catalog_language c)
      = Ok (catalog_entries c).

(** The four spellings lines 235-236 rewrite. *)
Definition spellings : list string := ["<b>"; "</b>"; "<B>"; "</B>"].
(** The rewriting of lines 235-236 as one scan from the left: which
    spelling starts the text, if any, with what is put in its place and
    how many more of its characters are dropped. *)
Definition emphasis_at (s : string) : option (string * nat) :=
  if Py.startswith s "<b>" || Py.startswith s "<B>" then Some ("<strong>", 2)
  else if Py.startswith s "</b>" || Py.startswith s "</B>"
       then Some ("</strong>", 3)
       else None.

(** Every [<b>] and [<B>] becomes [<strong>], every [</b>] and [</B>]
    becomes [</strong>], and every other character stays.  [skip] counts
    the characters of a rewritten spelling still to drop. *)
Fixpoint rewrite_to_strong (skip : nat) (s : string) : string :=
  match s with
  | EmptyString => EmptyString
  | String c s' =>
      match skip with
      | S k => rewrite_to_strong k s'
      | O =>
          match emphasis_at s with
          | Some (new, k) => (new ++ rewrite_to_strong k s')%string
          | None => String c (rewrite_to_strong 0 s')
          end
      end
  end.

(** What lines 235-236 put in the place of each spelling. *)
Definition rewritten : list (string * string) :=
  [ ("<b>", "<strong>"); ("</b>", "</strong>");
    ("<B>", "<strong>"); ("</B>", "</strong>") ].

(** The entry lines 175-184 build for one item of [messages_text]. *)
Definition entry_for (english_text : dict Val) (language_code : string)
    (kv : string * Val) (e : POEntry) : Prop :=
  msgid e = match Py.get english_text (fst kv) with
            | Some text => text
            | None => snd kv
            end /\
  Py.strip_val (if language_code =? "en" then Str EmptyString else snd kv)
  = Ok (msgstr e).

(** What holds of the state of the loops of line 128: the English messages
    kept in [english_by_license_code] were returned by
    [import_by_40_license_html], and so were the messages behind every
    saved catalog. *)
Definition run_invariant (E : Env) (store : Store) (r : Run) : Prop :=
  (forall license_code english_text,
      Py.get (english_by_license_code r) license_code = Some english_text ->
      exists content_en,
        html_file store license_code "en" = Some content_en /\
        import_by_40_license_html E content_en license_code "en"
        = Ok english_text) /\
  Forall (assembled_from_imports E store) (saved r).

Definition saved_by (o : Outcome) : list Catalog :=
  match o with
  | Completed r => saved r
  | Aborted _ s => s
  end.

Definition outcome_invariant (E : Env) (store : Store) (o : Outcome) : Prop :=
  match o with
  | Completed r => run_invariant E store r
  | Aborted _ s => Forall (assembled_from_imports E store) s
  end.

(* ===================================================================== *)
(** ** Further notions: field names, assignments in order, catalogs *)
(* ===================================================================== *)

(** A list of strings without repetition, as a test. *)
Fixpoint nodupb (l : list string) : bool :=
  match l with
  | [] => true
  | k :: l' => negb (Py.mem k l') && nodupb l'
  end.

(** The schemas lines 255-294 can produce: the common definitions, and
    the ones of by, by-nc, by-nc-nd, by-sa, by-sa in pt, and by-nc-sa. *)
Definition schemas : list (list string) :=
  [ common_definitions;
    [ "adapted_material"; "adapters_license"; "copyright_and_similar_rights";
      "effective_technological_measures"; "exceptions_and_limitations";
      "licensed_material"; "licensed_rights"; "licensor"; "share";
      "sui_generis_database_rights"; "you" ];
    [ "adapted_material"; "adapters_license"; "copyright_and_similar_rights";
      "effective_technological_measures"; "exceptions_and_limitations";
      "licensed_material"; "licensed_rights"; "licensor"; "noncommercial";
      "share"; "sui_generis_database_rights"; "you" ];
    [ "adapted_material"; "copyright_and_similar_rights";
      "effective_technological_measures"; "exceptions_and_limitations";
      "licensed_material"; "licensed_rights"; "licensor"; "noncommercial";
      "share"; "sui_generis_database_rights"; "you" ];
    [ "adapted_material"; "adapters_license"; "by_sa_compatible_license";
      "copyright_and_similar_rights"; "effective_technological_measures";
      "exceptions_and_limitations"; "license_elements_sa";
      "licensed_material"; "licensed_rights"; "licensor"; "share";
      "sui_generis_database_rights"; "you" ];
    [ "adapted_material"; "adapters_license"; "by_sa_compatible_license";
      "copyright_and_similar_rights"; "effective_technological_measures";
      "exceptions_and_limitations"; "license_elements_sa";
      "licensed_material"; "licensed_rights"; "licensor"; "share";
      "sui_generis_database_rights"; "you"; "you2" ];
    [ "adapted_material"; "adapters_license"; "by_nc_sa_compatible_license";
      "copyright_and_similar_rights"; "effective_technological_measures";
      "exceptions_and_limitations"; "license_elements_nc_sa";
      "licensed_material"; "licensed_rights"; "licensor"; "noncommercial";
      "share"; "sui_generis_database_rights"; "you" ] ].

(** The common definitions among the names of a schema, in its order. *)
Definition common_part (ed : list string) : list string :=
  filter (fun k => Py.mem k common_definitions) ed.

(** [m'] is [m] after assignments to exactly the keys [ks], in this
    order. *)
Inductive Assigned : list string -> dict Val -> dict Val -> Prop :=
| Assigned_none m : Assigned [] m m
| Assigned_more ks m m' k v :
    Assigned ks m m' -> Assigned (ks ++ [k]) m (Py.setitem m' k v).

(** The list items of the definitions, as line 299 finds them. *)
Definition definition_items (soup : Node) : option (list Node) :=
  match find_id soup "s1" with
  | Some s1 =>
      match find_next_siblings s1 "ol" with
      | ol :: _ => Some (find_all "li" (node ol))
      | [] => None
      end
  | None => None
  end.

(** The top-level list items of s2a5, as line 379 finds them. *)
Definition downstream_items (soup : Node) : option (list Node) :=
  match find_id soup "s2a5" with
  | Some s2a5 =>
      match descendant_tag s2a5 "div" with
      | Some div =>
          match descendant_tag div "ol" with
          | Some ol => Some (find_all_children "li" (node ol))
          | None => None
          end
      | None => None
      end
  | None => None
  end.

(** Has the scan for the postscript of Section 4 reached [DONE]? *)
Definition postscript_found (soup : Node) : bool :=
  match find_id soup "s4" with
  | Some s4 =>
      match scan SEEKING_ANCHOR (contents (parent s4)) with
      | DONE _ => true
      | _ => false
      end
  | None => false
  end.

(** The fields of the first [n] definitions of a schema. *)
Definition definition_fields (ed : list string) (n : nat) : list string :=
  map (String.append "s1_definitions_") (firstn n ed).

(** The fields of the first [n] downstream recipients. *)
Definition downstream_fields (names : list string) (n : nat) : list string :=
  flat_map
    (fun key => [ ("s2a5_license_grant_downstream_" ++ key ++ "_name")%string;
                  ("s2a5_license_grant_downstream_" ++ key ++ "_text")%string ])
    (firstn n names).

Definition s2a1_fields (nc nd : bool) : list string :=
  [ "s2a_license_grant_intro";
    if nc then "s2a_license_grant_share_nc" else "s2a_license_grant_share";
    adapted_field nc nd ].

Definition s2a2_to_s2a5_fields : list string :=
  [ "s2a2_license_grant_exceptions_name"; "s2a2_license_grant_exceptions_text";
    "s2a3_license_grant_term_name"; "s2a3_license_grant_term_text";
    "s2a4_license_grant_media_name"; "s2a4_license_grant_media_text";
    "s2a5_license_grant_downstream_title" ].

Definition s2a6_fields : list string :=
  [ "s2a6_license_grant_no_endorsement_name";
    "s2a6_license_grant_no_endorsement_text" ].

Definition s2b_fields (nc : bool) : list string :=
  [ "s2b_other_rights_title"; "s2b_other_rights_moral";
    "s2b_other_rights_patent";
    if nc then "s2b_other_rights_waive_nc" else "s2b_other_rights_waive_non_nc" ].

Definition section3_fields (nd sa : bool) : list string :=
  [ "s3_conditions_title"; "s3_conditions_intro"; "s3_conditions_attribution";
    if nd then "s3_conditions_if_you_share_nd"
    else "s3_conditions_if_you_share_non_nd";
    "s3_conditions_retain_the_following"; "s3_conditions_identification";
    "s3_conditions_copyright"; "s3_conditions_license";
    "s3_conditions_disclaimer"; "s3_conditions_link";
    "s3_conditions_modified"; "s3_conditions_licensed";
    "s3_conditions_satisfy"; "s3_conditions_remove" ]
  ++ (if sa then ["sharealike_name"; "sharealike_intro"] else []).

Definition extract_reuse_field (nc nd : bool) : string :=
  match nc, nd with
  | true, true => "s4_sui_generics_database_rights_extract_reuse_nc_nd"
  | true, false => "s4_sui_generics_database_rights_extract_reuse_nc"
  | false, true => "s4_sui_generics_database_rights_extract_reuse_nd"
  | false, false =>
      "s4_sui_generics_database_rights_extract_reuse_non_nc_non_nd"
  end.

Definition section4_fields (nc nd sa : bool) : list string :=
  [ "s4_sui_generics_database_rights_titles";
    "s4_sui_generics_database_rights_intro";
    extract_reuse_field nc nd;
    if sa then "s4_sui_generics_database_rights_adapted_material_sa"
    else "s4_sui_generics_database_rights_adapted_material_non-sa";
    "s4_sui_generics_database_rights_comply_s3a" ].

(** The keys of the field map, in the order of their first assignment:
    [nc], [nd] and [sa] are the three tests on the license code, [ed] and
    [downstreams] the two schemas, [n_def] and [n_down] the numbers of
    list items found, [postscript] whether the postscript of Section 4 was
    found. *)
Definition field_names (nc nd sa : bool) (ed downstreams : list string)
    (n_def n_down : nat) (postscript : bool) : list string :=
  (titles_keys ++ ["s1_definitions_title"])
  ++ definition_fields ed n_def
  ++ (["s2_scope"; "s2a_license_grant_title"] ++ s2a1_fields nc nd
      ++ s2a2_to_s2a5_fields)
  ++ downstream_fields downstreams n_down
  ++ (s2a6_fields ++ s2b_fields nc ++ section3_fields nd sa
      ++ section4_fields nc nd sa
      ++ (if postscript then [postscript_field] else [])
      ++ sections5_to_8_keys).

(** The two lists of downstream recipients of lines 370-375. *)
Definition downstream_schemas : list (list string) :=
  [ ["offer"; "no_restrictions"];
    ["offer"; "adapted_material"; "no_restrictions"] ].

(** The fields every successful extraction assigns, whatever the license
    code. *)
Definition fixed_fields : list string :=
  titles_keys
  ++ [ "s1_definitions_title"; "s2_scope"; "s2a_license_grant_title";
       "s2a_license_grant_intro" ]
  ++ s2a2_to_s2a5_fields ++ s2a6_fields
  ++ [ "s2b_other_rights_title"; "s2b_other_rights_moral";
       "s2b_other_rights_patent";
       "s3_conditions_title"; "s3_conditions_intro";
       "s3_conditions_attribution"; "s3_conditions_retain_the_following";
       "s3_conditions_identification"; "s3_conditions_copyright";
       "s3_conditions_license"; "s3_conditions_disclaimer";
       "s3_conditions_link"; "s3_conditions_modified";
       "s3_conditions_licensed"; "s3_conditions_satisfy";
       "s3_conditions_remove";
       "s4_sui_generics_database_rights_titles";
       "s4_sui_generics_database_rights_intro";
       "s4_sui_generics_database_rights_comply_s3a" ]
  ++ sections5_to_8_keys.

(** The fields that depend on the license code, each with the condition
    on the three tests ["nc" in license_code], ["nd" in license_code] and
    [license_code.endswith("-sa")] under which it is assigned. *)
Definition variant_fields : list (string * (bool -> bool -> bool -> bool)) :=
  [ ("s2a_license_grant_share_nc", fun nc _ _ => nc);
    ("s2a_license_grant_share", fun nc _ _ => negb nc);
    ("s2a_license_grant_adapted_nc_nd", fun nc nd _ => nc && nd);
    ("s2a_license_grant_adapted_nc", fun nc nd _ => nc && negb nd);
    ("s2a_license_grant_adapted_nd", fun nc nd _ => negb nc && nd);
    ("s2a_license_grant_adapted", fun nc nd _ => negb nc && negb nd);
    ("s2b_other_rights_waive_nc", fun nc _ _ => nc);
    ("s2b_other_rights_waive_non_nc", fun nc _ _ => negb nc);
    ("s3_conditions_if_you_share_nd", fun _ nd _ => nd);
    ("s3_conditions_if_you_share_non_nd", fun _ nd _ => negb nd);
    ("sharealike_name", fun _ _ sa => sa);
    ("sharealike_intro", fun _ _ sa => sa);
    ("s4_sui_generics_database_rights_extract_reuse_nc_nd",
     fun nc nd _ => nc && nd);
    ("s4_sui_generics_database_rights_extract_reuse_nc",
     fun nc nd _ => nc && negb nd);
    ("s4_sui_generics_database_rights_extract_reuse_nd",
     fun nc nd _ => negb nc && nd);
    ("s4_sui_generics_database_rights_extract_reuse_non_nc_non_nd",
     fun nc nd _ => negb nc && negb nd);
    ("s4_sui_generics_database_rights_adapted_material_sa",
     fun _ _ sa => sa);
    ("s4_sui_generics_database_rights_adapted_material_non-sa",
     fun _ _ sa => negb sa) ].

(** The field names without any definition or downstream recipient. *)
Definition base_fields (nc nd sa postscript : bool) : list string :=
  field_names nc nd sa [] [] 0 0 postscript.

(** [k] is not the name of the field of a definition or of a downstream
    recipient. *)
Definition outside_the_loops (k : string) : bool :=
  negb (Py.startswith k "s1_definitions_")
  && negb (Py.startswith k "s2a5_license_grant_downstream_").

(** The fields of Section 3 that take [str(soup.find(id=...))] as it
    comes (lines 421-426), each with the anchor it is read from. *)
Definition unguarded_fields : list (string * string) :=
  [ ("s3a1Aii", "s3_conditions_copyright");
    ("s3a1Aiii", "s3_conditions_license");
    ("s3a1Aiv", "s3_conditions_disclaimer");
    ("s3a1Av", "s3_conditions_link");
    ("s3a1B", "s3_conditions_modified");
    ("s3a1C", "s3_conditions_licensed") ].

(** The right-hand sides of Section 3 other than those of the
    [unguarded_fields] can be evaluated (lines 401-420 and 427-433). *)
Definition section3_guarded (E : Env) (soup : Node) (license_code : string)
    : Prop :=
  (exists t, nested_text E (node_of (find_id soup "s3")) = Ok t) /\
  (exists s3 t,
      find_id soup "s3" = Some s3 /\
      nested_text E (node_of (find_next_sibling s3 "p")) = Ok t) /\
  (exists t, text_up_to E (node_of (find_id soup "s3a")) "ol" = Ok t) /\
  (exists t, text_up_to E (node_of (find_id soup "s3a1")) "ol" = Ok t) /\
  (exists t, text_up_to E (node_of (find_id soup "s3a1A")) "ol" = Ok t) /\
  (exists t, nested_text E (node_of (find_id soup "s3a1Ai")) = Ok t) /\
  (exists v, first_item_string soup "s3a2" = Ok v) /\
  (exists v, first_item_string soup "s3a3" = Ok v) /\
  (Py.endswith license_code "-sa" = true ->
   exists s3b t t',
     find_id soup "s3b" = Some s3b /\
     nested_text E (node_of (descendant_tag s3b "strong")) = Ok t /\
     nested_text E (node_of (descendant_tag s3b "p")) = Ok t').

(** The children before the first [ol]. *)
Fixpoint before_ol (children : list Node) : list Node :=
  match children with
  | [] => []
  | child :: rest =>
      if option_eqb (name child) "ol" then [] else child :: before_ol rest
  end.


(** The pair a catalog was saved for. *)
Definition pair_of (c : Catalog) : string * string :=
  (catalog_language c, catalog_license c).

(** Is the value of a field a text? *)
Definition is_text (kv : string * Val) : bool :=
  match snd kv with
  | Str _ => true
  | None_ => false
  end.

(** Can line 183 strip every translation: the language is English, whose
    translations are empty, or every field holds a text. *)
Definition strippable (messages_text : dict Val) (language_code : string)
    : bool :=
  (language_code =? "en")%string || forallb is_text messages_text.



(* ===================================================================== *)
(** ** handle: permissions and catalog names (lines 57-70 and 153-155) *)
(* ===================================================================== *)

(** Lines 153-155: the language code without ["-"], ["_"] and ["."]. *)
Definition punctuationless_language_code (language_code : string) : string :=
  Py.replace
    (Py.replace (Py.replace language_code "-" EmptyString) "_" EmptyString)
    "." EmptyString.

(** A text without the characters [drop] rejects. *)
Fixpoint without (drop : ascii -> bool) (s : string) : string :=
  match s with
  | EmptyString => EmptyString
  | String c s' => if drop c then without drop s' else String c (without drop s')
  end.

(** Is [c] one of the three characters lines 153-155 take out? *)
Definition punctuation (c : ascii) : bool :=
  Ascii.eqb "-" c || Ascii.eqb "_" c || Ascii.eqb "." c.

(** [s.split(sep)] for a separator of one character: the parts between
    the separators, empty ones included. *)
Fixpoint split (s : string) (sep : ascii) : list string :=
  match s with
  | EmptyString => [EmptyString]
  | String c s' =>
      if Ascii.eqb c sep then EmptyString :: split s' sep
      else
        match split s' sep with
        | part :: parts => String c part :: parts
        | [] => [String c EmptyString]
        end
  end.

(** [sep.join(parts)] for a separator of one character. *)
Fixpoint join_with (sep : ascii) (parts : list string) : string :=
  match parts with
  | [] => EmptyString
  | [part] => part
  | part :: rest => (part ++ String sep (join_with sep rest))%string
  end.

(** The permissions, requirements and prohibitions lines 58-68 work out
    and lines 78-87 store with a license. *)
Record Permissions : Type := mkPermissions {
  permits_derivative_works : bool;
  permits_reproduction : bool;
  permits_distribution : bool;
  permits_sharing : bool;
  requires_share_alike : bool;
  requires_notice : bool;
  requires_attribution : bool;
  requires_source_code : bool;
  prohibits_commercial_use : bool;
  prohibits_high_income_nation_use : bool
}.

(** Lines 57-70 either work out the permissions or stop the command with
    [NotImplementedError(basename)]. *)
Inductive Worked_out : Type :=
| Permitted (p : Permissions)
| NotImplementedError (basename : string).

(** Lines 57-70 *)
Definition license_permissions (license_code basename : string) : Worked_out :=
  let license_code_parts := split license_code "-" in
  if Py.mem "by" license_code_parts then
    let permits_derivative_works := negb (Py.mem "nd" license_code_parts) in
    let permits_reproduction := negb (Py.mem "nd" license_code_parts) in
    let permits_distribution := negb (Py.mem "nd" license_code_parts) in
    let permits_sharing := negb (Py.mem "nd" license_code_parts) in
    let requires_share_alike := Py.mem "sa" license_code_parts in
    let requires_notice := true in
    let requires_attribution := true in
    let requires_source_code := false in
    let prohibits_commercial_use := Py.mem "nc" license_code_parts in
    let prohibits_high_income_nation_use := false in
    Permitted
      (mkPermissions permits_derivative_works permits_reproduction
         permits_distribution permits_sharing requires_share_alike
         requires_notice requires_attribution requires_source_code
         prohibits_commercial_use prohibits_high_income_nation_use)
  else NotImplementedError basename.

(* ===================================================================== *)
(** ** Dictionaries and assignments *)
(* ===================================================================== *)

Lemma get_setitem_same {V : Type} (d : dict V) (k : string) (v : V) :
  Py.get (Py.setitem d k v) k = Some v.
Proof.
  induction d as [| [k' v'] d IH]; simpl.
  - now rewrite String.eqb_refl.
  - destruct (String.eqb k' k) eqn:K; simpl; rewrite K; auto.
Qed.

Lemma get_setitem_other {V : Type} (d : dict V) (k k' : string) (v : V) :
  String.eqb k k' = false ->
  Py.get (Py.setitem d k v) k' = Py.get d k'.
Proof.
  intros N. induction d as [| [k0 v0] d IH]; simpl.
  - now rewrite N.
  - destruct (String.eqb k0 k) eqn:K; simpl.
    + apply String.eqb_eq in K. subst k0. now rewrite N.
    + now rewrite IH.
Qed.

Lemma Writes_get (P : string -> bool) (m m' : dict Val) (k : string) :
  Writes P m m' -> P k = false -> Py.get m' k = Py.get m k.
Proof.
  induction 1 as [| m m' k0 v W IH Pk0]; intros Pk; [reflexivity |].
  rewrite get_setitem_other; auto.
  destruct (String.eqb k0 k) eqn:K; [| reflexivity].
  apply String.eqb_eq in K. congruence.
Qed.

Lemma Writes_trans (P : string -> bool) (m1 m2 m3 : dict Val) :
  Writes P m1 m2 -> Writes P m2 m3 -> Writes P m1 m3.
Proof.
  intros W12 W23. induction W23; [assumption |].
  now apply Writes_more; [apply IHW23 |].
Qed.

Lemma Writes_assign (P : string -> bool) (m m' : dict Val) k e :
  assign m k e = Ok m' -> P k = true -> Writes P m m'.
Proof.
  unfold assign. destruct e; simpl; [| discriminate].
  intros [= <-] Pk. now apply Writes_more; [apply Writes_nothing |].
Qed.

Lemma Writes_assign_val (P : string -> bool) (m m' : dict Val) k e :
  assign_val m k e = Ok m' -> P k = true -> Writes P m m'.
Proof.
  unfold assign_val. destruct e; simpl; [| discriminate].
  intros [= <-] Pk. now apply Writes_more; [apply Writes_nothing |].
Qed.

(** Symbolic execution of a block of assignments: split every bind and
    every branch, turn every assignment into a [Writes] fact. *)
Ltac split_block P :=
  repeat match goal with
  | H : assign _ _ _ = Ok _ |- _ =>
      apply (Writes_assign P) in H; [| vm_compute; reflexivity]
  | H : assign_val _ _ _ = Ok _ |- _ =>
      apply (Writes_assign_val P) in H; [| vm_compute; reflexivity]
  | H : Py.bind ?c _ = Ok _ |- _ =>
      let E := fresh "E" in
      destruct c eqn:E; cbn beta iota zeta delta [Py.bind] in H;
      [| discriminate H];
      lazymatch type of E with
      | _ = @Ok (dict Val) _ => idtac
      | _ => clear E
      end
  | H : (if ?b then _ else _) = Ok _ |- _ => destruct b
  | H : match ?x with Some _ => _ | None => _ end = Ok _ |- _ =>
      destruct x; try discriminate H
  | H : Ok _ = Ok _ |- _ => injection H as H; subst
  | H : Raise _ = Ok _ |- _ => discriminate H
  end.

Ltac chain_writes :=
  repeat first
    [ assumption
    | apply Writes_nothing
    | apply Writes_more; [| vm_compute; reflexivity]
    | eapply Writes_trans; [| eassumption] ].

Section Frames.

Variable E : Env.

Lemma titles_and_intro_writes soup m m' :
  titles_and_intro E soup m = Ok m' -> Writes (among [] titles_keys) m m'.
Proof.
  unfold titles_and_intro. intros H.
  split_block (among [] titles_keys); chain_writes.
Qed.

Lemma definitions_loop_writes lis : forall i ed m m',
  definitions_loop E i lis ed m = Ok m' ->
  Writes (among ["s1_definitions_"] []) m m'.
Proof.
  induction lis as [| li lis IH]; simpl; intros i ed m m' H.
  - injection H as <-. apply Writes_nothing.
  - destruct (name_and_text E (Some li)); simpl in H; [| discriminate].
    destruct (Py.item ed i); simpl in H; [| discriminate].
    apply IH in H. eapply Writes_trans; [| exact H].
    apply Writes_more; [apply Writes_nothing | vm_compute; reflexivity].
Qed.

Lemma section1_definitions_writes soup lc lang m m' :
  section1_definitions E soup lc lang m = Ok m' ->
  Writes (among ["s1_definitions_"] []) m m'.
Proof.
  unfold section1_definitions. intros H.
  split_block (among ["s1_definitions_"] []).
  apply definitions_loop_writes in H. chain_writes.
Qed.

Lemma section2_scope_writes soup m m' :
  section2_scope E soup m = Ok m' -> Writes (among [] ["s2_scope"]) m m'.
Proof.
  unfold section2_scope. intros H.
  split_block (among [] ["s2_scope"]); chain_writes.
Qed.

Lemma s2a_license_grant_title_writes soup m m' :
  s2a_license_grant_title E soup m = Ok m' ->
  Writes (among [] ["s2a_license_grant_title"]) m m'.
Proof.
  unfold s2a_license_grant_title. intros H.
  split_block (among [] ["s2a_license_grant_title"]); chain_writes.
Qed.

Lemma s2a1_rights_writes soup lc m m' :
  s2a1_rights E soup lc m = Ok m' -> Writes (among [] s2a1_keys) m m'.
Proof.
  unfold s2a1_rights. intros H.
  split_block (among [] s2a1_keys); chain_writes.
Qed.

Lemma downstream_loop_writes lis : forall i ed m m',
  downstream_loop E i lis ed m = Ok m' ->
  Writes (among ["s2a5_license_grant_downstream_"] s2a2_to_s2a6_keys) m m'.
Proof.
  induction lis as [| li lis IH]; simpl; intros i ed m m' H.
  - injection H as <-. apply Writes_nothing.
  - destruct (Py.item ed i); simpl in H; [| discriminate].
    destruct (name_and_text E (Some li)); simpl in H; [| discriminate].
    apply IH in H. eapply Writes_trans; [| exact H].
    repeat (apply Writes_more; [| vm_compute; reflexivity]). apply Writes_nothing.
Qed.

Lemma s2a2_to_s2a6_writes soup lc m m' :
  s2a2_to_s2a6 E soup lc m = Ok m' ->
  Writes (among ["s2a5_license_grant_downstream_"] s2a2_to_s2a6_keys) m m'.
Proof.
  unfold s2a2_to_s2a6, assign_name_and_text. intros H.
  split_block (among ["s2a5_license_grant_downstream_"] s2a2_to_s2a6_keys).
  match goal with
  | L : downstream_loop _ _ _ _ _ = Ok _ |- _ => apply downstream_loop_writes in L
  end.
  chain_writes.
Qed.

Lemma s2b_other_rights_writes soup lc m m' :
  s2b_other_rights E soup lc m = Ok m' -> Writes (among [] s2b_keys) m m'.
Proof.
  unfold s2b_other_rights. intros H.
  split_block (among [] s2b_keys); chain_writes.
Qed.

Lemma section3_conditions_writes soup lc m m' :
  section3_conditions E soup lc m = Ok m' -> Writes (among [] section3_keys) m m'.
Proof.
  unfold section3_conditions. intros H.
  split_block (among [] section3_keys); chain_writes.
Qed.

Lemma section4_database_rights_writes soup lc m m' :
  section4_database_rights E soup lc m = Ok m' ->
  Writes (among [] section4_keys) m m'.
Proof.
  unfold section4_database_rights. intros H.
  destruct (Py.endswith lc "-sa");
    split_block (among [] section4_keys); chain_writes.
Qed.

Lemma sections5_to_8_writes soup m m' :
  sections5_to_8 E soup m = Ok m' -> Writes (among [] sections5_to_8_keys) m m'.
Proof.
  unfold sections5_to_8. intros H.
  split_block (among [] sections5_to_8_keys); chain_writes.
Qed.

End Frames.


Lemma append_inj_l (p a b : string) : (p ++ a)%string = (p ++ b)%string -> a = b.
Proof. induction p as [| c p IH]; simpl; intros H; [exact H |]. injection H as H. auto. Qed.

(** Each list item is stored under the name the schema has at its
    position; positions of the schema not reached keep their entries. *)
Lemma definitions_loop_positions (E : Env) (ed : list string) :
  NoDup ed ->
  forall lis i0 m m',
    definitions_loop E i0 lis ed m = Ok m' ->
    (forall j li,
        nth_error lis j = Some li ->
        exists key thing,
          nth_error ed (i0 + j) = Some key /\
          name_and_text E (Some li) = Ok thing /\
          Py.get m' ("s1_definitions_" ++ key)
          = Some (Str ("*" ++ fst thing ++ "* " ++ snd thing))) /\
    (forall key,
        (forall j, i0 <= j -> nth_error ed j <> Some key) ->
        Py.get m' ("s1_definitions_" ++ key)
        = Py.get m ("s1_definitions_" ++ key)).
Proof.
  intros ND. induction lis as [| li rest IH]; intros i0 m m' H.
  - injection H as <-. split; [| reflexivity].
    intros [| j] li0 Hj; discriminate Hj.
  - cbn [definitions_loop] in H.
    destruct (name_and_text E (Some li)) as [thing |] eqn:T;
      cbn [Py.bind] in H; [| discriminate H].
    unfold Py.item in H.
    destruct (nth_error ed i0) as [k0 |] eqn:K; cbn [Py.bind] in H;
      [| discriminate H].
    apply IH in H. destruct H as [Hitems Hkeep]. split.
    + intros [| j] li0 Hj.
      * injection Hj as <-. exists k0, thing. rewrite Nat.add_0_r.
        split; [exact K | split; [exact T |]].
        rewrite Hkeep; [apply get_setitem_same |].
        intros j Hle Hj.
        assert (i0 = j).
        { apply (proj1 (NoDup_nth_error ed) ND).
          - apply nth_error_Some. congruence.
          - congruence. }
        lia.
      * destruct (Hitems j li0 Hj) as (key & thing0 & Hkey & Hthing & Hget).
        exists key, thing0. rewrite Nat.add_succ_r. auto.
    + intros key Hkey. rewrite Hkeep by (intros j Hle; apply Hkey; lia).
      apply get_setitem_other. apply String.eqb_neq. intros Eq.
      apply append_inj_l in Eq. subst k0. now apply (Hkey i0 (le_n i0)).
Qed.

(* ===================================================================== *)
(** ** The steps of the extraction *)
(* ===================================================================== *)

Section Steps.

Variable E : Env.

Lemma extract_fields_steps soup lc lang m :
  extract_fields E soup lc lang = Ok m ->
  exists m1 m2 m3 m4 m5 m6 m7 m8 m9 m10,
    titles_and_intro E soup [] = Ok m1 /\
    section1_definitions E soup lc lang m1 = Ok m2 /\
    section2_scope E soup m2 = Ok m3 /\
    s2a_license_grant_title E soup m3 = Ok m4 /\
    s2a1_rights E soup lc m4 = Ok m5 /\
    s2a2_to_s2a6 E soup lc m5 = Ok m6 /\
    s2b_other_rights E soup lc m6 = Ok m7 /\
    section3_conditions E soup lc m7 = Ok m8 /\
    section4_database_rights E soup lc m8 = Ok m9 /\
    s4_postscript soup m9 = Ok m10 /\
    sections5_to_8 E soup m10 = Ok m.
Proof.
  unfold extract_fields. intros H.
  repeat match type of H with
  | Py.bind ?c _ = Ok _ =>
      destruct c eqn:?; cbn beta iota delta [Py.bind] in H; [| discriminate H]
  end.
  repeat eexists; eassumption.
Qed.

Lemma import_steps content lc lang m :
  import_by_40_license_html E content lc lang = Ok m ->
  extract_fields E (BeautifulSoup E (normalize_emphasis content)) lc lang = Ok m /\
  validate_dictionary_is_all_text E m = Ok tt.
Proof.
  unfold import_by_40_license_html. cbv zeta.
  destruct (extract_fields _ _ _ _) as [m0 |]; simpl; [| discriminate].
  destruct (validate_dictionary_is_all_text E m0) as [[] |] eqn:V; simpl;
    [| discriminate].
  intros [= <-]. auto.
Qed.

Lemma import_raises_of_validation content lc lang m e :
  extract_fields E (BeautifulSoup E (normalize_emphasis content)) lc lang = Ok m ->
  validate_dictionary_is_all_text E m = Raise e ->
  import_by_40_license_html E content lc lang = Raise e.
Proof.
  unfold import_by_40_license_html. cbv zeta. intros -> V. simpl.
  now rewrite V.
Qed.

(** The loop with its two flags is the state machine. *)
Lemma scan_done c siblings : scan (DONE c) siblings = DONE c.
Proof. induction siblings; simpl; auto. Qed.

Lemma postscript_loop_scan children : forall s4_seen take_next m,
  postscript_loop s4_seen take_next children m =
  match scan (state_of_flags s4_seen take_next) children with
  | DONE c => Py.setitem m postscript_field (string_of c)
  | _ => m
  end.
Proof.
  induction children as [| item rest IH]; intros s4_seen take_next m.
  - destruct s4_seen, take_next; reflexivity.
  - destruct take_next.
    + simpl. unfold scan. simpl. fold (scan (DONE item) rest).
      now rewrite scan_done.
    + destruct s4_seen; simpl.
      * unfold scan; simpl. fold (has_name "ol" item).
        destruct (has_name "ol" item); apply IH.
      * unfold scan; simpl. fold (has_id "s4" item).
        destruct (has_id "s4" item); apply IH.
Qed.

Lemma s4_postscript_get soup m m' :
  s4_postscript soup m = Ok m' ->
  Py.get m postscript_field = None ->
  exists s4, find_id soup "s4" = Some s4 /\
    Py.get m' postscript_field
    = postscript_of (scan SEEKING_ANCHOR (contents (parent s4))).
Proof.
  unfold s4_postscript. destruct (find_id soup "s4") as [s4 |]; simpl;
    [| discriminate].
  intros [= <-] N. exists s4. split; [reflexivity |].
  rewrite postscript_loop_scan. simpl.
  destruct (scan SEEKING_ANCHOR (contents (parent s4))); simpl; auto.
  apply get_setitem_same.
Qed.

Lemma s4_postscript_writes soup m m' :
  s4_postscript soup m = Ok m' -> Writes (among [] [postscript_field]) m m'.
Proof.
  unfold s4_postscript. destruct (find_id soup "s4") as [s4 |]; simpl;
    [| discriminate].
  intros [= <-]. rewrite postscript_loop_scan.
  destruct (scan _ _); try apply Writes_nothing.
  apply Writes_more; [apply Writes_nothing | reflexivity].
Qed.

(** The content of s2a1B goes to the field the flags select, and to no
    other of the four. *)
Lemma s2a1_rights_adapted soup lc m m' :
  s2a1_rights E soup lc m = Ok m' ->
  let field := adapted_field (Py.contains lc "nc") (Py.contains lc "nd") in
  (exists first, first_item (find_id soup "s2a1B") = Ok first /\
     Py.get m' field = Some (Str (Py.strip (str E first)))) /\
  forall other, In other adapted_fields -> other <> field ->
    Py.get m' other = Py.get m other.
Proof.
  unfold s2a1_rights, assign, first_item_text. intros H.
  destruct (first_item (find_id soup "s2a1")); simpl in H; [| discriminate].
  assert (S : exists m1 k v, (k = "s2a_license_grant_share_nc"
                              \/ k = "s2a_license_grant_share") /\
            m1 = Py.setitem (Py.setitem m "s2a_license_grant_intro"
                               (Str (Py.strip (str E a)))) k v /\
            (if Py.contains lc "nc" && Py.contains lc "nd"
             then v <- (c <- first_item (find_id soup "s2a1B") ;;
                        Ok (Py.strip (str E c))) ;;
                  Ok (Py.setitem m1 "s2a_license_grant_adapted_nc_nd" (Str v))
             else if Py.contains lc "nc"
             then v <- (c <- first_item (find_id soup "s2a1B") ;;
                        Ok (Py.strip (str E c))) ;;
                  Ok (Py.setitem m1 "s2a_license_grant_adapted_nc" (Str v))
             else if Py.contains lc "nd"
             then v <- (c <- first_item (find_id soup "s2a1B") ;;
                        Ok (Py.strip (str E c))) ;;
                  Ok (Py.setitem m1 "s2a_license_grant_adapted_nd" (Str v))
             else v <- (c <- first_item (find_id soup "s2a1B") ;;
                        Ok (Py.strip (str E c))) ;;
                  Ok (Py.setitem m1 "s2a_license_grant_adapted" (Str v)))
            = Ok m').
  { destruct (first_item (find_id soup "s2a1A")) as [b |];
      [| destruct (Py.contains lc "nc"); discriminate H].
    destruct (Py.contains lc "nc"); simpl in H;
      eexists _, _, _; (split; [| split; [reflexivity | exact H]]); auto. }
  clear H. destruct S as (m1 & k & v & Hk & -> & H).
  destruct (first_item (find_id soup "s2a1B")) as [first |];
    [| destruct (Py.contains lc "nc"), (Py.contains lc "nd"); discriminate H].
  cbv zeta. split.
  - exists first. split; [reflexivity |].
    destruct (Py.contains lc "nc"), (Py.contains lc "nd");
      cbn [Py.bind andb] in H; injection H as <-; apply get_setitem_same.
  - intros other In_other Ne.
    assert (N1 : String.eqb "s2a_license_grant_intro" other = false).
    { destruct In_other as [<- | [<- | [<- | [<- | []]]]]; reflexivity. }
    assert (N2 : String.eqb k other = false).
    { destruct Hk as [-> | ->];
        destruct In_other as [<- | [<- | [<- | [<- | []]]]]; reflexivity. }
    assert (N3 : String.eqb
              (adapted_field (Py.contains lc "nc") (Py.contains lc "nd")) other
              = false).
    { apply String.eqb_neq. congruence. }
    destruct (Py.contains lc "nc"), (Py.contains lc "nd");
      cbn [Py.bind andb adapted_field] in H, N3; injection H as <-;
      now rewrite !get_setitem_other.
Qed.

End Steps.


(* ===================================================================== *)
(** ** Textual replacement *)
(* ===================================================================== *)

Lemma contains_cons s c q :
  Py.contains (String c s) q = Py.startswith (String c s) q || Py.contains s q.
Proof. reflexivity. Qed.

Lemma startswith_clash q : forall new t,
  clash q new = true -> Py.startswith (new ++ t) q = false.
Proof.
  induction q as [| a q IH]; intros [| b new] t C; simpl in *; try discriminate.
  destruct (Ascii.eqb a b); simpl in *; auto.
Qed.

Lemma contains_after_absent a q' new' : forall X,
  absent a new' = true ->
  Py.contains X (String a q') = false ->
  Py.contains (new' ++ X) (String a q') = false.
Proof.
  induction new' as [| d n IH]; intros X A C; simpl in *; [exact C |].
  apply andb_prop in A. destruct A as [A1 A2].
  apply negb_true_iff in A1.
  change (String d (n ++ X)) with (String d n ++ X) in *.
  rewrite A1. simpl. fold (Py.contains (n ++ X) (String a q')). auto.
Qed.

Lemma startswith_replaced old a new' x : forall s,
  absent a x = true ->
  Py.startswith (Py.replace_from old (String a new') 0 s) x = true ->
  Py.startswith s x = true.
Proof.
  induction x as [| d x IH]; intros s A H; [reflexivity |].
  simpl in A. apply andb_prop in A. destruct A as [A1 A2].
  apply negb_true_iff in A1.
  destruct s as [| c s]; [discriminate H |].
  cbn [Py.replace_from] in H.
  destruct (Py.startswith (String c s) old).
  - simpl in H. rewrite Ascii.eqb_sym, A1 in H. discriminate.
  - cbn [Py.startswith] in H |- *.
    apply andb_prop in H. destruct H as [H1 H2].
    rewrite H1. simpl. auto.
Qed.

(** Where [q] is kept out of [new], replacing [old] by [new] leaves no [q]
    in a text whose every [q] was an [old]. *)
Lemma replace_from_keeps_out old new q s :
  kept_out q new = true ->
  forall k, covered q old s ->
  Py.contains (Py.replace_from old new k s) q = false.
Proof.
  unfold kept_out. intros Hkept.
  destruct q as [| a q']; [discriminate |].
  destruct new as [| b new']; [discriminate |].
  apply andb_prop in Hkept. destruct Hkept as [H123 Hclash].
  apply andb_prop in H123. destruct H123 as [H12 Hnew].
  apply andb_prop in H12. destruct H12 as [Hab Hq].
  apply Ascii.eqb_eq in Hab. subst b.
  induction s as [| c s' IH]; intros k Hc; [reflexivity |].
  destruct Hc as [Hhere Hrest].
  destruct k as [| k]; [| simpl; auto].
  cbn [Py.replace_from].
  destruct (Py.startswith (String c s') old) eqn:O.
  - set (X := Py.replace_from old (String a new') (String.length old - 1) s').
    assert (CX : Py.contains X (String a q') = false) by (apply IH; exact Hrest).
    change (String a new' ++ X)%string with (String a (new' ++ X)%string).
    rewrite contains_cons.
    change (String a (new' ++ X)%string) with (String a new' ++ X)%string at 1.
    rewrite (startswith_clash _ _ _ Hclash). simpl.
    fold (Py.contains (new' ++ X)%string (String a q')).
    now apply contains_after_absent.
  - rewrite contains_cons, (IH 0 Hrest), orb_false_r.
    destruct (Py.startswith
                (String c (Py.replace_from old (String a new') 0 s'))
                (String a q')) eqn:S; [| reflexivity].
    cbn [Py.startswith] in S. apply andb_prop in S. destruct S as [S1 S2].
    assert (T : Py.startswith (String c s') (String a q') = true).
    { cbn [Py.startswith]. rewrite S1. simpl.
      now apply startswith_replaced in S2. }
    discriminate (Hhere T).
Qed.

Lemma covered_same q s : covered q q s.
Proof. induction s; simpl; auto. Qed.

Lemma covered_of_absent q old s : Py.contains s q = false -> covered q old s.
Proof.
  induction s as [| c s IH]; simpl; intros C.
  - apply orb_false_elim in C. destruct C as [C _]. rewrite C.
    split; [discriminate | exact I].
  - apply orb_false_elim in C. destruct C as [C1 C2].
    fold (Py.contains s q) in C2. split; [| auto].
    change (Py.startswith (String c s) q = true -> Py.startswith (String c s) old = true).
    rewrite C1. discriminate.
Qed.

(** [replace] removes every [old]... *)
Lemma replace_removes s old new :
  kept_out old new = true -> Py.contains (Py.replace s old new) old = false.
Proof.
  intros K. destruct old as [| a o]; [discriminate |].
  unfold Py.replace. apply replace_from_keeps_out; [exact K | apply covered_same].
Qed.

(** ...and brings in no [q] that is kept out of [new]. *)
Lemma replace_preserves s old new q :
  old <> EmptyString -> kept_out q new = true ->
  Py.contains s q = false -> Py.contains (Py.replace s old new) q = false.
Proof.
  intros O K C. destruct old as [| a o]; [congruence |].
  unfold Py.replace.
  apply replace_from_keeps_out; [exact K | now apply covered_of_absent].
Qed.

(** A text without [old] is left as it is. *)
Lemma replace_nothing s old new :
  old <> EmptyString -> Py.contains s old = false -> Py.replace s old new = s.
Proof.
  intros O. destruct old as [| a o]; [congruence |]. unfold Py.replace.
  induction s as [| c s IH]; intros C; [reflexivity |].
  rewrite contains_cons in C. apply orb_false_elim in C. destruct C as [C1 C2].
  cbn [Py.replace_from]. rewrite C1. now rewrite IH.
Qed.

Lemma normalize_emphasis_removes raw_html q :
  In q spellings -> Py.contains (normalize_emphasis raw_html) q = false.
Proof.
  unfold normalize_emphasis, spellings.
  set (s1 := Py.replace raw_html "<b>" "<strong>").
  set (s2 := Py.replace s1 "</b>" "</strong>").
  set (s3 := Py.replace s2 "<B>" "<strong>").
  assert (A1 : Py.contains s1 "<b>" = false) by (now apply replace_removes).
  assert (B1 : Py.contains s2 "<b>" = false)
    by (apply replace_preserves; [discriminate | reflexivity | exact A1]).
  assert (B2 : Py.contains s2 "</b>" = false) by (now apply replace_removes).
  assert (C1 : Py.contains s3 "<b>" = false)
    by (apply replace_preserves; [discriminate | reflexivity | exact B1]).
  assert (C2 : Py.contains s3 "</b>" = false)
    by (apply replace_preserves; [discriminate | reflexivity | exact B2]).
  assert (C3 : Py.contains s3 "<B>" = false) by (now apply replace_removes).
  intros [<- | [<- | [<- | [<- | []]]]].
  - apply replace_preserves; [discriminate | reflexivity | exact C1].
  - apply replace_preserves; [discriminate | reflexivity | exact C2].
  - apply replace_preserves; [discriminate | reflexivity | exact C3].
  - now apply replace_removes.
Qed.

Lemma normalize_emphasis_nothing raw_html :
  (forall q, In q spellings -> Py.contains raw_html q = false) ->
  normalize_emphasis raw_html = raw_html.
Proof.
  intros H. unfold normalize_emphasis.
  rewrite (replace_nothing raw_html "<b>");
    [| discriminate | apply H; simpl; auto].
  rewrite (replace_nothing raw_html "</b>");
    [| discriminate | apply H; simpl; auto].
  rewrite (replace_nothing raw_html "<B>");
    [| discriminate | apply H; simpl; auto].
  apply replace_nothing; [discriminate | apply H; simpl; auto].
Qed.


(** *** The four replacements as one scan *)

Lemma startswith_split p : forall s,
  Py.startswith s p = true -> exists t, s = (p ++ t)%string.
Proof.
  induction p as [| a p IH]; intros s H; [now exists s |].
  destruct s as [| c s]; [discriminate H |].
  simpl in H. apply andb_prop in H. destruct H as [H1 H2].
  apply Ascii.eqb_eq in H1. subst c.
  destruct (IH s H2) as (t & ->). now exists t.
Qed.

(** A character that begins no occurrence of [old] is copied. *)
Lemma replace_from_copies old new c s :
  Py.startswith (String c s) old = false ->
  Py.replace_from old new 0 (String c s)
  = String c (Py.replace_from old new 0 s).
Proof. intros H. cbn [Py.replace_from]. now rewrite H. Qed.

(** A replacement whose new text begins with a character absent from the
    rest of [q] brings no [q] to the front. *)
Lemma startswith_kept_false old a new' q c s :
  match q with
  | EmptyString => False
  | String _ q' => absent a q' = true
  end ->
  Py.startswith (String c s) q = false ->
  Py.startswith (String c (Py.replace_from old (String a new') 0 s)) q = false.
Proof.
  destruct q as [| b q']; [intros [] |]. intros A H.
  destruct (Py.startswith (String c (Py.replace_from old (String a new') 0 s))
              (String b q')) eqn:S; [| reflexivity].
  cbn [Py.startswith] in S, H. apply andb_prop in S. destruct S as [S1 S2].
  rewrite S1 in H. simpl in H.
  apply startswith_replaced in S2; [congruence | exact A].
Qed.

(** What the four replacements of lines 235-236 do at the front of a
    text. *)
Lemma normalize_emphasis_empty : normalize_emphasis EmptyString = EmptyString.
Proof. reflexivity. Qed.

Lemma normalize_emphasis_b t :
  normalize_emphasis ("<b>" ++ t) = ("<strong>" ++ normalize_emphasis t)%string.
Proof. reflexivity. Qed.

Lemma normalize_emphasis_B t :
  normalize_emphasis ("<B>" ++ t) = ("<strong>" ++ normalize_emphasis t)%string.
Proof. reflexivity. Qed.

Lemma normalize_emphasis_end_b t :
  normalize_emphasis ("</b>" ++ t) = ("</strong>" ++ normalize_emphasis t)%string.
Proof. reflexivity. Qed.

Lemma normalize_emphasis_end_B t :
  normalize_emphasis ("</B>" ++ t) = ("</strong>" ++ normalize_emphasis t)%string.
Proof. reflexivity. Qed.

Lemma normalize_emphasis_other c s :
  (forall q, In q spellings -> Py.startswith (String c s) q = false) ->
  normalize_emphasis (String c s) = String c (normalize_emphasis s).
Proof.
  intros H. unfold normalize_emphasis, Py.replace.
  assert (H1 : Py.startswith (String c s) "<b>" = false)
    by (apply H; simpl; auto).
  assert (H2 : Py.startswith (String c s) "</b>" = false)
    by (apply H; simpl; auto).
  assert (H3 : Py.startswith (String c s) "<B>" = false)
    by (apply H; simpl; auto).
  assert (H4 : Py.startswith (String c s) "</B>" = false)
    by (apply H; simpl; auto).
  rewrite (replace_from_copies "<b>" "<strong>" c s H1).
  set (s1 := Py.replace_from "<b>" "<strong>" 0 s).
  assert (K2 : Py.startswith (String c s1) "</b>" = false).
  { apply (startswith_kept_false "<b>" "<" "strong>" "</b>" c s eq_refl H2). }
  rewrite (replace_from_copies "</b>" "</strong>" c s1 K2).
  set (s2 := Py.replace_from "</b>" "</strong>" 0 s1).
  assert (K3 : Py.startswith (String c s2) "<B>" = false).
  { apply (startswith_kept_false "</b>" "<" "/strong>" "<B>" c s1 eq_refl).
    apply (startswith_kept_false "<b>" "<" "strong>" "<B>" c s eq_refl H3). }
  rewrite (replace_from_copies "<B>" "<strong>" c s2 K3).
  set (s3 := Py.replace_from "<B>" "<strong>" 0 s2).
  assert (K4 : Py.startswith (String c s3) "</B>" = false).
  { apply (startswith_kept_false "<B>" "<" "strong>" "</B>" c s2 eq_refl).
    apply (startswith_kept_false "</b>" "<" "/strong>" "</B>" c s1 eq_refl).
    apply (startswith_kept_false "<b>" "<" "strong>" "</B>" c s eq_refl H4). }
  rewrite (replace_from_copies "</B>" "</strong>" c s3 K4).
  reflexivity.
Qed.

Lemma rewrite_to_strong_spelling q new k t :
  In (q, new, k) [ ("<b>", "<strong>", 2); ("<B>", "<strong>", 2);
                   ("</b>", "</strong>", 3); ("</B>", "</strong>", 3) ] ->
  rewrite_to_strong 0 (q ++ t) = (new ++ rewrite_to_strong 0 t)%string.
Proof.
  simpl. intros [[= <- <- <-] | [[= <- <- <-] | [[= <- <- <-] | [[= <- <- <-] | []]]]];
    reflexivity.
Qed.

Lemma emphasis_at_none s :
  (forall q, In q spellings -> Py.startswith s q = false) ->
  emphasis_at s = None.
Proof.
  intros H. unfold emphasis_at.
  rewrite (H "<b>"), (H "<B>"), (H "</b>"), (H "</B>"); simpl; auto 6.
Qed.

Lemma spelling_cases s :
  (exists q new k t,
      In (q, new, k) [ ("<b>", "<strong>", 2); ("<B>", "<strong>", 2);
                       ("</b>", "</strong>", 3); ("</B>", "</strong>", 3) ] /\
      s = (q ++ t)%string) \/
  (forall q, In q spellings -> Py.startswith s q = false).
Proof.
  destruct (Py.startswith s "<b>") eqn:H1.
  { left. destruct (startswith_split _ _ H1) as (t & ->).
    exists "<b>", "<strong>", 2, t. simpl. auto. }
  destruct (Py.startswith s "</b>") eqn:H2.
  { left. destruct (startswith_split _ _ H2) as (t & ->).
    exists "</b>", "</strong>", 3, t. simpl. auto 6. }
  destruct (Py.startswith s "<B>") eqn:H3.
  { left. destruct (startswith_split _ _ H3) as (t & ->).
    exists "<B>", "<strong>", 2, t. simpl. auto. }
  destruct (Py.startswith s "</B>") eqn:H4.
  { left. destruct (startswith_split _ _ H4) as (t & ->).
    exists "</B>", "</strong>", 3, t. simpl. auto 6. }
  right. unfold spellings. simpl.
  intros q [<- | [<- | [<- | [<- | []]]]]; assumption.
Qed.

Lemma normalize_emphasis_spelling q new k t :
  In (q, new, k) [ ("<b>", "<strong>", 2); ("<B>", "<strong>", 2);
                   ("</b>", "</strong>", 3); ("</B>", "</strong>", 3) ] ->
  normalize_emphasis (q ++ t) = (new ++ normalize_emphasis t)%string.
Proof.
  simpl. intros [[= <- <- <-] | [[= <- <- <-] | [[= <- <- <-] | [[= <- <- <-] | []]]]];
    reflexivity.
Qed.

Lemma length_append (a b : string) :
  String.length (a ++ b) = String.length a + String.length b.
Proof. induction a as [| c a IH]; simpl; [reflexivity | now rewrite IH]. Qed.

(** The four replacements in sequence do what one scan from the left
    does. *)
Lemma normalize_emphasis_one_scan s :
  normalize_emphasis s = rewrite_to_strong 0 s.
Proof.
  remember (String.length s) as n eqn:L.
  revert s L. induction n as [n IH] using lt_wf_ind. intros s L.
  destruct (spelling_cases s) as [(q & new & k & t & Hin & ->) | None].
  - rewrite (normalize_emphasis_spelling _ _ _ _ Hin).
    rewrite (rewrite_to_strong_spelling _ _ _ _ Hin).
    rewrite (IH (String.length t)); [reflexivity | | reflexivity].
    subst n. rewrite length_append.
    simpl in Hin.
    destruct Hin as [[= <- _ _] | [[= <- _ _] | [[= <- _ _] | [[= <- _ _] | []]]]];
      simpl; lia.
  - destruct s as [| c s]; [reflexivity |].
    rewrite (normalize_emphasis_other _ _ None).
    cbn [rewrite_to_strong]. rewrite (emphasis_at_none _ None).
    rewrite (IH (String.length s)); [reflexivity | | reflexivity].
    subst n. simpl. lia.
Qed.

(* ===================================================================== *)
(** ** Catalog assembly *)
(* ===================================================================== *)

Lemma pofile_loop_entries english_text language_code items :
  forall pofile out,
  pofile_loop english_text language_code items pofile = Ok out ->
  exists entries,
    out = pofile ++ entries /\
    Forall2 (entry_for english_text language_code) items entries.
Proof.
  induction items as [| [k t] items IH]; simpl; intros pofile out H.
  - injection H as <-. exists []. now rewrite app_nil_r.
  - set (key := if Py.haskey english_text k
                then Py.getitem english_text k else Ok t) in H.
    assert (K : key = Ok match Py.get english_text k with
                         | Some text => text
                         | None => t
                         end).
    { unfold key, Py.haskey, Py.getitem.
      now destruct (Py.get english_text k). }
    rewrite K in H. clear key K. cbn [Py.bind] in H.
    destruct (Py.strip_val _) as [stripped |] eqn:S; cbn [Py.bind] in H;
      [| discriminate].
    apply IH in H. destruct H as (entries & -> & F).
    eexists (_ :: entries). rewrite <- app_assoc. split; [reflexivity |].
    constructor; [| exact F]. split; [reflexivity | exact S].
Qed.

Lemma assemble_pofile_entries english_text messages_text language_code pofile :
  assemble_pofile english_text messages_text language_code = Ok pofile ->
  Forall2 (entry_for english_text language_code) (Py.items messages_text) pofile.
Proof.
  unfold assemble_pofile.
  destruct (pofile_loop _ _ _ _) as [out |] eqn:L; simpl; [| discriminate].
  destruct (Py.haskey messages_text "license_medium"); [| discriminate].
  intros [= <-]. apply pofile_loop_entries in L.
  now destruct L as (entries & -> & F).
Qed.

Lemma Forall2_nth {A B : Type} (R : A -> B -> Prop) l l' :
  Forall2 R l l' ->
  forall i x y, nth_error l i = Some x -> nth_error l' i = Some y -> R x y.
Proof.
  induction 1 as [| a b l l' Rab F IH]; intros [| i] x y Hx Hy;
    simpl in *; try discriminate.
  - congruence.
  - eauto.
Qed.

(* ===================================================================== *)
(** ** The loops of handle *)
(* ===================================================================== *)

Section Loops.

Variable E : Env.
Variable store : Store.

Lemma handle_pair_steps language_code license_code r r' :
  handle_pair E store language_code license_code r = Ok r' ->
  exists content messages_text english_text pofile,
    html_file store license_code language_code = Some content /\
    import_by_40_license_html E content license_code language_code
    = Ok messages_text /\
    english_by_license_code r'
    = (if language_code =? "en"
       then Py.setitem (english_by_license_code r) license_code messages_text
       else english_by_license_code r) /\
    Py.get (english_by_license_code r') license_code = Some english_text /\
    assemble_pofile english_text messages_text language_code = Ok pofile /\
    saved r' = saved r ++ [mkCatalog language_code license_code pofile].
Proof.
  unfold handle_pair.
  destruct (html_file store license_code language_code) as [content |];
    cbn [Py.bind]; [| discriminate].
  destruct (import_by_40_license_html E content license_code language_code)
    as [messages_text |] eqn:I; cbn [Py.bind]; [| discriminate].
  cbv zeta. unfold Py.getitem.
  destruct (Py.get _ license_code) as [english_text |] eqn:G;
    cbn [Py.bind]; [| discriminate].
  destruct (assemble_pofile english_text messages_text language_code)
    as [pofile |] eqn:A; cbn [Py.bind]; [| discriminate].
  intros [= <-]. simpl. exists content, messages_text, english_text, pofile.
  repeat split; auto.
Qed.

Lemma handle_pair_raises language_code license_code content e r :
  html_file store license_code language_code = Some content ->
  import_by_40_license_html E content license_code language_code = Raise e ->
  handle_pair E store language_code license_code r = Raise e.
Proof.
  intros Hfile Himport. unfold handle_pair. rewrite Hfile. cbn [Py.bind].
  now rewrite Himport.
Qed.

Lemma handle_pair_invariant language_code license_code r r' :
  run_invariant E store r ->
  handle_pair E store language_code license_code r = Ok r' ->
  run_invariant E store r'.
Proof.
  intros [Ien Isaved] H. apply handle_pair_steps in H.
  destruct H as (content & messages_text & english_text & pofile
                 & Hfile & Himport & Henglish & Hget & Hassemble & Hsaved).
  assert (Ien' : forall lc text,
             Py.get (english_by_license_code r') lc = Some text ->
             exists content_en,
               html_file store lc "en" = Some content_en /\
               import_by_40_license_html E content_en lc "en" = Ok text).
  { intros lc text G. rewrite Henglish in G.
    destruct (String.eqb language_code "en") eqn:L; [| now apply Ien].
    apply String.eqb_eq in L. subst language_code.
    destruct (String.eqb license_code lc) eqn:C.
    - apply String.eqb_eq in C. subst lc.
      rewrite get_setitem_same in G. injection G as <-. eauto.
    - rewrite get_setitem_other in G by exact C. now apply Ien. }
  split; [exact Ien' |].
  rewrite Hsaved. apply Forall_app. split; [exact Isaved |].
  constructor; [| constructor].
  destruct (Ien' _ _ Hget) as (content_en & Hfile_en & Himport_en).
  exists content, content_en, messages_text, english_text. simpl.
  repeat split; auto.
  - now apply import_steps in Himport.
  - now apply import_steps in Himport_en.
Qed.

Lemma for_license_codes_invariant language_code codes : forall r,
  run_invariant E store r ->
  outcome_invariant E store (for_license_codes E store language_code codes r).
Proof.
  induction codes as [| license_code codes IH]; intros r I; simpl; [exact I |].
  destruct (handle_pair E store language_code license_code r) as [r' |] eqn:H.
  - apply IH. eapply handle_pair_invariant; eauto.
  - exact (proj2 I).
Qed.

Lemma for_language_codes_invariant codes : forall r,
  run_invariant E store r ->
  outcome_invariant E store (for_language_codes E store codes r).
Proof.
  induction codes as [| language_code codes IH]; intros r I; [exact I |].
  cbn [for_language_codes].
  pose proof (for_license_codes_invariant language_code LICENSE_CODES r I) as O.
  destruct (for_license_codes E store language_code LICENSE_CODES r);
    [apply IH; exact O | exact O].
Qed.

Lemma handle_invariant : outcome_invariant E store (handle E store).
Proof.
  unfold handle. destruct (Py.remove "en" (language_codes store)).
  - apply for_language_codes_invariant. split; [| constructor].
    intros lc text G. discriminate G.
  - constructor.
Qed.

Lemma for_license_codes_app language_code pre post : forall r,
  for_license_codes E store language_code (pre ++ post) r =
  match for_license_codes E store language_code pre r with
  | Completed r1 => for_license_codes E store language_code post r1
  | Aborted e s => Aborted e s
  end.
Proof.
  induction pre as [| c pre IH]; intros r; simpl; [reflexivity |].
  destruct (handle_pair E store language_code c r); auto.
Qed.

Lemma for_language_codes_app pre post : forall r,
  for_language_codes E store (pre ++ post) r =
  match for_language_codes E store pre r with
  | Completed r1 => for_language_codes E store post r1
  | Aborted e s => Aborted e s
  end.
Proof.
  induction pre as [| c pre IH]; intros r; [reflexivity |].
  cbn [for_language_codes app].
  destruct (for_license_codes E store c LICENSE_CODES r); auto.
Qed.

End Loops.

(** The run over the sample store completes and saves a catalog for each
    of the twelve pairs, English first. *)
Example sample_run_completes :
  exists r,
    handle Model.env Sample.store = Completed r /\
    map (fun c => (catalog_language c, catalog_license c)) (saved r)
    = [ ("en", "by"); ("en", "by-sa"); ("en", "by-nc-nd"); ("en", "by-nc");
        ("en", "by-nc-sa"); ("en", "by-nd"); ("fr", "by"); ("fr", "by-sa");
        ("fr", "by-nc-nd"); ("fr", "by-nc"); ("fr", "by-nc-sa");
        ("fr", "by-nd") ].
Proof. eexists. split; vm_compute; reflexivity. Qed.


(* ===================================================================== *)
(** ** The definitions schema *)
(* ===================================================================== *)

(** C1, as stated, fails: for by-nc-sa the schema is not the list of
    thirteen names; lines 290-294 also insert [noncommercial] after
    [licensor]. *)
Lemma by_nc_sa_schema_is_not_the_thirteen_names :
  expected_definitions "by-nc-sa" "en" <>
  Ok [ "adapted_material"; "adapters_license"; "by_nc_sa_compatible_license";
       "copyright_and_similar_rights"; "effective_technological_measures";
       "exceptions_and_limitations"; "license_elements_nc_sa";
       "licensed_material"; "licensed_rights"; "licensor"; "share";
       "sui_generis_database_rights"; "you" ].
Proof. vm_compute. intros H. inversion H. Qed.

(** C1, amended: for variant by-nc-sa and every language, the definitions
    schema is the fourteen names below, in this order, with
    [noncommercial] between [licensor] and [share]; the loop over the list
    items stores item [i] under name [i], so the schema matches fourteen
    list items and a fifteenth raises. *)
Theorem by_nc_sa_schema_has_fourteen_names :
  let names :=
    [ "adapted_material"; "adapters_license"; "by_nc_sa_compatible_license";
      "copyright_and_similar_rights"; "effective_technological_measures";
      "exceptions_and_limitations"; "license_elements_nc_sa";
      "licensed_material"; "licensed_rights"; "licensor"; "noncommercial";
      "share"; "sui_generis_database_rights"; "you" ] in
  (forall language_code,
      expected_definitions "by-nc-sa" language_code = Ok names) /\
  (forall (E : Env) (lis : list Node) (m m' : dict Val),
      definitions_loop E 0 lis names m = Ok m' ->
      List.length lis <= 14 /\
      forall i li,
        nth_error lis i = Some li ->
        exists key thing,
          nth_error names i = Some key /\
          name_and_text E (Some li) = Ok thing /\
          Py.get m' ("s1_definitions_" ++ key)
          = Some (Str ("*" ++ fst thing ++ "* " ++ snd thing))).
Proof.
  intros names. split; [intros language_code; reflexivity |].
  intros E lis m m' H.
  assert (ND : NoDup names).
  { repeat constructor; simpl; intros F;
      repeat (destruct F as [F | F]; [discriminate F |]); exact F. }
  destruct (definitions_loop_positions E names ND lis 0 m m' H) as [Hitems _].
  split; [| exact Hitems].
  destruct (le_lt_dec (List.length lis) 14) as [L | L]; [exact L |].
  destruct (nth_error lis 14) as [li |] eqn:N.
  - destruct (Hitems 14 li N) as (key & _ & Hkey & _). discriminate Hkey.
  - apply nth_error_None in N. lia.
Qed.

Lemma by_nc_sa_schema_has_fourteen_names_witness :
  let li :=
    Tag "li" [] [Tag "strong" [] [NavigableString "Adapted Material"];
                 NavigableString " means derived material."] in
  exists m',
    definitions_loop Model.env 0 [li]
      [ "adapted_material"; "adapters_license"; "by_nc_sa_compatible_license";
        "copyright_and_similar_rights"; "effective_technological_measures";
        "exceptions_and_limitations"; "license_elements_nc_sa";
        "licensed_material"; "licensed_rights"; "licensor"; "noncommercial";
        "share"; "sui_generis_database_rights"; "you" ] [] = Ok m' /\
    Py.get m' "s1_definitions_adapted_material"
    = Some (Str "*Adapted Material*  means derived material.").
Proof.
  intros li.
  destruct (definitions_loop Model.env 0 [li]
      [ "adapted_material"; "adapters_license"; "by_nc_sa_compatible_license";
        "copyright_and_similar_rights"; "effective_technological_measures";
        "exceptions_and_limitations"; "license_elements_nc_sa";
        "licensed_material"; "licensed_rights"; "licensor"; "noncommercial";
        "share"; "sui_generis_database_rights"; "you" ] [])
    as [m' |] eqn:H; [| vm_compute in H; discriminate H].
  exists m'. split; [reflexivity |].
  destruct (proj2 (proj2 by_nc_sa_schema_has_fourteen_names Model.env [li] [] m' H)
              0 li eq_refl) as (key & thing & Hkey & Hthing & Hget).
  injection Hkey as <-. vm_compute in Hthing. injection Hthing as <-.
  exact Hget.
Defined.

(** C9: the definitions schema depends on the variant only, except for
    by-sa in language pt, whose schema is the one of by-sa with [you2]
    inserted immediately after [you]. *)
Theorem schema_depends_on_language_only_for_by_sa_pt :
  (forall license_code language1 language2,
      ~ (license_code = "by-sa" /\ language1 = "pt") ->
      ~ (license_code = "by-sa" /\ language2 = "pt") ->
      expected_definitions license_code language1
      = expected_definitions license_code language2) /\
  (forall language_code,
      language_code <> "pt" ->
      exists before after,
        expected_definitions "by-sa" language_code
        = Ok (before ++ "you" :: after) /\
        expected_definitions "by-sa" "pt"
        = Ok (before ++ "you" :: "you2" :: after) /\
        ~ In "you2" (before ++ "you" :: after)).
Proof.
  split.
  - intros license_code language1 language2 N1 N2. unfold expected_definitions.
    destruct (String.eqb license_code "by-sa") eqn:L; [| reflexivity].
    apply String.eqb_eq in L.
    assert (P1 : String.eqb language1 "pt" = false)
      by (apply String.eqb_neq; tauto).
    assert (P2 : String.eqb language2 "pt" = false)
      by (apply String.eqb_neq; tauto).
    cbv zeta. now rewrite P1, P2.
  - intros language_code N. apply String.eqb_neq in N.
    exists [ "adapted_material"; "adapters_license"; "by_sa_compatible_license";
             "copyright_and_similar_rights"; "effective_technological_measures";
             "exceptions_and_limitations"; "license_elements_sa";
             "licensed_material"; "licensed_rights"; "licensor"; "share";
             "sui_generis_database_rights" ], [].
    repeat split.
    + unfold expected_definitions. cbn. now rewrite N.
    + simpl. intros H.
      repeat (destruct H as [H | H]; [discriminate H |]). exact H.
Qed.

Lemma schema_depends_on_language_only_for_by_sa_pt_witness :
  (~ ("by-sa" = "by-sa" /\ "en" = "pt") /\ ~ ("by-sa" = "by-sa" /\ "fr" = "pt")) /\
  expected_definitions "by-sa" "en" = expected_definitions "by-sa" "fr" /\
  "en" <> "pt" /\
  exists before after,
    expected_definitions "by-sa" "en" = Ok (before ++ "you" :: after) /\
    expected_definitions "by-sa" "pt" = Ok (before ++ "you" :: "you2" :: after) /\
    ~ In "you2" (before ++ "you" :: after).
Proof.
  assert (N1 : ~ ("by-sa" = "by-sa" /\ "en" = "pt"))
    by (intros [_ H]; discriminate H).
  assert (N2 : ~ ("by-sa" = "by-sa" /\ "fr" = "pt"))
    by (intros [_ H]; discriminate H).
  assert (N3 : "en" <> "pt") by discriminate.
  split; [split; assumption |].
  split; [exact (proj1 schema_depends_on_language_only_for_by_sa_pt
                   "by-sa" "en" "fr" N1 N2) |].
  split; [exact N3 |].
  exact (proj2 schema_depends_on_language_only_for_by_sa_pt "en" N3).
Defined.

(* ===================================================================== *)
(** ** Properties of the extraction *)
(* ===================================================================== *)

Ltac frame W :=
  rewrite (Writes_get _ _ _ _ W) by (vm_compute; reflexivity).

(** C6: the content of anchor s2a1B is stored under the one of four
    pairwise distinct field names that the flags nc and nd select, and
    under none of the other three. *)
Theorem variant_flags_select_the_adapted_field :
  forall (E : Env) (content license_code language_code : string) (m : dict Val),
    import_by_40_license_html E content license_code language_code = Ok m ->
    let soup := BeautifulSoup E (normalize_emphasis content) in
    let field := adapted_field (Py.contains license_code "nc")
                               (Py.contains license_code "nd") in
    NoDup adapted_fields /\
    In field adapted_fields /\
    (exists first,
        first_item (find_id soup "s2a1B") = Ok first /\
        Py.get m field = Some (Str (Py.strip (str E first)))) /\
    (forall other,
        In other adapted_fields -> other <> field -> Py.get m other = None).
Proof.
  intros E content lc lang m H soup field.
  apply import_steps in H. destruct H as [H _].
  apply extract_fields_steps in H.
  destruct H as (m1 & m2 & m3 & m4 & m5 & m6 & m7 & m8 & m9 & m10
                 & H1 & H2 & H3 & H4 & H5 & H6 & H7 & H8 & H9 & H10 & H11).
  fold soup in H1, H2, H3, H4, H5, H6, H7, H8, H9, H10, H11.
  apply titles_and_intro_writes in H1.
  apply section1_definitions_writes in H2.
  apply section2_scope_writes in H3.
  apply s2a_license_grant_title_writes in H4.
  apply s2a1_rights_adapted in H5. destruct H5 as [Hfield Hothers].
  apply s2a2_to_s2a6_writes in H6.
  apply s2b_other_rights_writes in H7.
  apply section3_conditions_writes in H8.
  apply section4_database_rights_writes in H9.
  apply s4_postscript_writes in H10.
  apply sections5_to_8_writes in H11.
  assert (Later : forall k, In k adapted_fields -> Py.get m k = Py.get m5 k).
  { intros k [<- | [<- | [<- | [<- | []]]]];
      frame H11; frame H10; frame H9; frame H8; frame H7; frame H6;
      reflexivity. }
  assert (Earlier : forall k, In k adapted_fields -> Py.get m4 k = None).
  { intros k [<- | [<- | [<- | [<- | []]]]];
      frame H4; frame H3; frame H2; frame H1; reflexivity. }
  assert (Fin : In field adapted_fields).
  { unfold field.
    destruct (Py.contains lc "nc"), (Py.contains lc "nd"); simpl; auto. }
  split; [| split; [exact Fin | split]].
  - repeat constructor; simpl; intros H;
      repeat (destruct H as [H | H]; [discriminate H |]); exact H.
  - destruct Hfield as (first & Hfirst & Hget). exists first.
    split; [exact Hfirst |]. now rewrite Later.
  - intros other Hin Hne. rewrite Later by exact Hin.
    rewrite Hothers by assumption. now apply Earlier.
Qed.

Lemma variant_flags_select_the_adapted_field_witness :
  exists m,
    import_by_40_license_html Model.env Sample.english "by-nc" "en" = Ok m /\
    Py.get m "s2a_license_grant_adapted_nc"
    = Some (Str "produce, reproduce, and Share Adapted Material.") /\
    Py.get m "s2a_license_grant_adapted" = None.
Proof.
  destruct (import_by_40_license_html Model.env Sample.english "by-nc" "en")
    as [m |] eqn:H; [| vm_compute in H; discriminate H].
  exists m. split; [reflexivity |].
  destruct (variant_flags_select_the_adapted_field _ _ _ _ _ H)
    as (_ & _ & (first & Hfirst & Hget) & Hothers).
  split.
  - vm_compute in Hfirst. injection Hfirst as <-. exact Hget.
  - apply Hothers; [simpl; auto | discriminate].
Defined.

(** C2, as stated, fails: a document whose Section 4 container ends with
    the list leaves the machine in [LIST_SEEN_TAKE_NEXT]; the extraction
    succeeds and the field map has no postscript field. *)
Lemma postscript_is_silently_left_out :
  exists m s4,
    import_by_40_license_html Model.env Sample.english_without_postscript
      "by" "en" = Ok m /\
    find_id (BeautifulSoup Model.env
               (normalize_emphasis Sample.english_without_postscript)) "s4"
    = Some s4 /\
    scan SEEKING_ANCHOR (contents (parent s4)) = LIST_SEEN_TAKE_NEXT /\
    Py.get m postscript_field = None.
Proof.
  eexists. eexists.
  split; [vm_compute; reflexivity |].
  split; [vm_compute; reflexivity |].
  split; vm_compute; reflexivity.
Qed.

(** C2, amended: the scan over the siblings raises nothing; after a
    successful extraction the postscript field holds the [.string] of the
    captured sibling when the state machine reached [DONE], and is absent
    from the field map when the siblings ran out before. *)
Theorem postscript_follows_the_scan :
  (forall soup messages,
      find_id soup "s4" <> None ->
      exists messages', s4_postscript soup messages = Ok messages') /\
  (forall (E : Env) (content license_code language_code : string) (m : dict Val),
      import_by_40_license_html E content license_code language_code = Ok m ->
      exists s4,
        find_id (BeautifulSoup E (normalize_emphasis content)) "s4" = Some s4 /\
        Py.get m postscript_field
        = postscript_of (scan SEEKING_ANCHOR (contents (parent s4)))).
Proof.
  split.
  - intros soup messages F. unfold s4_postscript.
    destruct (find_id soup "s4"); [| congruence]. simpl. eauto.
  - intros E content lc lang m H.
    apply import_steps in H. destruct H as [H _].
    apply extract_fields_steps in H.
    destruct H as (m1 & m2 & m3 & m4 & m5 & m6 & m7 & m8 & m9 & m10
                   & H1 & H2 & H3 & H4 & H5 & H6 & H7 & H8 & H9 & H10 & H11).
    apply titles_and_intro_writes in H1.
    apply section1_definitions_writes in H2.
    apply section2_scope_writes in H3.
    apply s2a_license_grant_title_writes in H4.
    apply s2a1_rights_writes in H5.
    apply s2a2_to_s2a6_writes in H6.
    apply s2b_other_rights_writes in H7.
    apply section3_conditions_writes in H8.
    apply section4_database_rights_writes in H9.
    apply sections5_to_8_writes in H11.
    apply s4_postscript_get in H10.
    + destruct H10 as (s4 & Hs4 & Hget). exists s4. split; [exact Hs4 |].
      frame H11. exact Hget.
    + frame H9. frame H8. frame H7. frame H6. frame H5. frame H4. frame H3.
      frame H2. frame H1. reflexivity.
Qed.

Lemma postscript_follows_the_scan_witness :
  exists m,
    import_by_40_license_html Model.env Sample.english "by" "en" = Ok m /\
    Py.get m postscript_field
    = Some (Str "This Section 4 supplements Your obligations. ") /\
    find_id (BeautifulSoup Model.env (normalize_emphasis Sample.english)) "s4"
    <> None /\
    exists messages',
      s4_postscript (BeautifulSoup Model.env (normalize_emphasis Sample.english))
        [] = Ok messages'.
Proof.
  destruct (import_by_40_license_html Model.env Sample.english "by" "en")
    as [m |] eqn:H; [| vm_compute in H; discriminate H].
  exists m. split; [reflexivity |].
  destruct (proj2 postscript_follows_the_scan _ _ _ _ _ H) as (s4 & Hs4 & Hget).
  assert (F : find_id (BeautifulSoup Model.env (normalize_emphasis Sample.english))
                "s4" <> None) by (rewrite Hs4; discriminate).
  split; [| split; [exact F | exact (proj1 postscript_follows_the_scan _ [] F)]].
  vm_compute in Hs4. injection Hs4 as <-. exact Hget.
Defined.

(** C10, as stated, fails: in a text whose title of the license grant is
    in a [b] element with an attribute in its start tag, nothing is
    rewritten, the s2a anchor has no [strong] below it, and the title comes
    from the [b] element; the extraction succeeds. *)
Lemma title_is_taken_from_a_b_element :
  exists m s2a b,
    normalize_emphasis Sample.english_with_b = Sample.english_with_b /\
    import_by_40_license_html Model.env Sample.english_with_b "by" "en" = Ok m /\
    find_id (BeautifulSoup Model.env (normalize_emphasis Sample.english_with_b))
      "s2a" = Some s2a /\
    descendant_tag s2a "strong" = None /\
    descendant_tag s2a "b" = Some b /\
    inner_html Model.env (Some (node b)) = Ok "License grant" /\
    Py.get m "s2a_license_grant_title" = Some (Str "License grant").
Proof.
  eexists. eexists. eexists.
  split; [vm_compute; reflexivity |].
  split; [vm_compute; reflexivity |].
  split; [vm_compute; reflexivity |].
  split; [vm_compute; reflexivity |].
  split; [vm_compute; reflexivity |].
  split; vm_compute; reflexivity.
Qed.

(** C10, amended: after a successful extraction the title of the license
    grant is the inner markup of the first [strong] below the s2a anchor
    when there is one, and otherwise of the first [b] below it; a [b]
    element can only come from a tag not spelled as lines 235-236 expect,
    since the parsed text holds neither of the start tags they rewrite. *)
Theorem title_comes_from_strong_else_from_b :
  forall (E : Env) (content license_code language_code : string) (m : dict Val),
    import_by_40_license_html E content license_code language_code = Ok m ->
    Py.contains (normalize_emphasis content) "<b>" = false /\
    Py.contains (normalize_emphasis content) "<B>" = false /\
    exists s2a,
      find_id (BeautifulSoup E (normalize_emphasis content)) "s2a" = Some s2a /\
      match descendant_tag s2a "strong", descendant_tag s2a "b" with
      | Some strong, _ =>
          exists v, inner_html E (Some (node strong)) = Ok v /\
                    Py.get m "s2a_license_grant_title" = Some (Str v)
      | None, Some b =>
          exists v, inner_html E (Some (node b)) = Ok v /\
                    Py.get m "s2a_license_grant_title" = Some (Str v)
      | None, None => False
      end.
Proof.
  intros E content lc lang m H.
  split; [apply normalize_emphasis_removes; simpl; auto |].
  split; [apply normalize_emphasis_removes; simpl; auto |].
  apply import_steps in H. destruct H as [H _].
  apply extract_fields_steps in H.
  destruct H as (m1 & m2 & m3 & m4 & m5 & m6 & m7 & m8 & m9 & m10
                 & H1 & H2 & H3 & H4 & H5 & H6 & H7 & H8 & H9 & H10 & H11).
  apply s2a1_rights_writes in H5.
  apply s2a2_to_s2a6_writes in H6.
  apply s2b_other_rights_writes in H7.
  apply section3_conditions_writes in H8.
  apply section4_database_rights_writes in H9.
  apply s4_postscript_writes in H10.
  apply sections5_to_8_writes in H11.
  assert (Later : Py.get m "s2a_license_grant_title"
                  = Py.get m4 "s2a_license_grant_title").
  { frame H11. frame H10. frame H9. frame H8. frame H7. frame H6. frame H5.
    reflexivity. }
  rewrite Later. clear - H4. unfold s2a_license_grant_title, assign in H4.
  destruct (find_id _ "s2a") as [s2a |]; [| discriminate H4].
  exists s2a. split; [reflexivity |]. cbn [found Py.bind] in H4.
  destruct (descendant_tag s2a "strong") as [strong |].
  - destruct (inner_html E (Some (node strong))) as [v |]; [| discriminate H4].
    injection H4 as <-. exists v. split; [reflexivity | apply get_setitem_same].
  - destruct (descendant_tag s2a "b") as [b |]; [| discriminate H4].
    destruct (inner_html E (Some (node b))) as [v |]; [| discriminate H4].
    injection H4 as <-. exists v. split; [reflexivity | apply get_setitem_same].
Qed.

Lemma title_comes_from_strong_else_from_b_witness :
  exists m,
    import_by_40_license_html Model.env Sample.english "by" "en" = Ok m /\
    Py.contains (normalize_emphasis Sample.english) "<b>" = false.
Proof.
  destruct (import_by_40_license_html Model.env Sample.english "by" "en")
    as [m |] eqn:H; [| vm_compute in H; discriminate H].
  exists m. split; [reflexivity |].
  exact (proj1 (title_comes_from_strong_else_from_b _ _ _ _ _ H)).
Defined.

(** C8, as stated, fails: a [b] start tag that carries an attribute is not
    rewritten, and the step that extracts the title of the license grant
    finds the [b] element in the parsed tree. *)
Lemma a_b_tag_with_an_attribute_reaches_the_extraction :
  exists s2a b,
    Py.contains (normalize_emphasis Sample.english_with_b) "<b class=" = true /\
    find_id (BeautifulSoup Model.env (normalize_emphasis Sample.english_with_b))
      "s2a" = Some s2a /\
    descendant_tag s2a "b" = Some b /\
    name (node b) = Some "b".
Proof.
  eexists. eexists.
  split; [vm_compute; reflexivity |].
  split; [vm_compute; reflexivity |].
  split; vm_compute; reflexivity.
Qed.

(** C8, amended: the text is normalized once, before it is parsed, and
    every anchor is looked up in the tree parsed from the normalized text,
    so that two texts with the same normalization are imported alike.
    Normalizing is one scan from the left that rewrites each [<b>] and
    [<B>] to [<strong>] and each [</b>] and [</B>] to [</strong>] and
    copies every other character; the normalized text holds none of the
    four spellings [<b>], [</b>], [<B>], [</B>], normalizing it again
    changes nothing, and a text without these four spellings is left as
    it is, whatever other [b] tags it has. *)
Theorem emphasis_is_normalized_once_before_parsing :
  forall (E : Env) (content license_code language_code : string),
    import_by_40_license_html E content license_code language_code
    = (messages <- extract_fields E
                     (BeautifulSoup E (normalize_emphasis content))
                     license_code language_code ;;
       validate_dictionary_is_all_text E messages ;;;
       Ok messages) /\
    (forall content',
        normalize_emphasis content' = normalize_emphasis content ->
        import_by_40_license_html E content' license_code language_code
        = import_by_40_license_html E content license_code language_code) /\
    normalize_emphasis content = rewrite_to_strong 0 content /\
    (forall old new t,
        In (old, new) rewritten ->
        normalize_emphasis (old ++ t) = (new ++ normalize_emphasis t)%string) /\
    (forall c s,
        (forall q, In q spellings -> Py.startswith (String c s) q = false) ->
        normalize_emphasis (String c s) = String c (normalize_emphasis s)) /\
    Py.contains (normalize_emphasis content) "<b>" = false /\
    Py.contains (normalize_emphasis content) "</b>" = false /\
    Py.contains (normalize_emphasis content) "<B>" = false /\
    Py.contains (normalize_emphasis content) "</B>" = false /\
    normalize_emphasis (normalize_emphasis content) = normalize_emphasis content /\
    (Py.contains content "<b>" = false ->
     Py.contains content "</b>" = false ->
     Py.contains content "<B>" = false ->
     Py.contains content "</B>" = false ->
     normalize_emphasis content = content).
Proof.
  intros E content lc lang.
  split; [reflexivity |].
  split.
  { intros content' Q. unfold import_by_40_license_html. cbv zeta.
    now rewrite Q. }
  split; [apply normalize_emphasis_one_scan |].
  split.
  { unfold rewritten. simpl.
    intros old new t [[= <- <-] | [[= <- <-] | [[= <- <-] | [[= <- <-] | []]]]];
      reflexivity. }
  split; [exact normalize_emphasis_other |].
  repeat (split; [apply normalize_emphasis_removes; simpl; auto |]).
  split.
  - apply normalize_emphasis_nothing. intros q.
    apply normalize_emphasis_removes.
  - intros H1 H2 H3 H4. apply normalize_emphasis_nothing.
    intros q [<- | [<- | [<- | [<- | []]]]]; assumption.
Qed.

Lemma emphasis_is_normalized_once_before_parsing_witness :
  let with_b :=
    Sample.document "Attribution 4.0 International"
      (Sample.flat_grant "<b>License grant</B>") Sample.section4 in
  let with_strong :=
    Sample.document "Attribution 4.0 International"
      (Sample.flat_grant Sample.strong_title) Sample.section4 in
  normalize_emphasis with_b = with_strong /\
  (exists m,
      import_by_40_license_html Model.env with_b "by" "en" = Ok m /\
      import_by_40_license_html Model.env with_strong "by" "en" = Ok m /\
      Py.get m "s2a_license_grant_title" = Some (Str "License grant")) /\
  normalize_emphasis ("<B>" ++ "a</b><b >")
  = ("<strong>" ++ normalize_emphasis "a</b><b >")%string /\
  normalize_emphasis "a</b><b >" = String "a" (normalize_emphasis "</b><b >") /\
  ((Py.contains Sample.english_with_b "<b>" = false /\
    Py.contains Sample.english_with_b "</b>" = false /\
    Py.contains Sample.english_with_b "<B>" = false /\
    Py.contains Sample.english_with_b "</B>" = false) /\
   normalize_emphasis Sample.english_with_b = Sample.english_with_b).
Proof.
  intros with_b with_strong.
  destruct (emphasis_is_normalized_once_before_parsing
              Model.env with_strong "by" "en")
    as (_ & Alike & _ & Spelling & Other & _).
  destruct (emphasis_is_normalized_once_before_parsing
              Model.env with_b "by" "en")
    as (_ & _ & Scan & _).
  split; [rewrite Scan; vm_compute; reflexivity |].
  split.
  { destruct (import_by_40_license_html Model.env with_strong "by" "en")
      as [m |] eqn:H; [| vm_compute in H; discriminate H].
    exists m. split; [| split; [reflexivity |]].
    - apply (Alike with_b). vm_compute. reflexivity.
    - vm_compute in H. injection H as <-. reflexivity. }
  split; [apply Spelling; simpl; auto |].
  split.
  { apply Other. intros q [<- | [<- | [<- | [<- | []]]]]; reflexivity. }
  assert (H1 : Py.contains Sample.english_with_b "<b>" = false)
    by (vm_compute; reflexivity).
  assert (H2 : Py.contains Sample.english_with_b "</b>" = false)
    by (vm_compute; reflexivity).
  assert (H3 : Py.contains Sample.english_with_b "<B>" = false)
    by (vm_compute; reflexivity).
  assert (H4 : Py.contains Sample.english_with_b "</B>" = false)
    by (vm_compute; reflexivity).
  split; [repeat split; assumption |].
  apply (emphasis_is_normalized_once_before_parsing
           Model.env Sample.english_with_b "by" "en"); assumption.
Defined.


(* ===================================================================== *)
(** ** Properties of the catalogs and of the run *)
(* ===================================================================== *)

(** C4: for every item of the target field map, in order, the key of the
    catalog entry is the English text of that field when the English map
    has the field, and the target map's own text otherwise. *)
Theorem catalog_key_is_english_text_else_own_text :
  forall (english_text messages_text : dict Val) (language_code : string)
         (pofile : list POEntry),
    assemble_pofile english_text messages_text language_code = Ok pofile ->
    Forall2
      (fun (kv : string * Val) (e : POEntry) =>
         msgid e = match Py.get english_text (fst kv) with
                   | Some text => text
                   | None => snd kv
                   end)
      (Py.items messages_text) pofile.
Proof.
  intros english_text messages_text language_code pofile H.
  apply assemble_pofile_entries in H.
  induction H as [| kv e items entries [Hid _] _ IH]; constructor; assumption.
Qed.

Lemma catalog_key_is_english_text_else_own_text_witness :
  assemble_pofile [("license_medium", Str "Attribution")]
    [("license_medium", Str "Paternite"); ("s5_a", Str "Sans garantie")] "fr"
  = Ok [mkPOEntry (Str "Attribution") "Paternite";
        mkPOEntry (Str "Sans garantie") "Sans garantie"] /\
  Forall2
    (fun (kv : string * Val) (e : POEntry) =>
       msgid e = match Py.get [("license_medium", Str "Attribution")] (fst kv) with
                 | Some text => text
                 | None => snd kv
                 end)
    [("license_medium", Str "Paternite"); ("s5_a", Str "Sans garantie")]
    [mkPOEntry (Str "Attribution") "Paternite";
     mkPOEntry (Str "Sans garantie") "Sans garantie"].
Proof.
  assert (H : assemble_pofile [("license_medium", Str "Attribution")]
                [("license_medium", Str "Paternite"); ("s5_a", Str "Sans garantie")]
                "fr"
              = Ok [mkPOEntry (Str "Attribution") "Paternite";
                    mkPOEntry (Str "Sans garantie") "Sans garantie"])
    by reflexivity.
  split; [exact H |].
  exact (catalog_key_is_english_text_else_own_text _ _ _ _ H).
Defined.

(** C5, as stated, fails: in the French catalog of the sample text the
    value of the postscript entry is not the extracted text, which ends
    with a space, but that text stripped. *)
Lemma translation_is_not_the_extracted_text :
  exists english_text messages_text pofile,
    import_by_40_license_html Model.env Sample.english "by" "en"
    = Ok english_text /\
    import_by_40_license_html Model.env Sample.french "by" "fr"
    = Ok messages_text /\
    assemble_pofile english_text messages_text "fr" = Ok pofile /\
    ~ Forall2 (fun (kv : string * Val) (e : POEntry) => snd kv = Str (msgstr e))
        (Py.items messages_text) pofile.
Proof.
  eexists. eexists. eexists.
  split; [vm_compute; reflexivity |].
  split; [vm_compute; reflexivity |].
  split; [vm_compute; reflexivity |].
  intros F.
  pose proof
    (Forall2_nth _ _ _ F 55
       (postscript_field, Str "This Section 4 supplements Your obligations. ")
       (mkPOEntry (Str "This Section 4 supplements Your obligations. ")
          "This Section 4 supplements Your obligations.")
       eq_refl eq_refl) as C.
  discriminate C.
Qed.

(** C5, amended: in the catalog of the authoritative language every
    entry's value is the empty string; in the catalog of any other
    language the entry's value is that language's extracted text for the
    field with the surrounding whitespace stripped. *)
Theorem translation_is_empty_for_english_else_stripped_text :
  forall (english_text messages_text : dict Val) (language_code : string)
         (pofile : list POEntry),
    assemble_pofile english_text messages_text language_code = Ok pofile ->
    (language_code = "en" -> Forall (fun e => msgstr e = EmptyString) pofile) /\
    (language_code <> "en" ->
     Forall2
       (fun (kv : string * Val) (e : POEntry) =>
          exists text, snd kv = Str text /\ msgstr e = Py.strip text)
       (Py.items messages_text) pofile).
Proof.
  intros english_text messages_text language_code pofile H.
  apply assemble_pofile_entries in H. split.
  - intros ->. induction H as [| kv e items entries [_ Hstr] _ IH];
      constructor; [| exact IH].
    simpl in Hstr. now injection Hstr as <-.
  - intros N. apply String.eqb_neq in N.
    induction H as [| kv e items entries [_ Hstr] _ IH];
      constructor; [| exact IH].
    rewrite N in Hstr. destruct (snd kv) as [text |]; [| discriminate Hstr].
    injection Hstr as <-. eauto.
Qed.

Lemma translation_is_empty_for_english_else_stripped_text_witness :
  assemble_pofile [("license_medium", Str "Attribution")]
    [("license_medium", Str " Paternite ")] "fr"
  = Ok [mkPOEntry (Str "Attribution") "Paternite"] /\
  "fr" <> "en" /\
  Forall2
    (fun (kv : string * Val) (e : POEntry) =>
       exists text, snd kv = Str text /\ msgstr e = Py.strip text)
    [("license_medium", Str " Paternite ")]
    [mkPOEntry (Str "Attribution") "Paternite"] /\
  assemble_pofile [("license_medium", Str "Attribution")]
    [("license_medium", Str "Attribution")] "en"
  = Ok [mkPOEntry (Str "Attribution") EmptyString] /\
  Forall (fun e => msgstr e = EmptyString)
    [mkPOEntry (Str "Attribution") EmptyString].
Proof.
  assert (H : assemble_pofile [("license_medium", Str "Attribution")]
                [("license_medium", Str " Paternite ")] "fr"
              = Ok [mkPOEntry (Str "Attribution") "Paternite"])
    by reflexivity.
  assert (N : "fr" <> "en") by discriminate.
  assert (H' : assemble_pofile [("license_medium", Str "Attribution")]
                 [("license_medium", Str "Attribution")] "en"
               = Ok [mkPOEntry (Str "Attribution") EmptyString])
    by reflexivity.
  split; [exact H | split; [exact N |]].
  split;
    [exact (proj2 (translation_is_empty_for_english_else_stripped_text
                     _ _ _ _ H) N) |].
  split; [exact H' |].
  exact (proj1 (translation_is_empty_for_english_else_stripped_text _ _ _ _ H')
           eq_refl).
Defined.

(** C7: the map returned by the extraction has passed validation; a map
    that fails validation makes the extraction and the processing of its
    pair raise, so that no catalog is assembled from it; and every catalog
    a run saves was assembled from maps that passed validation. *)
Theorem validation_precedes_catalog_assembly :
  forall (E : Env) (store : Store),
    (forall content license_code language_code m,
        import_by_40_license_html E content license_code language_code = Ok m ->
        validate_dictionary_is_all_text E m = Ok tt) /\
    (forall content license_code language_code m e r,
        html_file store license_code language_code = Some content ->
        extract_fields E (BeautifulSoup E (normalize_emphasis content))
          license_code language_code = Ok m ->
        validate_dictionary_is_all_text E m = Raise e ->
        handle_pair E store language_code license_code r = Raise e /\
        for_license_codes E store language_code [license_code] r
        = Aborted e (saved r)) /\
    Forall (assembled_from_imports E store) (saved_by (handle E store)).
Proof.
  intros E store. split; [| split].
  - intros content lc lang m H. now apply import_steps in H.
  - intros content lc lang m e r Hfile Hextract Hvalidate.
    assert (R : handle_pair E store lang lc r = Raise e).
    { eapply handle_pair_raises; [exact Hfile |].
      eapply import_raises_of_validation; eassumption. }
    split; [exact R |]. simpl. now rewrite R.
  - pose proof (handle_invariant E store) as I.
    destruct (handle E store) as [r | e s]; simpl in *; [exact (proj2 I) | exact I].
Qed.

Lemma validation_precedes_catalog_assembly_witness :
  exists m english_text,
    html_file (Sample.store_of Sample.english_with_marked_up_postscript) "by" "en"
    = Some Sample.english_with_marked_up_postscript /\
    extract_fields Model.env
      (BeautifulSoup Model.env
         (normalize_emphasis Sample.english_with_marked_up_postscript)) "by" "en"
    = Ok m /\
    validate_dictionary_is_all_text Model.env m
    = Raise (IncompleteExtraction postscript_field) /\
    handle_pair Model.env (Sample.store_of Sample.english_with_marked_up_postscript)
      "en" "by" (mkRun [] [])
    = Raise (IncompleteExtraction postscript_field) /\
    import_by_40_license_html Model.env Sample.english "by" "en"
    = Ok english_text /\
    validate_dictionary_is_all_text Model.env english_text = Ok tt.
Proof.
  destruct (extract_fields Model.env
              (BeautifulSoup Model.env
                 (normalize_emphasis Sample.english_with_marked_up_postscript))
              "by" "en") as [m |] eqn:H; [| vm_compute in H; discriminate H].
  destruct (import_by_40_license_html Model.env Sample.english "by" "en")
    as [english_text |] eqn:I; [| vm_compute in I; discriminate I].
  exists m, english_text.
  assert (F : html_file (Sample.store_of Sample.english_with_marked_up_postscript) "by" "en"
              = Some Sample.english_with_marked_up_postscript) by reflexivity.
  assert (V : validate_dictionary_is_all_text Model.env m
              = Raise (IncompleteExtraction postscript_field)).
  { vm_compute in H. injection H as <-. vm_compute. reflexivity. }
  split; [exact F | split; [reflexivity | split; [exact V |]]].
  split;
    [exact (proj1 (proj1 (proj2 (validation_precedes_catalog_assembly Model.env
                                   (Sample.store_of
                                      Sample.english_with_marked_up_postscript)))
                     _ _ _ _ _ (mkRun [] []) F H V)) |].
  split; [reflexivity |].
  exact (proj1 (validation_precedes_catalog_assembly Model.env Sample.store)
           _ _ _ _ I).
Defined.

(** C3, as stated, fails: the fault is not confined to its document.  In
    a store where only the English by-nc text lacks the emphasis, the run
    ends with exit status 1 at that pair; the pairs after it, whose texts
    extract without fault, get no catalog. *)
Lemma a_title_without_emphasis_stops_the_whole_run :
  exists saved_before m,
    handle Model.env Sample.store_with_plain_title
    = Aborted (SystemExit 1) saved_before /\
    map (fun c => (catalog_language c, catalog_license c)) saved_before
    = [("en", "by"); ("en", "by-sa"); ("en", "by-nc-nd")] /\
    html_file Sample.store_with_plain_title "by-nc-sa" "en"
    = Some Sample.english /\
    import_by_40_license_html Model.env Sample.english "by-nc-sa" "en" = Ok m.
Proof.
  eexists. eexists.
  split; [vm_compute; reflexivity |].
  split; [vm_compute; reflexivity |].
  split; vm_compute; reflexivity.
Qed.

(** C3, amended: when the s2a anchor has neither a [strong] nor a [b]
    below it the extraction raises, with exit status 1 once the lines
    before line 312 have succeeded; [handle] does not intercept it, so the
    run is aborted at that pair with the catalogs saved before it, and no
    later pair is processed. *)
Theorem missing_emphasis_exits_and_aborts_the_run :
  forall (E : Env) (store : Store) (language_code license_code content : string)
         (s2a : Element),
    let soup := BeautifulSoup E (normalize_emphasis content) in
    find_id soup "s2a" = Some s2a ->
    descendant_tag s2a "strong" = None ->
    descendant_tag s2a "b" = None ->
    (exists e,
        import_by_40_license_html E content license_code language_code = Raise e) /\
    (forall m1 m2 m3,
        titles_and_intro E soup [] = Ok m1 ->
        section1_definitions E soup license_code language_code m1 = Ok m2 ->
        section2_scope E soup m2 = Ok m3 ->
        import_by_40_license_html E content license_code language_code
        = Raise (SystemExit 1)) /\
    (forall e before_codes after_codes before_languages after_languages r0 r1 r2,
        html_file store license_code language_code = Some content ->
        import_by_40_license_html E content license_code language_code = Raise e ->
        LICENSE_CODES = before_codes ++ license_code :: after_codes ->
        for_language_codes E store before_languages r0 = Completed r1 ->
        for_license_codes E store language_code before_codes r1 = Completed r2 ->
        for_language_codes E store
          (before_languages ++ language_code :: after_languages) r0
        = Aborted e (saved r2)).
Proof.
  intros E store lang lc content s2a soup Hs2a Hstrong Hb.
  assert (T : forall m3, s2a_license_grant_title E soup m3 = Raise (SystemExit 1)).
  { intros m3. unfold s2a_license_grant_title. rewrite Hs2a. cbn [found Py.bind].
    now rewrite Hstrong, Hb. }
  assert (X : forall m1 m2 m3,
             titles_and_intro E soup [] = Ok m1 ->
             section1_definitions E soup lc lang m1 = Ok m2 ->
             section2_scope E soup m2 = Ok m3 ->
             import_by_40_license_html E content lc lang = Raise (SystemExit 1)).
  { intros m1 m2 m3 H1 H2 H3.
    unfold import_by_40_license_html, extract_fields. cbv zeta. fold soup.
    rewrite H1. cbn [Py.bind]. rewrite H2. cbn [Py.bind].
    rewrite H3. cbn [Py.bind]. now rewrite T. }
  split; [| split; [exact X |]].
  - destruct (titles_and_intro E soup []) as [m1 |] eqn:H1.
    + destruct (section1_definitions E soup lc lang m1) as [m2 |] eqn:H2.
      * destruct (section2_scope E soup m2) as [m3 |] eqn:H3; [eauto |].
        exists e. unfold import_by_40_license_html, extract_fields. cbv zeta.
        fold soup. rewrite H1. cbn [Py.bind]. rewrite H2. cbn [Py.bind].
        now rewrite H3.
      * exists e. unfold import_by_40_license_html, extract_fields. cbv zeta.
        fold soup. rewrite H1. cbn [Py.bind]. now rewrite H2.
    + exists e. unfold import_by_40_license_html, extract_fields. cbv zeta.
      fold soup. now rewrite H1.
  - intros e before_codes after_codes before_languages after_languages r0 r1 r2
      Hfile Himport Hcodes Hlanguages Hbefore.
    rewrite for_language_codes_app, Hlanguages. cbn [for_language_codes].
    rewrite Hcodes, for_license_codes_app, Hbefore. cbn [for_license_codes].
    now rewrite (handle_pair_raises E store lang lc content e r2 Hfile Himport).
Qed.

Lemma missing_emphasis_exits_and_aborts_the_run_witness :
  exists s2a r2,
    find_id (BeautifulSoup Model.env
               (normalize_emphasis Sample.english_without_emphasis)) "s2a"
    = Some s2a /\
    descendant_tag s2a "strong" = None /\
    descendant_tag s2a "b" = None /\
    import_by_40_license_html Model.env Sample.english_without_emphasis
      "by-nc" "en" = Raise (SystemExit 1) /\
    for_license_codes Model.env Sample.store_with_plain_title "en"
      ["by"; "by-sa"; "by-nc-nd"] (mkRun [] []) = Completed r2 /\
    for_language_codes Model.env Sample.store_with_plain_title
      ([] ++ "en" :: ["fr"]) (mkRun [] [])
    = Aborted (SystemExit 1) (saved r2).
Proof.
  set (soup := BeautifulSoup Model.env
                 (normalize_emphasis Sample.english_without_emphasis)).
  destruct (find_id soup "s2a") as [s2a |] eqn:Hs2a;
    [| vm_compute in Hs2a; discriminate Hs2a].
  destruct (for_license_codes Model.env Sample.store_with_plain_title "en"
              ["by"; "by-sa"; "by-nc-nd"] (mkRun [] []))
    as [r2 | e s] eqn:Hr2; [| vm_compute in Hr2; discriminate Hr2].
  assert (Hstrong : descendant_tag s2a "strong" = None).
  { vm_compute in Hs2a. injection Hs2a as <-. vm_compute. reflexivity. }
  assert (Hb : descendant_tag s2a "b" = None).
  { vm_compute in Hs2a. injection Hs2a as <-. vm_compute. reflexivity. }
  destruct (titles_and_intro Model.env soup []) as [m1 |] eqn:H1;
    [| vm_compute in H1; discriminate H1].
  destruct (section1_definitions Model.env soup "by-nc" "en" m1) as [m2 |] eqn:H2;
    [| vm_compute in H1; injection H1 as <-; vm_compute in H2; discriminate H2].
  destruct (section2_scope Model.env soup m2) as [m3 |] eqn:H3;
    [| vm_compute in H1; injection H1 as <-;
       vm_compute in H2; injection H2 as <-;
       vm_compute in H3; discriminate H3].
  pose proof (missing_emphasis_exits_and_aborts_the_run
                Model.env Sample.store_with_plain_title "en" "by-nc"
                Sample.english_without_emphasis s2a Hs2a Hstrong Hb)
    as (_ & Hexit & Habort).
  assert (X : import_by_40_license_html Model.env Sample.english_without_emphasis
                "by-nc" "en" = Raise (SystemExit 1))
    by exact (Hexit m1 m2 m3 H1 H2 H3).
  exists s2a, r2.
  split; [reflexivity |]. split; [exact Hstrong |]. split; [exact Hb |].
  split; [exact X |]. split; [reflexivity |].
  exact (Habort (SystemExit 1) ["by"; "by-sa"; "by-nc-nd"] ["by-nc-sa"; "by-nd"]
           [] ["fr"] (mkRun [] []) (mkRun [] []) r2
           eq_refl X eq_refl eq_refl Hr2).
Defined.

(* ===================================================================== *)
(** ** More on the definitions schema *)
(* ===================================================================== *)

Lemma mem_In k l : Py.mem k l = true <-> In k l.
Proof.
  unfold Py.mem. rewrite existsb_exists. split.
  - intros (x & Hx & Hk). apply String.eqb_eq in Hk. now subst.
  - intros H. exists k. split; [exact H | apply String.eqb_refl].
Qed.

Lemma mem_not_In k l : Py.mem k l = false <-> ~ In k l.
Proof.
  rewrite <- mem_In. destruct (Py.mem k l); split; congruence.
Qed.

Lemma nodupb_NoDup l : nodupb l = true -> NoDup l.
Proof.
  induction l as [| k l IH]; simpl; intros H; constructor.
  - apply andb_prop in H. destruct H as [H _].
    apply negb_true_iff in H. now apply mem_not_In.
  - apply andb_prop in H. now apply IH.
Qed.

Lemma index_absent a l : ~ In a l -> Py.index a l = Raise ValueError.
Proof.
  induction l as [| y l IH]; simpl; intros N; [reflexivity |].
  destruct (String.eqb y a) eqn:Q.
  - apply String.eqb_eq in Q. tauto.
  - rewrite IH by tauto. reflexivity.
Qed.

Lemma index_first a pre post :
  ~ In a pre -> Py.index a (pre ++ a :: post) = Ok (List.length pre).
Proof.
  induction pre as [| y pre IH]; simpl; intros N.
  - now rewrite String.eqb_refl.
  - destruct (String.eqb y a) eqn:Q.
    + apply String.eqb_eq in Q. tauto.
    + rewrite IH by tauto. reflexivity.
Qed.

Lemma insert_after_length {A : Type} (pre : list A) x a post :
  Py.insert (List.length pre + 1) x (pre ++ a :: post) = pre ++ a :: x :: post.
Proof. induction pre as [| y pre IH]; simpl; [reflexivity | now rewrite IH]. Qed.

(** X1: [insert_after] raises [ValueError] when the anchor is not in the
    list, and otherwise puts the new name right after the first
    occurrence of the anchor, leaving everything else in place. *)
Theorem insert_after_first_occurrence :
  (forall after_this what_to_insert l,
      ~ In after_this l ->
      insert_after after_this what_to_insert l = Raise ValueError) /\
  (forall after_this what_to_insert before after,
      ~ In after_this before ->
      insert_after after_this what_to_insert (before ++ after_this :: after)
      = Ok (before ++ after_this :: what_to_insert :: after)).
Proof.
  split.
  - intros a w l N. unfold insert_after. now rewrite index_absent.
  - intros a w pre post N. unfold insert_after. rewrite index_first by exact N.
    cbn [Py.bind]. now rewrite insert_after_length.
Qed.

Lemma insert_after_first_occurrence_witness :
  (~ In "licensor" ["share"; "you"] /\
   insert_after "licensor" "noncommercial" ["share"; "you"] = Raise ValueError) /\
  (~ In "you" ["share"] /\
   insert_after "you" "you2" (["share"] ++ "you" :: ["you"])
   = Ok (["share"] ++ "you" :: "you2" :: ["you"])).
Proof.
  assert (N1 : ~ In "licensor" ["share"; "you"]).
  { simpl. intros [H | [H | []]]; discriminate H. }
  assert (N2 : ~ In "you" ["share"]).
  { simpl. intros [H | []]; discriminate H. }
  split; split; try assumption.
  - exact (proj1 insert_after_first_occurrence "licensor" "noncommercial" _ N1).
  - exact (proj2 insert_after_first_occurrence "you" "you2" ["share"] ["you"] N2).
Defined.

Lemma expected_definitions_schema license_code language_code :
  exists ed,
    expected_definitions license_code language_code = Ok ed /\ In ed schemas.
Proof.
  unfold expected_definitions. cbv zeta.
  destruct (String.eqb license_code "by-sa").
  { destruct (String.eqb language_code "pt"); eexists;
      (split; [vm_compute; reflexivity | simpl; tauto]). }
  repeat match goal with
  | |- context [if String.eqb license_code ?c then _ else _] =>
      destruct (String.eqb license_code c);
      [eexists; (split; [vm_compute; reflexivity | simpl; tauto]) |]
  end.
  eexists; (split; [reflexivity | simpl; tauto]).
Qed.

(** X2: for every license code and language the schema is computed
    without error (no insertion misses its anchor); it has no name twice,
    it keeps the ten common definitions in their order, and it has between
    ten and fourteen names. *)
Theorem expected_definitions_never_raises :
  forall license_code language_code,
  exists ed,
    expected_definitions license_code language_code = Ok ed /\
    NoDup ed /\
    common_part ed = common_definitions /\
    10 <= List.length ed <= 14.
Proof.
  intros lc lang.
  destruct (expected_definitions_schema lc lang) as (ed & H & Hin).
  exists ed. split; [exact H |].
  simpl in Hin.
  repeat (destruct Hin as [<- | Hin];
          [split; [apply nodupb_NoDup; vm_compute; reflexivity |
                   split; [vm_compute; reflexivity | simpl; lia]] |]).
  destruct Hin.
Qed.

(* ===================================================================== *)
(** ** The keys of the field map *)
(* ===================================================================== *)

Lemma Assigned_trans ks1 ks2 m1 m2 m3 :
  Assigned ks1 m1 m2 -> Assigned ks2 m2 m3 -> Assigned (ks1 ++ ks2) m1 m3.
Proof.
  intros A1 A2. induction A2 as [| ks m m' k v A IH].
  - now rewrite app_nil_r.
  - rewrite app_assoc. constructor. now apply IH.
Qed.

Lemma Assigned_eq ks ks' m m' : Assigned ks m m' -> ks = ks' -> Assigned ks' m m'.
Proof. now intros A <-. Qed.

Lemma Assigned_one m k v : Assigned [k] m (Py.setitem m k v).
Proof. apply (Assigned_more [] m m k v). constructor. Qed.

Lemma Assigned_assign m m' k e : assign m k e = Ok m' -> Assigned [k] m m'.
Proof.
  unfold assign. destruct e; simpl; [| discriminate].
  intros [= <-]. apply Assigned_one.
Qed.

Lemma Assigned_assign_val m m' k e : assign_val m k e = Ok m' -> Assigned [k] m m'.
Proof.
  unfold assign_val. destruct e; simpl; [| discriminate].
  intros [= <-]. apply Assigned_one.
Qed.

Lemma keys_setitem {V : Type} (d : dict V) k v :
  map fst (Py.setitem d k v)
  = if Py.mem k (map fst d) then map fst d else map fst d ++ [k].
Proof.
  induction d as [| [k' v'] d IH]; simpl; [reflexivity |].
  rewrite (String.eqb_sym k k').
  destruct (String.eqb k' k) eqn:Q; simpl; [reflexivity |].
  rewrite IH. now destruct (Py.mem k (map fst d)).
Qed.

Lemma haskey_mem {V : Type} (d : dict V) k :
  Py.haskey d k = Py.mem k (map fst d).
Proof.
  unfold Py.haskey. induction d as [| [k' v'] d IH]; simpl; [reflexivity |].
  rewrite (String.eqb_sym k k').
  destruct (String.eqb k' k); simpl; [reflexivity | exact IH].
Qed.

(** Assignments to fresh, distinct keys append them in order. *)
Lemma Assigned_keys ks m m' :
  Assigned ks m m' -> NoDup (map fst m ++ ks) -> map fst m' = map fst m ++ ks.
Proof.
  induction 1 as [| ks m m' k v A IH]; intros ND.
  - now rewrite app_nil_r.
  - rewrite app_assoc in ND. rewrite keys_setitem.
    assert (ND' : NoDup (map fst m ++ ks)).
    { apply NoDup_app_remove_r in ND. exact ND. }
    rewrite (IH ND').
    assert (F : Py.mem k (map fst m ++ ks) = false).
    { apply mem_not_In. intros Hin.
      apply NoDup_remove_2 with (l' := []) in ND.
      apply ND. now rewrite app_nil_r. }
    rewrite F. now rewrite app_assoc.
Qed.

Ltac split_assigned :=
  repeat match goal with
  | H : assign _ _ _ = Ok _ |- _ => apply Assigned_assign in H
  | H : assign_val _ _ _ = Ok _ |- _ => apply Assigned_assign_val in H
  | H : Py.bind ?c _ = Ok _ |- _ =>
      let E := fresh "E" in
      destruct c eqn:E; cbn beta iota zeta delta [Py.bind] in H;
      [| discriminate H];
      lazymatch type of E with
      | _ = @Ok (dict Val) _ => idtac
      | _ => clear E
      end
  | H : (if ?b then _ else _) = Ok _ |- _ => destruct b
  | H : match ?x with Some _ => _ | None => _ end = Ok _ |- _ =>
      destruct x; try discriminate H
  | H : Ok _ = Ok _ |- _ => injection H as H; subst
  | H : Raise _ = Ok _ |- _ => discriminate H
  end.

Ltac chain_assigned :=
  lazymatch goal with
  | |- Assigned _ ?m ?m => apply Assigned_none
  | |- Assigned _ ?m (Py.setitem ?m' ?k ?v) =>
      eapply (Assigned_more _ m m' k v); chain_assigned
  | H : Assigned _ _ ?m' |- Assigned _ ?m ?m' =>
      eapply Assigned_trans; [| exact H]; chain_assigned
  end.

Ltac assigned := eapply Assigned_eq; [chain_assigned | reflexivity].

Section Fields.

Variable E : Env.

Lemma titles_and_intro_assigned soup m m' :
  titles_and_intro E soup m = Ok m' -> Assigned titles_keys m m'.
Proof. unfold titles_and_intro. intros H. split_assigned. assigned. Qed.

Lemma skipn_nth {A : Type} (l : list A) i a :
  nth_error l i = Some a -> skipn i l = a :: skipn (S i) l.
Proof.
  revert l. induction i as [| i IH]; intros [| b l] H; simpl in *;
    try discriminate.
  - now injection H as ->.
  - now apply IH.
Qed.

Lemma definitions_loop_assigned lis : forall i ed m m',
  definitions_loop E i lis ed m = Ok m' ->
  List.length lis <= List.length ed - i /\
  Assigned (definition_fields (skipn i ed) (List.length lis)) m m'.
Proof.
  induction lis as [| li lis IH]; intros i ed m m' H.
  - injection H as <-. split; [simpl; lia | constructor].
  - cbn [definitions_loop] in H.
    destruct (name_and_text E (Some li)) as [thing |];
      cbn [Py.bind] in H; [| discriminate H].
    unfold Py.item in H.
    destruct (nth_error ed i) as [k0 |] eqn:K; cbn [Py.bind] in H;
      [| discriminate H].
    apply IH in H. destruct H as [L A].
    assert (i < List.length ed) by (apply nth_error_Some; congruence).
    split; [simpl; lia |].
    unfold definition_fields. rewrite (skipn_nth _ _ _ K). simpl.
    eapply Assigned_eq; [eapply Assigned_trans; [apply Assigned_one | exact A] |].
    reflexivity.
Qed.

Lemma section1_definitions_assigned soup lc lang m m' :
  section1_definitions E soup lc lang m = Ok m' ->
  exists ed lis,
    expected_definitions lc lang = Ok ed /\
    definition_items soup = Some lis /\
    List.length lis <= List.length ed /\
    Assigned ("s1_definitions_title" :: definition_fields ed (List.length lis))
      m m'.
Proof.
  unfold section1_definitions, definition_items. intros H.
  destruct (expected_definitions lc lang) as [ed |]; cbn [Py.bind] in H;
    [| discriminate H].
  destruct (assign m "s1_definitions_title" _) as [m1 |] eqn:T;
    cbn [Py.bind] in H; [| discriminate H].
  apply Assigned_assign in T.
  destruct (find_id soup "s1") as [s1 |]; cbn [found Py.bind] in H;
    [| discriminate H].
  unfold Py.item in H.
  destruct (find_next_siblings s1 "ol") as [| ol rest]; cbn [nth_error Py.bind] in H;
    [discriminate H |].
  apply definitions_loop_assigned in H. destruct H as [L A].
  exists ed, (find_all "li" (node ol)).
  repeat split; [lia |].
  eapply Assigned_eq; [eapply Assigned_trans; [exact T | exact A] |].
  reflexivity.
Qed.

Lemma section2_scope_assigned soup m m' :
  section2_scope E soup m = Ok m' -> Assigned ["s2_scope"] m m'.
Proof. unfold section2_scope. intros H. split_assigned. assigned. Qed.

Lemma s2a_license_grant_title_assigned soup m m' :
  s2a_license_grant_title E soup m = Ok m' ->
  Assigned ["s2a_license_grant_title"] m m'.
Proof. unfold s2a_license_grant_title. intros H. split_assigned; assigned. Qed.

Lemma s2a1_rights_assigned soup lc m m' :
  s2a1_rights E soup lc m = Ok m' ->
  Assigned (s2a1_fields (Py.contains lc "nc") (Py.contains lc "nd")) m m'.
Proof.
  unfold s2a1_rights. intros H.
  destruct (Py.contains lc "nc"), (Py.contains lc "nd");
    cbn [andb] in H; split_assigned; assigned.
Qed.

Lemma downstream_loop_assigned lis : forall i names m m',
  downstream_loop E i lis names m = Ok m' ->
  List.length lis <= List.length names - i /\
  Assigned (downstream_fields (skipn i names) (List.length lis)) m m'.
Proof.
  induction lis as [| li lis IH]; intros i names m m' H.
  - injection H as <-. split; [simpl; lia | constructor].
  - cbn [downstream_loop] in H. unfold Py.item in H.
    destruct (nth_error names i) as [k0 |] eqn:K; cbn [Py.bind] in H;
      [| discriminate H].
    destruct (name_and_text E (Some li)) as [thing |];
      cbn [Py.bind] in H; [| discriminate H].
    cbv zeta in H. apply IH in H. destruct H as [L A].
    assert (i < List.length names) by (apply nth_error_Some; congruence).
    split; [simpl; lia |].
    unfold downstream_fields. rewrite (skipn_nth _ _ _ K). simpl.
    eapply Assigned_eq;
      [eapply Assigned_trans;
       [eapply Assigned_trans; [apply Assigned_one | apply Assigned_one]
       | exact A] |].
    reflexivity.
Qed.

Lemma s2a2_to_s2a6_assigned soup lc m m' :
  s2a2_to_s2a6 E soup lc m = Ok m' ->
  exists lis,
    downstream_items soup = Some lis /\
    List.length lis <= List.length (expected_downstreams lc) /\
    Assigned (s2a2_to_s2a5_fields
              ++ downstream_fields (expected_downstreams lc) (List.length lis)
              ++ s2a6_fields) m m'.
Proof.
  unfold s2a2_to_s2a6, assign_name_and_text, downstream_items. intros H.
  cbv zeta in H.
  repeat match type of H with
  | Py.bind (Py.bind (name_and_text E ?x) _) _ = Ok _ =>
      destruct (name_and_text E x); cbn [Py.bind] in H; [| discriminate H]
  end.
  destruct (assign _ "s2a5_license_grant_downstream_title" _) as [m1 |] eqn:T;
    cbn [Py.bind] in H; [| discriminate H].
  apply Assigned_assign in T.
  destruct (find_id soup "s2a5") as [s2a5 |]; cbn [found Py.bind] in H;
    [| discriminate H].
  destruct (descendant_tag s2a5 "div") as [div |]; cbn [found Py.bind] in H;
    [| discriminate H].
  destruct (descendant_tag div "ol") as [ol |]; cbn [found Py.bind] in H;
    [| discriminate H].
  destruct (downstream_loop E 0 _ _ m1) as [m2 |] eqn:L; cbn [Py.bind] in H;
    [| discriminate H].
  apply downstream_loop_assigned in L. destruct L as [Len A].
  destruct (name_and_text E _); cbn [Py.bind] in H; [| discriminate H].
  injection H as <-.
  eexists. split; [reflexivity |]. split; [lia |].
  eapply Assigned_eq; [chain_assigned |].
  unfold s2a2_to_s2a5_fields, s2a6_fields. simpl.
  rewrite <- !app_assoc. reflexivity.
Qed.

Lemma s2b_other_rights_assigned soup lc m m' :
  s2b_other_rights E soup lc m = Ok m' ->
  Assigned (s2b_fields (Py.contains lc "nc")) m m'.
Proof.
  unfold s2b_other_rights. intros H.
  destruct (Py.contains lc "nc"); split_assigned; assigned.
Qed.

Lemma section3_conditions_assigned soup lc m m' :
  section3_conditions E soup lc m = Ok m' ->
  Assigned (section3_fields (Py.contains lc "nd") (Py.endswith lc "-sa")) m m'.
Proof.
  unfold section3_conditions. intros H. cbv zeta in H.
  destruct (Py.contains lc "nd"), (Py.endswith lc "-sa");
    split_assigned; assigned.
Qed.

Lemma section4_database_rights_assigned soup lc m m' :
  section4_database_rights E soup lc m = Ok m' ->
  Assigned (section4_fields (Py.contains lc "nc") (Py.contains lc "nd")
              (Py.endswith lc "-sa")) m m'.
Proof.
  unfold section4_database_rights. intros H. cbv zeta in H.
  destruct (Py.contains lc "nc"), (Py.contains lc "nd"), (Py.endswith lc "-sa");
    cbn [andb] in H; split_assigned; assigned.
Qed.

Lemma s4_postscript_assigned soup m m' :
  s4_postscript soup m = Ok m' ->
  Assigned (if postscript_found soup then [postscript_field] else []) m m'.
Proof.
  unfold s4_postscript, postscript_found.
  destruct (find_id soup "s4") as [s4 |]; simpl; [| discriminate].
  intros [= <-]. rewrite postscript_loop_scan. simpl.
  destruct (scan SEEKING_ANCHOR (contents (parent s4)));
    try constructor.
  apply Assigned_one.
Qed.

Lemma sections5_to_8_assigned soup m m' :
  sections5_to_8 E soup m = Ok m' -> Assigned sections5_to_8_keys m m'.
Proof.
  unfold sections5_to_8. intros H. cbv zeta in H.
  split_assigned; assigned.
Qed.

(** The field map of a successful extraction was built by assignments to
    the [field_names], in this order. *)
Lemma extract_fields_assigned soup lc lang m :
  extract_fields E soup lc lang = Ok m ->
  exists ed definitions downstreams,
    expected_definitions lc lang = Ok ed /\
    definition_items soup = Some definitions /\
    downstream_items soup = Some downstreams /\
    List.length definitions <= List.length ed /\
    List.length downstreams <= List.length (expected_downstreams lc) /\
    Assigned
      (field_names (Py.contains lc "nc") (Py.contains lc "nd")
         (Py.endswith lc "-sa") ed (expected_downstreams lc)
         (List.length definitions) (List.length downstreams)
         (postscript_found soup)) [] m.
Proof.
  intros H.
  apply extract_fields_steps in H.
  destruct H as (m1 & m2 & m3 & m4 & m5 & m6 & m7 & m8 & m9 & m10 &
                 H1 & H2 & H3 & H4 & H5 & H6 & H7 & H8 & H9 & H10 & H11).
  apply titles_and_intro_assigned in H1.
  apply section1_definitions_assigned in H2.
  destruct H2 as (ed & defs & Hed & Hdefs & Ldefs & H2).
  apply section2_scope_assigned in H3.
  apply s2a_license_grant_title_assigned in H4.
  apply s2a1_rights_assigned in H5.
  apply s2a2_to_s2a6_assigned in H6.
  destruct H6 as (downs & Hdowns & Ldowns & H6).
  apply s2b_other_rights_assigned in H7.
  apply section3_conditions_assigned in H8.
  apply section4_database_rights_assigned in H9.
  apply s4_postscript_assigned in H10.
  apply sections5_to_8_assigned in H11.
  exists ed, defs, downs. repeat (split; [assumption |]).
  eapply Assigned_eq; [chain_assigned |].
  unfold field_names, titles_keys.
  repeat first [rewrite <- app_assoc | progress cbn [app]]. reflexivity.
Qed.

End Fields.

Lemma forallb_In {A : Type} (f : A -> bool) (l : list A) (x : A) :
  forallb f l = true -> In x l -> f x = true.
Proof. intros H. now apply forallb_forall. Qed.

Lemma bool_cases (b : bool) : In b [true; false].
Proof. destruct b; simpl; auto. Qed.

(** For all flags, both schemas in full and with or without the
    postscript, no field name comes twice. *)
Lemma field_names_distinct :
  forallb (fun nc => forallb (fun nd => forallb (fun sa =>
  forallb (fun postscript =>
  forallb (fun ed =>
  forallb (fun downstreams =>
    nodupb (field_names nc nd sa ed downstreams
              (List.length ed) (List.length downstreams) postscript))
    downstream_schemas) schemas)
    [true; false]) [true; false]) [true; false]) [true; false] = true.
Proof. vm_compute. reflexivity. Qed.

Lemma field_names_nodupb nc nd sa ed downstreams postscript :
  In ed schemas -> In downstreams downstream_schemas ->
  nodupb (field_names nc nd sa ed downstreams
            (List.length ed) (List.length downstreams) postscript) = true.
Proof.
  intros Hed Hdown.
  exact (forallb_In _ _ downstreams
          (forallb_In _ _ ed
            (forallb_In _ _ postscript
              (forallb_In _ _ sa
                (forallb_In _ _ nd
                  (forallb_In _ _ nc field_names_distinct (bool_cases nc))
                  (bool_cases nd))
                (bool_cases sa))
              (bool_cases postscript))
            Hed)
          Hdown).
Qed.

Lemma NoDup_without_middle {A : Type} (a s b : list A) :
  NoDup (a ++ s ++ b) -> NoDup (a ++ b).
Proof.
  induction s as [| x s IH]; simpl; [auto |].
  intros ND. apply IH. eapply NoDup_remove_1. exact ND.
Qed.

Lemma NoDup_firstn_map {A : Type} (f : A -> string) a l b n :
  NoDup (a ++ map f l ++ b) -> NoDup (a ++ map f (firstn n l) ++ b).
Proof.
  rewrite <- (firstn_skipn n l) at 1. rewrite map_app, <- app_assoc.
  rewrite !app_assoc. rewrite <- (app_assoc _ _ b).
  intros ND. apply NoDup_without_middle in ND. exact ND.
Qed.

Lemma NoDup_firstn_flat_map {A : Type} (f : A -> list string) a l b n :
  NoDup (a ++ flat_map f l ++ b) -> NoDup (a ++ flat_map f (firstn n l) ++ b).
Proof.
  rewrite <- (firstn_skipn n l) at 1. rewrite flat_map_app, <- app_assoc.
  rewrite !app_assoc. rewrite <- (app_assoc _ _ b).
  intros ND. apply NoDup_without_middle in ND. exact ND.
Qed.

Lemma expected_downstreams_schema lc :
  In (expected_downstreams lc) downstream_schemas.
Proof.
  unfold expected_downstreams, downstream_schemas.
  destruct (Py.mem lc _); simpl; auto.
Qed.

(** The field names never repeat, whatever the flags and the counts. *)
Lemma field_names_NoDup nc nd sa ed downstreams n_def n_down postscript :
  In ed schemas -> In downstreams downstream_schemas ->
  NoDup (field_names nc nd sa ed downstreams n_def n_down postscript).
Proof.
  intros Hed Hdown.
  assert (Full : NoDup (field_names nc nd sa ed downstreams
                          (List.length ed) (List.length downstreams) postscript)).
  { apply nodupb_NoDup. now apply field_names_nodupb. }
  unfold field_names in *.
  unfold definition_fields, downstream_fields in *.
  rewrite !firstn_all in Full.
  apply NoDup_firstn_map.
  rewrite (app_assoc (titles_keys ++ _)), (app_assoc ((titles_keys ++ _) ++ _)).
  apply NoDup_firstn_flat_map.
  rewrite <- (app_assoc ((titles_keys ++ _) ++ _)), <- (app_assoc (titles_keys ++ _)).
  exact Full.
Qed.

Lemma import_fields :
  forall (E : Env) (content license_code language_code : string) (m : dict Val),
    import_by_40_license_html E content license_code language_code = Ok m ->
    let soup := BeautifulSoup E (normalize_emphasis content) in
    exists ed definitions downstreams,
      expected_definitions license_code language_code = Ok ed /\
      definition_items soup = Some definitions /\
      downstream_items soup = Some downstreams /\
      List.length definitions <= List.length ed /\
      List.length downstreams <= List.length (expected_downstreams license_code) /\
      map fst m
      = field_names (Py.contains license_code "nc")
          (Py.contains license_code "nd") (Py.endswith license_code "-sa")
          ed (expected_downstreams license_code)
          (List.length definitions) (List.length downstreams)
          (postscript_found soup) /\
      NoDup (map fst m).
Proof.
  intros E content lc lang m H soup.
  apply import_steps in H. destruct H as [H _].
  apply extract_fields_assigned in H.
  destruct H as (ed & defs & downs & Hed & Hdefs & Hdowns & Ld & Lw & A).
  exists ed, defs, downs. repeat (split; [assumption |]).
  assert (ND : NoDup (field_names (Py.contains lc "nc") (Py.contains lc "nd")
                        (Py.endswith lc "-sa") ed (expected_downstreams lc)
                        (List.length defs) (List.length downs)
                        (postscript_found soup))).
  { apply field_names_NoDup.
    - destruct (expected_definitions_schema lc lang) as (ed' & Hed' & Hin).
      congruence.
    - apply expected_downstreams_schema. }
  apply Assigned_keys in A; [| exact ND].
  simpl in A. split; [exact A |]. rewrite A. exact ND.
Qed.

(** X3: the keys of the dictionary returned by
    [import_by_40_license_html] are exactly the field names the license
    code selects, each once and in the order of the assignments: the
    titles, one definition per list item of Section 1, the grant, one pair
    per downstream recipient, the conditions, the database rights with the
    postscript when it was found, then Sections 5 to 8.  There are never
    more definitions or recipients than the schemas have names. *)
Theorem import_returns_the_selected_fields_in_order :
  forall (E : Env) (content license_code language_code : string) (m : dict Val),
    import_by_40_license_html E content license_code language_code = Ok m ->
    let soup := BeautifulSoup E (normalize_emphasis content) in
    exists ed definitions downstreams,
      expected_definitions license_code language_code = Ok ed /\
      definition_items soup = Some definitions /\
      downstream_items soup = Some downstreams /\
      List.length definitions <= List.length ed /\
      List.length downstreams <= List.length (expected_downstreams license_code) /\
      map fst m
      = field_names (Py.contains license_code "nc")
          (Py.contains license_code "nd") (Py.endswith license_code "-sa")
          ed (expected_downstreams license_code)
          (List.length definitions) (List.length downstreams)
          (postscript_found soup) /\
      NoDup (map fst m).
Proof. exact import_fields. Qed.

Lemma import_returns_the_selected_fields_in_order_witness :
  exists m ed,
    import_by_40_license_html Model.env Sample.english "by-nc-sa" "en" = Ok m /\
    expected_definitions "by-nc-sa" "en" = Ok ed /\
    map fst m
    = field_names true false true ed
        ["offer"; "adapted_material"; "no_restrictions"] 10 2 true /\
    NoDup (map fst m).
Proof.
  destruct (import_by_40_license_html Model.env Sample.english "by-nc-sa" "en")
    as [m |] eqn:H; [| vm_compute in H; discriminate H].
  destruct (import_returns_the_selected_fields_in_order _ _ _ _ _ H)
    as (ed & defs & downs & Hed & Hdefs & Hdowns & _ & _ & Hkeys & ND).
  exists m, ed. split; [reflexivity |]. split; [exact Hed |].
  split; [| exact ND].
  vm_compute in Hdefs. injection Hdefs as <-.
  vm_compute in Hdowns. injection Hdowns as <-.
  rewrite Hkeys. vm_compute. reflexivity.
Defined.

(* ===================================================================== *)
(** ** Which fields a license code gets *)
(* ===================================================================== *)

Lemma startswith_app p x : Py.startswith (p ++ x) p = true.
Proof.
  induction p as [| a p IH]; simpl; [reflexivity |].
  now rewrite Ascii.eqb_refl.
Qed.

Lemma definition_fields_prefix k ed n :
  In k (definition_fields ed n) -> Py.startswith k "s1_definitions_" = true.
Proof.
  unfold definition_fields. rewrite in_map_iff.
  intros (x & <- & _). apply startswith_app.
Qed.

Lemma downstream_fields_prefix k names n :
  In k (downstream_fields names n) ->
  Py.startswith k "s2a5_license_grant_downstream_" = true.
Proof.
  unfold downstream_fields. rewrite in_flat_map.
  intros (x & _ & [<- | [<- | []]]);
    apply (startswith_app "s2a5_license_grant_downstream_").
Qed.

Lemma In_around {A : Type} (a df b dw c : list A) k :
  In k (a ++ df ++ b ++ dw ++ c) <->
  In k (a ++ [] ++ b ++ [] ++ c) \/ In k df \/ In k dw.
Proof. rewrite !in_app_iff. simpl. tauto. Qed.

Lemma In_field_names k nc nd sa ed downstreams n_def n_down postscript :
  In k (field_names nc nd sa ed downstreams n_def n_down postscript) <->
  In k (base_fields nc nd sa postscript) \/
  In k (definition_fields ed n_def) \/
  In k (downstream_fields downstreams n_down).
Proof. unfold base_fields, field_names. apply In_around. Qed.

(** Outside the two loops, whether a field is assigned depends on the
    flags only. *)
Lemma mem_field_names k nc nd sa ed downstreams n_def n_down postscript :
  outside_the_loops k = true ->
  Py.mem k (field_names nc nd sa ed downstreams n_def n_down postscript)
  = Py.mem k (base_fields nc nd sa postscript).
Proof.
  unfold outside_the_loops. intros O.
  apply andb_prop in O. destruct O as [O1 O2].
  apply negb_true_iff in O1, O2.
  destruct (Py.mem k (base_fields nc nd sa postscript)) eqn:B.
  - apply mem_In. apply In_field_names. left. now apply mem_In.
  - apply mem_not_In. rewrite In_field_names.
    intros [H | [H | H]].
    + apply mem_In in H. congruence.
    + apply definition_fields_prefix in H. congruence.
    + apply downstream_fields_prefix in H. congruence.
Qed.

Lemma fixed_fields_assigned :
  forallb (fun nc => forallb (fun nd => forallb (fun sa =>
  forallb (fun postscript =>
  forallb (fun k => Py.mem k (base_fields nc nd sa postscript)) fixed_fields)
    [true; false]) [true; false]) [true; false]) [true; false] = true.
Proof. vm_compute. reflexivity. Qed.

Lemma variant_fields_assigned :
  forallb (fun nc => forallb (fun nd => forallb (fun sa =>
  forallb (fun postscript =>
  forallb (fun kc =>
    outside_the_loops (fst kc)
    && Bool.eqb (Py.mem (fst kc) (base_fields nc nd sa postscript))
         (snd kc nc nd sa)) variant_fields)
    [true; false]) [true; false]) [true; false]) [true; false] = true.
Proof. vm_compute. reflexivity. Qed.

Lemma haskey_fixed_field (m : dict Val) nc nd sa ed downstreams n_def n_down postscript k :
  map fst m = field_names nc nd sa ed downstreams n_def n_down postscript ->
  In k fixed_fields -> Py.haskey m k = true.
Proof.
  intros K Hin. rewrite haskey_mem, K. apply mem_In, In_field_names. left.
  apply mem_In.
  exact (forallb_In _ _ k
          (forallb_In _ _ postscript
            (forallb_In _ _ sa
              (forallb_In _ _ nd
                (forallb_In _ _ nc fixed_fields_assigned (bool_cases nc))
                (bool_cases nd))
              (bool_cases sa))
            (bool_cases postscript))
          Hin).
Qed.

Lemma haskey_variant_field (m : dict Val) nc nd sa ed downstreams n_def n_down postscript
    k cond :
  map fst m = field_names nc nd sa ed downstreams n_def n_down postscript ->
  In (k, cond) variant_fields -> Py.haskey m k = cond nc nd sa.
Proof.
  intros K Hin. rewrite haskey_mem, K.
  pose proof (forallb_In _ _ (k, cond)
          (forallb_In _ _ postscript
            (forallb_In _ _ sa
              (forallb_In _ _ nd
                (forallb_In _ _ nc variant_fields_assigned (bool_cases nc))
                (bool_cases nd))
              (bool_cases sa))
            (bool_cases postscript))
          Hin) as V.
  cbn beta in V. apply andb_prop in V. destruct V as [O V].
  rewrite mem_field_names by exact O.
  apply Bool.eqb_prop. exact V.
Qed.

(** X4: which fields the returned dictionary has depends on the license
    code alone: the fixed fields are always there, and each variant field
    is there exactly under its condition on the three tests of the
    license code. *)
Theorem field_presence_follows_the_license_code :
  forall (E : Env) (content license_code language_code : string) (m : dict Val),
    import_by_40_license_html E content license_code language_code = Ok m ->
    (forall k, In k fixed_fields -> Py.haskey m k = true) /\
    (forall k cond,
        In (k, cond) variant_fields ->
        Py.haskey m k
        = cond (Py.contains license_code "nc") (Py.contains license_code "nd")
            (Py.endswith license_code "-sa")).
Proof.
  intros E content lc lang m H.
  destruct (import_fields _ _ _ _ _ H)
    as (ed & defs & downs & _ & _ & _ & _ & _ & K & _).
  split.
  - intros k. now apply (haskey_fixed_field _ _ _ _ _ _ _ _ _ _ K).
  - intros k cond. now apply (haskey_variant_field _ _ _ _ _ _ _ _ _ _ _ K).
Qed.

Lemma field_presence_follows_the_license_code_witness :
  exists m,
    import_by_40_license_html Model.env Sample.english "by-nc-sa" "en" = Ok m /\
    Py.haskey m "license_medium" = true /\
    Py.haskey m "sharealike_name" = true /\
    Py.haskey m "s2b_other_rights_waive_non_nc" = false /\
    Py.haskey m "s2a_license_grant_adapted_nc" = true.
Proof.
  destruct (import_by_40_license_html Model.env Sample.english "by-nc-sa" "en")
    as [m |] eqn:H; [| vm_compute in H; discriminate H].
  destruct (field_presence_follows_the_license_code _ _ _ _ _ H) as [F V].
  exists m. split; [reflexivity |].
  split; [apply F; simpl; auto |].
  split; [apply (V _ (fun _ _ sa => sa)); simpl; auto 20 |].
  split; [apply (V _ (fun nc _ _ => negb nc)); simpl; auto 20 |].
  apply (V _ (fun nc nd _ => (nc && negb nd)%bool)); simpl; auto 20.
Defined.

(* ===================================================================== *)
(** ** What is stored under the fields *)
(* ===================================================================== *)

Ltac kept W := rewrite (Writes_get _ _ _ _ W) by (vm_compute; reflexivity).

Lemma assign_stores (m m' : dict Val) k e :
  assign m k e = Ok m' -> exists v, e = Ok v /\ m' = Py.setitem m k (Str v).
Proof.
  unfold assign. destruct e as [v |]; simpl; [| discriminate].
  intros [= <-]. now exists v.
Qed.

Lemma assign_val_stores (m m' : dict Val) k e :
  assign_val m k e = Ok m' -> exists v, e = Ok v /\ m' = Py.setitem m k v.
Proof.
  unfold assign_val. destruct e as [v |]; simpl; [| discriminate].
  intros [= <-]. now exists v.
Qed.

(** Symbolic execution of a block of assignments that keeps what is
    assigned. *)
Ltac run_block :=
  repeat match goal with
  | H : assign _ _ _ = Ok _ |- _ =>
      apply assign_stores in H; destruct H as (? & _ & ->)
  | H : assign_val _ _ _ = Ok _ |- _ =>
      apply assign_val_stores in H; destruct H as (? & _ & ->)
  | H : Py.bind ?c _ = Ok _ |- _ =>
      let E := fresh "E" in
      destruct c eqn:E; cbn beta iota zeta delta [Py.bind] in H;
      [| discriminate H];
      lazymatch type of E with
      | _ = @Ok (dict Val) _ => idtac
      | _ => clear E
      end
  | H : (if ?b then _ else _) = Ok _ |- _ => destruct b
  | H : Ok _ = Ok _ |- _ => injection H as H; subst
  | H : Raise _ = Ok _ |- _ => discriminate H
  end.

Ltac lookup :=
  repeat (rewrite get_setitem_other by reflexivity);
  try apply get_setitem_same.

Section Values.

Variable E : Env.

Lemma section1_definitions_positions soup lc lang m m' :
  section1_definitions E soup lc lang m = Ok m' ->
  exists ed lis,
    expected_definitions lc lang = Ok ed /\
    definition_items soup = Some lis /\
    forall i li,
      nth_error lis i = Some li ->
      exists key thing,
        nth_error ed i = Some key /\
        name_and_text E (Some li) = Ok thing /\
        Py.get m' ("s1_definitions_" ++ key)
        = Some (Str ("*" ++ fst thing ++ "* " ++ snd thing)).
Proof.
  unfold section1_definitions, definition_items. intros H.
  destruct (expected_definitions_schema lc lang) as (ed & Hed & Hin).
  rewrite Hed in H. cbn [Py.bind] in H.
  destruct (assign m "s1_definitions_title" _) as [m1 |];
    cbn [Py.bind] in H; [| discriminate H].
  destruct (find_id soup "s1") as [s1 |]; cbn [found Py.bind] in H;
    [| discriminate H].
  unfold Py.item in H.
  destruct (find_next_siblings s1 "ol") as [| ol rest];
    cbn [nth_error Py.bind] in H; [discriminate H |].
  exists ed, (find_all "li" (node ol)).
  split; [exact Hed |]. split; [reflexivity |].
  assert (ND : NoDup ed).
  { apply nodupb_NoDup. revert Hin. unfold schemas. simpl.
    intros Hin. repeat (destruct Hin as [<- | Hin]; [reflexivity |]).
    contradiction. }
  exact (proj1 (definitions_loop_positions E ed ND _ 0 m1 m' H)).
Qed.

Lemma section3_conditions_unguarded soup lc m m' i field :
  section3_conditions E soup lc m = Ok m' ->
  In (i, field) unguarded_fields ->
  Py.get m' field = Some (Str (str_found E (find_id soup i))).
Proof.
  unfold section3_conditions, unguarded_fields. intros H Hin. cbv zeta in H.
  destruct (Py.contains lc "nd"), (Py.endswith lc "-sa"); run_block;
    simpl in Hin;
    repeat (destruct Hin as [[= <- <-] | Hin]; [lookup |]);
    contradiction.
Qed.

Lemma sections5_to_8_postscript soup m m' :
  sections5_to_8 E soup m = Ok m' ->
  exists s6b,
    find_id soup "s6b" = Some s6b /\
    Py.get m' "s6_termination_reinstates_postscript"
    = Some (Str (Py.strip (Py.join
                   (map (str E) (Py.slice (contents (node s6b)) 4 7))))).
Proof.
  unfold sections5_to_8. intros H. cbv zeta in H.
  destruct (find_id soup "s6b") as [s6b |] eqn:F.
  - exists s6b. split; [reflexivity |].
    cbn [found Py.bind] in H.
    destruct (descendant_tag s6b "p"); run_block; lookup.
  - exfalso. cbn [found] in H. run_block.
Qed.

End Values.

(** X5: after a successful import, the text of every list item of the
    definitions is found under the name the schema has at the position
    of the item, as "*name* text"; no later assignment touches it. *)
Theorem definitions_are_stored_by_position :
  forall (E : Env) (content license_code language_code : string) (m : dict Val),
    import_by_40_license_html E content license_code language_code = Ok m ->
    let soup := BeautifulSoup E (normalize_emphasis content) in
    exists ed lis,
      expected_definitions license_code language_code = Ok ed /\
      definition_items soup = Some lis /\
      forall i li,
        nth_error lis i = Some li ->
        exists key thing,
          nth_error ed i = Some key /\
          name_and_text E (Some li) = Ok thing /\
          Py.get m ("s1_definitions_" ++ key)
          = Some (Str ("*" ++ fst thing ++ "* " ++ snd thing)).
Proof.
  intros E content lc lang m H soup.
  apply import_steps in H. destruct H as [H _].
  apply extract_fields_steps in H.
  destruct H as (m1 & m2 & m3 & m4 & m5 & m6 & m7 & m8 & m9 & m10
                 & H1 & H2 & H3 & H4 & H5 & H6 & H7 & H8 & H9 & H10 & H11).
  fold soup in H2, H3, H4, H5, H6, H7, H8, H9, H10, H11.
  apply section1_definitions_positions in H2.
  destruct H2 as (ed & lis & Hed & Hlis & Hpos).
  apply section2_scope_writes in H3.
  apply s2a_license_grant_title_writes in H4.
  apply s2a1_rights_writes in H5.
  apply s2a2_to_s2a6_writes in H6.
  apply s2b_other_rights_writes in H7.
  apply section3_conditions_writes in H8.
  apply section4_database_rights_writes in H9.
  apply s4_postscript_writes in H10.
  apply sections5_to_8_writes in H11.
  exists ed, lis. split; [exact Hed |]. split; [exact Hlis |].
  intros i li Hli. destruct (Hpos i li Hli) as (key & thing & Hkey & Hthing & G).
  exists key, thing. split; [exact Hkey |]. split; [exact Hthing |].
  kept H11. kept H10. kept H9. kept H8. kept H7. kept H6. kept H5. kept H4.
  kept H3. exact G.
Qed.

Lemma definitions_are_stored_by_position_witness :
  exists m,
    import_by_40_license_html Model.env Sample.english "by" "en" = Ok m /\
    Py.get m "s1_definitions_adapters_license"
    = Some (Str "*Copyright and Similar Rights*  means copyright.").
Proof.
  destruct (import_by_40_license_html Model.env Sample.english "by" "en")
    as [m |] eqn:H; [| vm_compute in H; discriminate H].
  exists m. split; [reflexivity |].
  destruct (definitions_are_stored_by_position _ _ _ _ _ H)
    as (ed & lis & Hed & Hlis & Hpos).
  vm_compute in Hed. injection Hed as <-.
  vm_compute in Hlis. injection Hlis as <-.
  destruct (Hpos 1 _ eq_refl) as (key & thing & Hkey & Hthing & G).
  injection Hkey as <-. vm_compute in Hthing. injection Hthing as <-.
  exact G.
Defined.

Lemma section3_conditions_succeeds (E : Env) soup lc m :
  section3_guarded E soup lc ->
  exists m', section3_conditions E soup lc m = Ok m'.
Proof.
  intros (G1 & G2 & G3 & G4 & G5 & G6 & G7 & G8 & G9).
  destruct G1 as (t1 & G1). destruct G2 as (s3 & t2 & F3 & G2).
  destruct G3 as (t3 & G3). destruct G4 as (t4 & G4).
  destruct G5 as (t5 & G5). destruct G6 as (t6 & G6).
  destruct G7 as (v7 & G7). destruct G8 as (v8 & G8).
  unfold section3_conditions, assign, assign_val. cbv zeta.
  rewrite G1. cbn [Py.bind]. rewrite F3. cbn [found Py.bind].
  rewrite G2. cbn [Py.bind]. rewrite G3. cbn [Py.bind].
  rewrite G4. cbn [Py.bind].
  destruct (Py.contains lc "nd"); cbn [Py.bind];
    rewrite G5; cbn [Py.bind]; rewrite G6; cbn [Py.bind];
    rewrite G7; cbn [Py.bind]; rewrite G8; cbn [Py.bind];
    (destruct (Py.endswith lc "-sa");
     [destruct (G9 eq_refl) as (s3b & t & t' & Fb & Gs & Gp);
      rewrite Fb; cbn [found Py.bind]; rewrite Gs; cbn [Py.bind];
      rewrite Gp; cbn [Py.bind]; eexists; reflexivity
     | eexists; reflexivity]).
Qed.

(** X6: the six fields of Section 3 that are read with
    [str(soup.find(id=...))] are assigned without any check.  Section 3
    is extracted successfully whenever its other right-hand sides can be
    evaluated, whether or not the six anchors exist, and each of the six
    fields then holds the markup of its anchor, and the text "None" when
    the document has no such anchor; the same values are in the
    dictionary a successful import returns. *)
Theorem a_missing_anchor_is_stored_as_None :
  forall (E : Env),
    (forall soup license_code m,
        section3_guarded E soup license_code ->
        exists m',
          section3_conditions E soup license_code m = Ok m' /\
          forall i field,
            In (i, field) unguarded_fields ->
            Py.get m' field = Some (Str (str_found E (find_id soup i))) /\
            (find_id soup i = None -> Py.get m' field = Some (Str "None"))) /\
    (forall content license_code language_code m,
        import_by_40_license_html E content license_code language_code = Ok m ->
        let soup := BeautifulSoup E (normalize_emphasis content) in
        forall i field,
          In (i, field) unguarded_fields ->
          Py.get m field = Some (Str (str_found E (find_id soup i))) /\
          (find_id soup i = None -> Py.get m field = Some (Str "None"))).
Proof.
  intros E. split.
  - intros soup lc m G.
    destruct (section3_conditions_succeeds E soup lc m G) as (m' & H).
    exists m'. split; [exact H |]. intros i field Hin.
    pose proof (section3_conditions_unguarded E _ _ _ _ i field H Hin) as V.
    split; [exact V |]. intros N. rewrite V, N. reflexivity.
  - intros content lc lang m H soup i field Hin.
    assert (G : Py.get m field = Some (Str (str_found E (find_id soup i)))).
    { apply import_steps in H. destruct H as [H _].
      apply extract_fields_steps in H.
      destruct H as (m1 & m2 & m3 & m4 & m5 & m6 & m7 & m8 & m9 & m10
                     & H1 & H2 & H3 & H4 & H5 & H6 & H7 & H8 & H9 & H10 & H11).
      fold soup in H8, H9, H10, H11.
      apply (section3_conditions_unguarded _ _ _ _ _ i field) in H8;
        [| exact Hin].
      apply section4_database_rights_writes in H9.
      apply s4_postscript_writes in H10.
      apply sections5_to_8_writes in H11.
      unfold unguarded_fields in Hin. simpl in Hin.
      repeat (destruct Hin as [[= <- <-] | Hin];
              [kept H11; kept H10; kept H9; exact H8 |]).
      contradiction. }
    split; [exact G |]. intros N. rewrite G, N. reflexivity.
Qed.

Lemma a_missing_anchor_is_stored_as_None_witness :
  let content :=
    Py.replace (Py.replace (Py.replace (Py.replace (Py.replace (Py.replace
      Sample.english
      "id='s3a1Aii'" "id='a'") "id='s3a1Aiii'" "id='b'")
      "id='s3a1Aiv'" "id='c'") "id='s3a1Av'" "id='d'")
      "id='s3a1B'" "id='e'") "id='s3a1C'" "id='f'" in
  let soup := BeautifulSoup Model.env (normalize_emphasis content) in
  section3_guarded Model.env soup "by-sa" /\
  (exists m',
      section3_conditions Model.env soup "by-sa" [] = Ok m' /\
      forall i field,
        In (i, field) unguarded_fields -> Py.get m' field = Some (Str "None")) /\
  (exists m,
      import_by_40_license_html Model.env content "by-sa" "en" = Ok m /\
      forall i field,
        In (i, field) unguarded_fields -> Py.get m field = Some (Str "None")).
Proof.
  intros content soup.
  assert (Missing : forall i field,
             In (i, field) unguarded_fields -> find_id soup i = None).
  { unfold unguarded_fields. simpl. intros i field Hin.
    repeat (destruct Hin as [[= <- <-] | Hin]; [vm_compute; reflexivity |]).
    contradiction. }
  assert (G : section3_guarded Model.env soup "by-sa").
  { unfold section3_guarded.
    split; [eexists; vm_compute; reflexivity |].
    split; [eexists; eexists; split; vm_compute; reflexivity |].
    split; [eexists; vm_compute; reflexivity |].
    split; [eexists; vm_compute; reflexivity |].
    split; [eexists; vm_compute; reflexivity |].
    split; [eexists; vm_compute; reflexivity |].
    split; [eexists; vm_compute; reflexivity |].
    split; [eexists; vm_compute; reflexivity |].
    intros _. eexists. eexists. eexists.
    split; [| split]; vm_compute; reflexivity. }
  split; [exact G |]. split.
  - destruct (proj1 (a_missing_anchor_is_stored_as_None Model.env) soup "by-sa" [] G)
      as (m' & H & V).
    exists m'. split; [exact H |]. intros i field Hin.
    exact (proj2 (V i field Hin) (Missing i field Hin)).
  - destruct (import_by_40_license_html Model.env content "by-sa" "en")
      as [m |] eqn:H; [| vm_compute in H; discriminate H].
    exists m. split; [reflexivity |]. intros i field Hin.
    exact (proj2 (proj2 (a_missing_anchor_is_stored_as_None Model.env)
                    content "by-sa" "en" m H i field Hin)
             (Missing i field Hin)).
Defined.

Lemma slice_short {A : Type} (l : list A) a b :
  List.length l <= a -> Py.slice l a b = [].
Proof.
  intros L. unfold Py.slice. rewrite skipn_all2 by exact L.
  now destruct (b - a).
Qed.

(** X7: the field [s6_termination_reinstates_postscript] is taken by
    position: the extraction stores the stripped text of the fifth to
    seventh children of anchor s6b, whatever they are; children past the
    seventh are left out, and an anchor with at most four children gives
    the empty text instead of an error. *)
Theorem termination_postscript_is_taken_by_position :
  forall (E : Env) (soup : Node) (license_code language_code : string)
         (m : dict Val),
    extract_fields E soup license_code language_code = Ok m ->
    exists s6b,
      find_id soup "s6b" = Some s6b /\
      Py.get m "s6_termination_reinstates_postscript"
      = Some (Str (Py.strip (Py.join
                     (map (str E) (Py.slice (contents (node s6b)) 4 7))))) /\
      (List.length (contents (node s6b)) <= 4 ->
       Py.get m "s6_termination_reinstates_postscript" = Some (Str EmptyString)).
Proof.
  intros E soup lc lang m H.
  apply extract_fields_steps in H.
  destruct H as (m1 & m2 & m3 & m4 & m5 & m6 & m7 & m8 & m9 & m10
                 & _ & _ & _ & _ & _ & _ & _ & _ & _ & _ & H11).
  apply sections5_to_8_postscript in H11.
  destruct H11 as (s6b & F & G).
  exists s6b. split; [exact F |]. split; [exact G |].
  intros L. rewrite G, slice_short by exact L. reflexivity.
Qed.

Lemma termination_postscript_is_taken_by_position_witness :
  let postscript :=
    " This Section 6(b) does not affect any right of the Licensor." in
  let short := Py.replace Sample.english postscript EmptyString in
  (exists m,
      extract_fields Model.env (Model.parse Sample.english) "by" "en" = Ok m /\
      Py.get m "s6_termination_reinstates_postscript"
      = Some (Str (Py.strip postscript))) /\
  (exists m s6b,
      extract_fields Model.env (Model.parse short) "by" "en" = Ok m /\
      find_id (Model.parse short) "s6b" = Some s6b /\
      List.length (contents (node s6b)) <= 4 /\
      Py.get m "s6_termination_reinstates_postscript" = Some (Str EmptyString)).
Proof.
  intros postscript short. split.
  - destruct (extract_fields Model.env (Model.parse Sample.english) "by" "en")
      as [m |] eqn:H; [| vm_compute in H; discriminate H].
    exists m. split; [reflexivity |].
    destruct (termination_postscript_is_taken_by_position _ _ _ _ _ H)
      as (s6b & F & G & _).
    vm_compute in F. injection F as <-. rewrite G. vm_compute. reflexivity.
  - destruct (extract_fields Model.env (Model.parse short) "by" "en")
      as [m |] eqn:H; [| vm_compute in H; discriminate H].
    destruct (termination_postscript_is_taken_by_position _ _ _ _ _ H)
      as (s6b & F & _ & G).
    exists m, s6b. split; [reflexivity |]. split; [exact F |].
    assert (L : List.length (contents (node s6b)) <= 4).
    { vm_compute in F. injection F as <-. vm_compute. lia. }
    split; [exact L | exact (G L)].
Defined.

(* ===================================================================== *)
(** ** The introduction of s6b (lines 491-505) *)
(* ===================================================================== *)

Lemma append_assoc (a b c : string) : ((a ++ b) ++ c = a ++ (b ++ c))%string.
Proof. induction a as [| x a IH]; simpl; [reflexivity | now rewrite IH]. Qed.

Lemma append_empty (a : string) : (a ++ EmptyString)%string = a.
Proof. induction a as [| x a IH]; simpl; [reflexivity | now rewrite IH]. Qed.

Section Where.

Variable E : Env.

Lemma text_before_ol_join children : forall s,
  text_before_ol E children s
  = (s ++ Py.join (map (str E) (before_ol children)))%string.
Proof.
  induction children as [| child rest IH]; intros s; simpl.
  - now rewrite append_empty.
  - destruct (option_eqb (name child) "ol"); simpl.
    + now rewrite append_empty.
    + now rewrite IH, append_assoc.
Qed.

Lemma sections5_to_8_where soup m m' :
  sections5_to_8 E soup m = Ok m' ->
  exists s6b,
    find_id soup "s6b" = Some s6b /\
    Py.get m' "s6_termination_reinstates_where"
    = Some (Str match descendant_tag s6b "p" with
                | Some p => get_text (node p)
                | None => Py.join (map (str E) (before_ol (contents (node s6b))))
                end).
Proof.
  unfold sections5_to_8. intros H. cbv zeta in H.
  destruct (find_id soup "s6b") as [s6b |] eqn:F.
  - exists s6b. split; [reflexivity |].
    cbn [found Py.bind] in H.
    destruct (descendant_tag s6b "p") as [p |] eqn:P;
      unfold assign, assign_val in H; cbn [found Py.bind] in H;
      run_block; rewrite ?text_before_ol_join; lookup.
  - exfalso. cbn [found] in H. run_block.
Qed.

End Where.

(** X8: the introduction of s6b is read in one of two ways.  When s6b
    has a paragraph below it, the field holds the text of the first one;
    otherwise it holds the markup of the children of s6b that come
    before its first list, joined in order, and of all its children when
    it has no list. *)
Theorem termination_introduction_has_two_shapes :
  forall (E : Env) (soup : Node) (license_code language_code : string)
         (m : dict Val),
    extract_fields E soup license_code language_code = Ok m ->
    exists s6b,
      find_id soup "s6b" = Some s6b /\
      (forall p, descendant_tag s6b "p" = Some p ->
         Py.get m "s6_termination_reinstates_where"
         = Some (Str (get_text (node p)))) /\
      (descendant_tag s6b "p" = None ->
         Py.get m "s6_termination_reinstates_where"
         = Some (Str (Py.join (map (str E) (before_ol (contents (node s6b))))))).
Proof.
  intros E soup lc lang m H.
  apply extract_fields_steps in H.
  destruct H as (m1 & m2 & m3 & m4 & m5 & m6 & m7 & m8 & m9 & m10
                 & _ & _ & _ & _ & _ & _ & _ & _ & _ & _ & H11).
  apply sections5_to_8_where in H11.
  destruct H11 as (s6b & F & G).
  exists s6b. split; [exact F |]. split.
  - intros p P. now rewrite P in G.
  - intros P. now rewrite P in G.
Qed.

Lemma termination_introduction_has_two_shapes_witness :
  let bare :=
    Py.replace
      (Py.replace Sample.english "<p>Where Your right" "Where Your right")
      "reinstates:</p>" "reinstates:" in
  (exists m,
      extract_fields Model.env (Model.parse Sample.english) "by" "en" = Ok m /\
      Py.get m "s6_termination_reinstates_where"
      = Some (Str "Where Your right has terminated, it reinstates:")) /\
  (exists m,
      extract_fields Model.env (Model.parse bare) "by" "en" = Ok m /\
      Py.get m "s6_termination_reinstates_where"
      = Some (Str " Where Your right has terminated, it reinstates: ")).
Proof.
  intros bare. split.
  - destruct (extract_fields Model.env (Model.parse Sample.english) "by" "en")
      as [m |] eqn:H; [| vm_compute in H; discriminate H].
    exists m. split; [reflexivity |].
    destruct (termination_introduction_has_two_shapes _ _ _ _ _ H)
      as (s6b & F & G & _).
    vm_compute in F. injection F as <-.
    exact (G _ eq_refl).
  - destruct (extract_fields Model.env (Model.parse bare) "by" "en")
      as [m |] eqn:H; [| vm_compute in H; discriminate H].
    exists m. split; [reflexivity |].
    destruct (termination_introduction_has_two_shapes _ _ _ _ _ H)
      as (s6b & F & _ & G).
    vm_compute in F. injection F as <-.
    exact (G eq_refl).
Defined.

(* ===================================================================== *)
(** ** The two loops over list items *)
(* ===================================================================== *)

Section Bounds.

Variable E : Env.

Lemma definitions_loop_bound lis : forall i names m,
  (forall li, In li lis -> exists thing, name_and_text E (Some li) = Ok thing) ->
  (i + List.length lis <= List.length names ->
   exists m', definitions_loop E i lis names m = Ok m') /\
  (i <= List.length names -> List.length names < i + List.length lis ->
   definitions_loop E i lis names m = Raise IndexError).
Proof.
  induction lis as [| li lis IH]; intros i names m T.
  - split; [now exists m | simpl].
    intros L L'. exfalso. lia.
  - cbn [definitions_loop].
    destruct (T li (or_introl eq_refl)) as (thing & ->). cbn [Py.bind].
    unfold Py.item.
    assert (T' : forall li', In li' lis ->
                   exists thing', name_and_text E (Some li') = Ok thing')
      by (intros li' Hin; apply T; now right).
    destruct (nth_error names i) as [key |] eqn:K; cbn [Py.bind].
    + assert (i < List.length names) by (apply nth_error_Some; congruence).
      split; [intros L | intros _ L]; apply IH; auto; simpl in L; lia.
    + apply nth_error_None in K.
      split; [intros L; exfalso; simpl in L; lia | reflexivity].
Qed.

Lemma downstream_loop_bound lis : forall i names m,
  (forall li, In li lis -> exists thing, name_and_text E (Some li) = Ok thing) ->
  (i + List.length lis <= List.length names ->
   exists m', downstream_loop E i lis names m = Ok m') /\
  (i <= List.length names -> List.length names < i + List.length lis ->
   downstream_loop E i lis names m = Raise IndexError).
Proof.
  induction lis as [| li lis IH]; intros i names m T.
  - split; [now exists m | simpl].
    intros L L'. exfalso. lia.
  - cbn [downstream_loop]. unfold Py.item.
    assert (T' : forall li', In li' lis ->
                   exists thing', name_and_text E (Some li') = Ok thing')
      by (intros li' Hin; apply T; now right).
    destruct (nth_error names i) as [key |] eqn:K; cbn [Py.bind].
    + destruct (T li (or_introl eq_refl)) as (thing & ->). cbn [Py.bind].
      cbv zeta.
      assert (i < List.length names) by (apply nth_error_Some; congruence).
      split; [intros L | intros _ L]; apply IH; auto; simpl in L; lia.
    + apply nth_error_None in K.
      split; [intros L; exfalso; simpl in L; lia | reflexivity].
Qed.

End Bounds.

(** X9: the loops over the definitions and over the downstream
    recipients take the names of their schema by position.  When every
    list item has a name and a text, each loop ends normally if there
    are at most as many items as names, and raises [IndexError] if there
    are more. *)
Theorem loops_stop_at_the_end_of_the_schema :
  forall (E : Env) (lis : list Node) (names : list string) (m : dict Val),
    (forall li, In li lis -> exists thing, name_and_text E (Some li) = Ok thing) ->
    (List.length lis <= List.length names ->
     (exists m', definitions_loop E 0 lis names m = Ok m') /\
     (exists m', downstream_loop E 0 lis names m = Ok m')) /\
    (List.length names < List.length lis ->
     definitions_loop E 0 lis names m = Raise IndexError /\
     downstream_loop E 0 lis names m = Raise IndexError).
Proof.
  intros E lis names m T.
  destruct (definitions_loop_bound E lis 0 names m T) as [D1 D2].
  destruct (downstream_loop_bound E lis 0 names m T) as [W1 W2].
  split; intros L; split; auto; [apply D2 | apply W2]; auto; lia.
Qed.

Lemma loops_stop_at_the_end_of_the_schema_witness :
  let li :=
    Tag "li" [] [Tag "strong" [] [NavigableString "Offer"];
                 NavigableString " from the Licensor."] in
  (exists m', downstream_loop Model.env 0 [li; li] ["offer"; "no_restrictions"] []
              = Ok m') /\
  definitions_loop Model.env 0 [li; li; li] ["offer"; "no_restrictions"] []
  = Raise IndexError.
Proof.
  intros li.
  assert (T : forall lis x, In x lis -> Forall (eq li) lis ->
                exists thing, name_and_text Model.env (Some x) = Ok thing).
  { intros lis x Hin F. rewrite Forall_forall in F. rewrite <- (F x Hin).
    eexists. vm_compute. reflexivity. }
  split.
  - apply (proj1 (loops_stop_at_the_end_of_the_schema Model.env [li; li]
                    ["offer"; "no_restrictions"] []
                    (fun x Hin => T [li; li] x Hin
                       (Forall_cons _ eq_refl (Forall_cons _ eq_refl (Forall_nil _)))))).
    simpl. lia.
  - apply (proj2 (loops_stop_at_the_end_of_the_schema Model.env [li; li; li]
                    ["offer"; "no_restrictions"] []
                    (fun x Hin => T [li; li; li] x Hin
                       (Forall_cons _ eq_refl (Forall_cons _ eq_refl
                          (Forall_cons _ eq_refl (Forall_nil _))))))).
    simpl. lia.
Defined.

(* ===================================================================== *)
(** ** More on the catalogs *)
(* ===================================================================== *)

Lemma pofile_loop_length english_text language_code items :
  forall pofile out,
    pofile_loop english_text language_code items pofile = Ok out ->
    List.length out = List.length pofile + List.length items.
Proof.
  intros pofile out H. apply pofile_loop_entries in H.
  destruct H as (entries & -> & F). rewrite length_app.
  now rewrite (Forall2_length F).
Qed.

Lemma message_key_found (english_text : dict Val) k t :
  (if Py.haskey english_text k then Py.getitem english_text k else Ok t)
  = Ok match Py.get english_text k with
       | Some text => text
       | None => t
       end.
Proof. unfold Py.haskey, Py.getitem. now destruct (Py.get english_text k). Qed.

(** The loop of lines 174-184 ends normally exactly when every
    translation can be stripped, and otherwise raises [AttributeError]. *)
Lemma pofile_loop_result english_text language_code items : forall pofile,
  if (language_code =? "en")%string || forallb is_text items
  then exists out, pofile_loop english_text language_code items pofile = Ok out
  else pofile_loop english_text language_code items pofile = Raise AttributeError.
Proof.
  induction items as [| [k t] items IH]; intros pofile.
  - rewrite orb_true_r. now exists pofile.
  - cbn [pofile_loop forallb]. rewrite message_key_found. cbn [Py.bind].
    destruct (language_code =? "en")%string eqn:L; cbn [orb] in *.
    + cbn [Py.strip_val Py.bind]. apply IH.
    + unfold is_text at 1. cbn [snd].
      destruct t as [s |]; cbn [Py.strip_val Py.bind andb]; [apply IH | reflexivity].
Qed.

(** X10: the result of assembling a catalog (lines 174-186) is decided by
    two tests.  When some translation of a language other than English is
    [None], stripping it raises [AttributeError]; otherwise, when the
    field [license_medium] is missing, the assertion fails; otherwise the
    catalog has one entry per field. *)
Theorem catalog_assembly_outcomes :
  forall (english_text messages_text : dict Val) (language_code : string),
    (strippable messages_text language_code = false ->
     assemble_pofile english_text messages_text language_code
     = Raise AttributeError) /\
    (strippable messages_text language_code = true ->
     Py.haskey messages_text "license_medium" = false ->
     assemble_pofile english_text messages_text language_code
     = Raise AssertionError) /\
    (strippable messages_text language_code = true ->
     Py.haskey messages_text "license_medium" = true ->
     exists pofile,
       assemble_pofile english_text messages_text language_code = Ok pofile /\
       List.length pofile = List.length messages_text).
Proof.
  intros english m lang. unfold strippable, assemble_pofile, Py.items.
  pose proof (pofile_loop_result english lang m []) as R.
  repeat split; intros S; rewrite S in R.
  - now rewrite R.
  - intros K. destruct R as (out & ->). cbn [Py.bind]. now rewrite K.
  - intros K. destruct R as (out & R). rewrite R. cbn [Py.bind]. rewrite K.
    exists out. split; [reflexivity |].
    now apply pofile_loop_length in R.
Qed.

Lemma catalog_assembly_outcomes_witness :
  assemble_pofile [] [("license_medium", None_)] "fr" = Raise AttributeError /\
  assemble_pofile [] [("license_long", Str "x")] "fr" = Raise AssertionError /\
  exists pofile,
    assemble_pofile [] [("license_medium", None_)] "en" = Ok pofile /\
    List.length pofile = 1.
Proof.
  split; [| split].
  - apply (proj1 (catalog_assembly_outcomes [] [("license_medium", None_)] "fr")).
    reflexivity.
  - apply (proj1 (proj2 (catalog_assembly_outcomes [] [("license_long", Str "x")] "fr")));
      reflexivity.
  - apply (proj2 (proj2 (catalog_assembly_outcomes [] [("license_medium", None_)] "en")));
      reflexivity.
Defined.






(* ===================================================================== *)
(** ** More on the loops of handle *)
(* ===================================================================== *)

Lemma remove_absent x l : ~ In x l -> Py.remove x l = Raise ValueError.
Proof.
  induction l as [| y l IH]; simpl; intros N; [reflexivity |].
  destruct (String.eqb y x) eqn:Q.
  - apply String.eqb_eq in Q. tauto.
  - rewrite IH by tauto. reflexivity.
Qed.

Lemma remove_first x pre post :
  ~ In x pre -> Py.remove x (pre ++ x :: post) = Ok (pre ++ post).
Proof.
  induction pre as [| y pre IH]; simpl; intros N.
  - now rewrite String.eqb_refl.
  - destruct (String.eqb y x) eqn:Q.
    + apply String.eqb_eq in Q. tauto.
    + rewrite IH by tauto. reflexivity.
Qed.

Lemma remove_cases x l :
  (~ In x l /\ Py.remove x l = Raise ValueError) \/
  (exists pre post,
      l = pre ++ x :: post /\ ~ In x pre /\ Py.remove x l = Ok (pre ++ post)).
Proof.
  induction l as [| y l IH].
  - left. split; [intros [] | reflexivity].
  - destruct (String.eqb y x) eqn:Q.
    + apply String.eqb_eq in Q. subst y. right. exists [], l.
      split; [reflexivity |]. split; [intros [] |].
      simpl. now rewrite String.eqb_refl.
    + assert (y <> x) by (intros ->; rewrite String.eqb_refl in Q; discriminate).
      destruct IH as [[N R] | (pre & post & -> & N & R)].
      * left. split; [simpl; tauto |]. apply remove_absent. simpl. tauto.
      * right. exists (y :: pre), post. split; [reflexivity |].
        assert (N' : ~ In x (y :: pre)) by (simpl; intros [? | ?]; auto).
        split; [exact N' |]. exact (remove_first x (y :: pre) post N').
Qed.

Section Runs.

Variable E : Env.
Variable store : Store.

Lemma handle_pair_saved language_code license_code r r' :
  handle_pair E store language_code license_code r = Ok r' ->
  map pair_of (saved r')
  = map pair_of (saved r) ++ [(language_code, license_code)].
Proof.
  intros H. apply handle_pair_steps in H.
  destruct H as (content & m & english & pofile & _ & _ & _ & _ & _ & ->).
  now rewrite map_app.
Qed.

Lemma for_license_codes_saved language_code codes : forall r,
  match for_license_codes E store language_code codes r with
  | Completed r' =>
      map pair_of (saved r')
      = map pair_of (saved r) ++ map (fun y => (language_code, y)) codes
  | Aborted _ s =>
      exists k, k < List.length codes /\
        map pair_of s
        = map pair_of (saved r) ++ map (fun y => (language_code, y)) (firstn k codes)
  end.
Proof.
  induction codes as [| lc codes IH]; intros r; cbn [for_license_codes].
  - simpl. now rewrite app_nil_r.
  - destruct (handle_pair E store language_code lc r) as [r1 |] eqn:H.
    + apply handle_pair_saved in H. specialize (IH r1).
      destruct (for_license_codes E store language_code codes r1) as [r' | e s].
      * rewrite IH, H, <- app_assoc. reflexivity.
      * destruct IH as (k & Hk & ->). exists (S k). split; [simpl; lia |].
        rewrite H, <- app_assoc. reflexivity.
    + exists 0. split; [simpl; lia |]. simpl. now rewrite app_nil_r.
Qed.

Lemma firstn_app_short {A : Type} (l l' : list A) k :
  k <= List.length l -> firstn k (l ++ l') = firstn k l.
Proof.
  intros L. rewrite firstn_app.
  replace (k - List.length l) with 0 by lia. simpl. now rewrite app_nil_r.
Qed.

Lemma firstn_app_long {A : Type} (l l' : list A) k :
  firstn (List.length l + k) (l ++ l') = l ++ firstn k l'.
Proof.
  rewrite firstn_app. rewrite firstn_all2 by lia.
  now replace (List.length l + k - List.length l) with k by lia.
Qed.

Lemma for_language_codes_saved codes : forall r,
  let pairs := list_prod codes LICENSE_CODES in
  match for_language_codes E store codes r with
  | Completed r' => map pair_of (saved r') = map pair_of (saved r) ++ pairs
  | Aborted _ s =>
      exists k, k < List.length pairs /\
        map pair_of s = map pair_of (saved r) ++ firstn k pairs
  end.
Proof.
  induction codes as [| lang codes IH]; intros r; cbn [for_language_codes].
  - simpl. now rewrite app_nil_r.
  - cbv zeta. cbn [list_prod].
    pose proof (for_license_codes_saved lang LICENSE_CODES r) as L.
    destruct (for_license_codes E store lang LICENSE_CODES r) as [r1 | e s].
    + specialize (IH r1). cbv zeta in IH.
      destruct (for_language_codes E store codes r1) as [r' | e s].
      * rewrite IH, L, <- app_assoc. reflexivity.
      * destruct IH as (k & Hk & ->).
        exists (List.length (map (fun y : string => (lang, y)) LICENSE_CODES) + k).
        split; [rewrite length_app; lia |].
        rewrite firstn_app_long, L, <- app_assoc. reflexivity.
    + destruct L as (k & Hk & ->). exists k.
      split; [rewrite length_app, length_map; lia |].
      rewrite firstn_app_short by (rewrite length_map; lia).
      now rewrite firstn_map.
Qed.

End Runs.

(** X12: in the message-file half of [handle], line 127 needs English
    among the languages: without it [ValueError] is raised before any
    pair is processed.  Otherwise the first occurrence of English is
    moved to the front and the pairs are processed language by language,
    each over the six license codes in their order: the catalogs
    assembled in a run, in order, are those of an initial segment of this
    sequence, and of the whole sequence when the run completes.  (A
    catalog is saved only once it has been assembled, so the files saved
    follow the same order.) *)
Theorem saved_catalogs_follow_the_loops :
  forall (E : Env) (store : Store),
    (~ In "en" (language_codes store) ->
     handle E store = Aborted ValueError []) /\
    (forall before after,
        language_codes store = before ++ "en" :: after ->
        ~ In "en" before ->
        let pairs := list_prod ("en" :: before ++ after) LICENSE_CODES in
        (exists k, map pair_of (saved_by (handle E store)) = firstn k pairs) /\
        (forall r, handle E store = Completed r ->
                   map pair_of (saved r) = pairs)).
Proof.
  intros E store. split.
  - intros N. unfold handle. now rewrite remove_absent.
  - intros pre post L N. unfold handle. rewrite L, remove_first by exact N.
    pose proof (for_language_codes_saved E store ("en" :: pre ++ post)
                  (mkRun [] [])) as S.
    cbv zeta in S |- *.
    destruct (for_language_codes E store ("en" :: pre ++ post) (mkRun [] []))
      as [r | e s]; simpl in S |- *.
    + split; [| intros r' [= <-]; exact S].
      exists (List.length (list_prod ("en" :: pre ++ post) LICENSE_CODES)).
      now rewrite firstn_all.
    + split; [| discriminate].
      destruct S as (k & _ & S). now exists k.
Qed.

Lemma saved_catalogs_follow_the_loops_witness :
  (~ In "en" (language_codes (mkStore ["fr"] (html_file Sample.store))) /\
   handle Model.env (mkStore ["fr"] (html_file Sample.store))
   = Aborted ValueError []) /\
  (language_codes (mkStore ["fr"; "en"] (html_file Sample.store))
   = ["fr"] ++ "en" :: [] /\
   ~ In "en" ["fr"] /\
   exists r,
     handle Model.env (mkStore ["fr"; "en"] (html_file Sample.store))
     = Completed r /\
     map pair_of (saved r) = list_prod ["en"; "fr"] LICENSE_CODES) /\
  (language_codes Sample.store_with_plain_title = [] ++ "en" :: ["fr"] /\
   ~ In "en" [] /\
   exists k,
     map pair_of (saved_by (handle Model.env Sample.store_with_plain_title))
     = firstn k (list_prod ["en"; "fr"] LICENSE_CODES)).
Proof.
  assert (N : ~ In "en" ["fr"]).
  { simpl. intros [H | []]; discriminate H. }
  split; [| split].
  - split; [exact N |].
    exact (proj1 (saved_catalogs_follow_the_loops Model.env
                    (mkStore ["fr"] (html_file Sample.store))) N).
  - split; [reflexivity |]. split; [exact N |].
    destruct (proj2 (saved_catalogs_follow_the_loops Model.env
                    (mkStore ["fr"; "en"] (html_file Sample.store)))
                  ["fr"] [] eq_refl N) as [_ H].
    cbv zeta in H.
    destruct (handle Model.env (mkStore ["fr"; "en"] (html_file Sample.store)))
      as [r | e s] eqn:R; [| vm_compute in R; discriminate R].
    exists r. split; [reflexivity | exact (H r eq_refl)].
  - split; [reflexivity |]. split; [intros [] |].
    exact (proj1 (proj2 (saved_catalogs_follow_the_loops Model.env
                           Sample.store_with_plain_title)
                    [] ["fr"] eq_refl (fun H : In "en" [] => H))).
Defined.



Section Reached.

Variable E : Env.
Variable store : Store.






End Reached.



(* ===================================================================== *)
(** ** The name of the language of a catalog (lines 153-155) *)
(* ===================================================================== *)

Lemma replace_one_character s c :
  Py.replace s (String c EmptyString) EmptyString = without (Ascii.eqb c) s.
Proof.
  unfold Py.replace. induction s as [| a s IH]; [reflexivity |].
  cbn [Py.replace_from Py.startswith without String.length Nat.sub].
  rewrite andb_true_r. destruct (Ascii.eqb c a); simpl; now rewrite IH.
Qed.

Lemma without_without f g s :
  without g (without f s) = without (fun c => f c || g c) s.
Proof.
  induction s as [| a s IH]; [reflexivity |]. simpl.
  destruct (f a); simpl; [exact IH |].
  destruct (g a); now rewrite IH.
Qed.

Lemma without_absent f s c : f c = true -> absent c (without f s) = true.
Proof.
  intros F. induction s as [| a s IH]; [reflexivity |]. simpl.
  destruct (f a) eqn:Fa; [exact IH |]. simpl. rewrite IH, andb_true_r.
  apply negb_true_iff. destruct (Ascii.eqb c a) eqn:Q; [| reflexivity].
  apply Ascii.eqb_eq in Q. congruence.
Qed.

Lemma without_nothing f s :
  (forall c, f c = true -> absent c s = true) -> without f s = s.
Proof.
  induction s as [| a s IH]; intros H; [reflexivity |]. simpl.
  destruct (f a) eqn:Fa.
  - specialize (H a Fa). simpl in H. now rewrite Ascii.eqb_refl in H.
  - rewrite IH; [reflexivity |]. intros c Fc. specialize (H c Fc).
    simpl in H. apply andb_prop in H. tauto.
Qed.

Lemma without_ext f g s : (forall c, f c = g c) -> without f s = without g s.
Proof.
  intros H. induction s as [| a s IH]; [reflexivity |]. simpl.
  now rewrite H, IH.
Qed.

(** X14: the three replacements of lines 153-155 delete every hyphen,
    underscore and full stop of the language code and nothing else: the
    other characters stay, in their order, none of the three is left,
    and a code without them is unchanged. *)
Theorem punctuationless_language_code_drops_three_characters :
  forall language_code,
    punctuationless_language_code language_code
    = without punctuation language_code /\
    (forall c, punctuation c = true ->
        absent c (punctuationless_language_code language_code) = true) /\
    ((forall c, punctuation c = true -> absent c language_code = true) ->
     punctuationless_language_code language_code = language_code).
Proof.
  intros lang.
  assert (Q : punctuationless_language_code lang = without punctuation lang).
  { unfold punctuationless_language_code.
    rewrite !replace_one_character, !without_without.
    apply without_ext. intros c. unfold punctuation.
    now destruct (Ascii.eqb "-" c), (Ascii.eqb "_" c), (Ascii.eqb "." c). }
  rewrite Q. split; [reflexivity |]. split.
  - intros c P. now apply without_absent.
  - apply without_nothing.
Qed.

Lemma punctuationless_language_code_drops_three_characters_witness :
  punctuationless_language_code "zh-Hans" = "zhHans" /\
  punctuationless_language_code "fr" = "fr".
Proof.
  split.
  - rewrite (proj1 (punctuationless_language_code_drops_three_characters "zh-Hans")).
    reflexivity.
  - apply (proj2 (proj2 (punctuationless_language_code_drops_three_characters "fr"))).
    intros c P. unfold punctuation in P.
    apply orb_prop in P. destruct P as [P | P];
      [apply orb_prop in P; destruct P as [P | P] |];
      apply Ascii.eqb_eq in P; subst c; reflexivity.
Defined.

(* ===================================================================== *)
(** ** The permissions of a license (lines 57-70) *)
(* ===================================================================== *)

Lemma split_parts s sep : exists part parts, split s sep = part :: parts.
Proof.
  destruct s as [| c s]; simpl; [eauto |].
  destruct (Ascii.eqb c sep); [eauto |].
  destruct (split s sep); eauto.
Qed.

(** Joining the parts with the separator gives the text back. *)
Lemma join_with_more sep part part' parts :
  join_with sep (part :: part' :: parts)
  = (part ++ String sep (join_with sep (part' :: parts)))%string.
Proof. reflexivity. Qed.

Lemma join_with_split s sep : join_with sep (split s sep) = s.
Proof.
  induction s as [| c s IH]; [reflexivity |]. cbn [split].
  destruct (split_parts s sep) as (part & parts & P). rewrite P in *.
  destruct (Ascii.eqb c sep) eqn:Q.
  - apply Ascii.eqb_eq in Q. subst c.
    rewrite join_with_more, IH. reflexivity.
  - destruct parts as [| part' parts].
    + simpl in *. now rewrite IH.
    + rewrite join_with_more in *. cbn [String.append]. now rewrite IH.
Qed.

Lemma split_first_part s sep part parts :
  split s sep = part :: parts -> Py.startswith s part = true.
Proof.
  revert part parts. induction s as [| c s IH]; simpl; intros part parts H.
  - now injection H as <- <-.
  - destruct (Ascii.eqb c sep).
    + now injection H as <- <-.
    + destruct (split_parts s sep) as (part' & parts' & P). rewrite P in H.
      injection H as <- <-. simpl. rewrite Ascii.eqb_refl. simpl.
      exact (IH _ _ P).
Qed.

Lemma contains_tail c s q : Py.contains s q = true -> Py.contains (String c s) q = true.
Proof. intros H. rewrite contains_cons, H. apply orb_true_r. Qed.

Lemma contains_prefix s q : Py.startswith s q = true -> Py.contains s q = true.
Proof. intros H. destruct s; simpl; rewrite H; reflexivity. Qed.

(** Every part of a text occurs in the text. *)
Lemma split_part_contained s sep part :
  In part (split s sep) -> Py.contains s part = true.
Proof.
  induction s as [| c s IH]; simpl.
  - intros [<- | []]. reflexivity.
  - destruct (Ascii.eqb c sep).
    + intros [<- | Hin].
      * reflexivity.
      * fold (Py.contains s part). rewrite (IH Hin). apply orb_true_r.
    + destruct (split_parts s sep) as (part' & parts' & P). rewrite P in *.
      intros [<- | Hin].
      * simpl. rewrite Ascii.eqb_refl. simpl.
        now rewrite (split_first_part _ _ _ _ P).
      * fold (Py.contains s part). rewrite IH by now right.
        apply orb_true_r.
Qed.

Lemma split_without_separator s sep :
  absent sep s = true -> split s sep = [s].
Proof.
  induction s as [| c s IH]; [reflexivity |]. simpl. intros A.
  apply andb_prop in A. destruct A as [A1 A2].
  apply negb_true_iff in A1. rewrite Ascii.eqb_sym, A1.
  now rewrite (IH A2).
Qed.

(** A text that ends with the separator and [q] has [q] as a part after
    the first. *)
Lemma split_last_part s sep q :
  absent sep q = true ->
  Py.endswith s (String sep q) = true ->
  In q (tl (split s sep)).
Proof.
  intros A. induction s as [| c s IH]; simpl; [discriminate |].
  intros H. apply orb_prop in H. destruct H as [H | H].
  - apply andb_prop in H. destruct H as [H1 H2].
    apply Ascii.eqb_eq in H1. apply String.eqb_eq in H2. subst c s.
    rewrite Ascii.eqb_refl. simpl.
    rewrite (split_without_separator q sep A). now left.
  - fold (Py.endswith s (String sep q)) in H. specialize (IH H).
    destruct (split_parts s sep) as (part & parts & P). rewrite P in *.
    destruct (Ascii.eqb c sep); simpl in *; [now right | exact IH].
Qed.

Lemma license_permissions_flags license_code basename p :
  license_permissions license_code basename = Permitted p ->
  let parts := split license_code "-" in
  Py.mem "by" parts = true /\
  permits_derivative_works p = negb (Py.mem "nd" parts) /\
  requires_share_alike p = Py.mem "sa" parts /\
  prohibits_commercial_use p = Py.mem "nc" parts.
Proof.
  unfold license_permissions. cbv zeta.
  destruct (Py.mem "by" (split license_code "-")); [| discriminate].
  intros [= <-]. simpl. auto.
Qed.

(** X15: the flags stored with a license (lines 57-70) are worked out
    from the parts of the license code between hyphens, while the import
    tests the license code for substrings.  A license is accepted only
    if [by] is one of its parts; then a commercial-use prohibition
    implies the [nc] test of the import, a withheld permission for
    derivative works implies the [nd] test, and the [-sa] test of the
    import implies the share-alike requirement.  On the six license codes
    of the run all are accepted and the flags and the tests agree. *)
Theorem stored_flags_and_variant_tests :
  forall (license_code basename : string),
    (~ In "by" (split license_code "-") ->
     license_permissions license_code basename = NotImplementedError basename) /\
    (forall p,
        license_permissions license_code basename = Permitted p ->
        Py.contains license_code "by" = true /\
        (prohibits_commercial_use p = true ->
         Py.contains license_code "nc" = true) /\
        (permits_derivative_works p = false ->
         Py.contains license_code "nd" = true) /\
        (Py.endswith license_code "-sa" = true ->
         requires_share_alike p = true)) /\
    (In license_code LICENSE_CODES ->
     exists p,
       license_permissions license_code basename = Permitted p /\
       prohibits_commercial_use p = Py.contains license_code "nc" /\
       permits_derivative_works p = negb (Py.contains license_code "nd") /\
       requires_share_alike p = Py.endswith license_code "-sa").
Proof.
  intros lc basename. split; [| split].
  - intros N. unfold license_permissions. cbv zeta.
    apply mem_not_In in N. now rewrite N.
  - intros p H. apply license_permissions_flags in H. cbv zeta in H.
    destruct H as (Hby & Hnd & Hsa & Hnc).
    split; [apply (split_part_contained lc "-"); now apply mem_In |].
    split; [| split].
    + rewrite Hnc. intros M. apply (split_part_contained lc "-").
      now apply mem_In.
    + rewrite Hnd. intros M. apply negb_false_iff in M.
      apply (split_part_contained lc "-"). now apply mem_In.
    + intros S. rewrite Hsa. apply mem_In.
      apply (split_last_part lc "-" "sa" eq_refl) in S.
      destruct (split lc "-"); [contradiction | now right].
  - unfold LICENSE_CODES. simpl.
    intros H.
    repeat (destruct H as [<- | H];
            [eexists; split; [reflexivity | repeat split] |]).
    contradiction.
Qed.

Lemma stored_flags_and_variant_tests_witness :
  license_permissions "zero" "zero_1.0" = NotImplementedError "zero_1.0" /\
  (exists p,
      license_permissions "by-nc-sa" "by-nc-sa_4.0" = Permitted p /\
      Py.contains "by-nc-sa" "nc" = true /\
      requires_share_alike p = true /\
      permits_derivative_works p = negb (Py.contains "by-nc-sa" "nd")).
Proof.
  split.
  - apply (proj1 (stored_flags_and_variant_tests "zero" "zero_1.0")).
    simpl. intros [H | []]. discriminate H.
  - destruct (proj2 (proj2 (stored_flags_and_variant_tests "by-nc-sa" "by-nc-sa_4.0")))
      as (p & Hp & Hnc & Hnd & Hsa).
    { simpl. auto 10. }
    destruct (proj1 (proj2 (stored_flags_and_variant_tests "by-nc-sa" "by-nc-sa_4.0"))
                p Hp) as (_ & Inc & _ & Isa).
    exists p. split; [exact Hp |].
    split; [apply Inc; rewrite Hnc; reflexivity |].
    split; [apply Isa; reflexivity | exact Hnd].
Defined.

(* ===================================================================== *)
(** ** The downstream recipients (lines 370-384) *)
(* ===================================================================== *)

Section Recipients.

Variable E : Env.



End Recipients.



(* ===================================================================== *)
(** ** Where a catalog key is not an English text *)
(* ===================================================================== *)

Lemma base_fields_postscript nc nd sa postscript postscript' k :
  In k (base_fields nc nd sa postscript) ->
  k = postscript_field \/ In k (base_fields nc nd sa postscript').
Proof.
  unfold base_fields, field_names. rewrite !in_app_iff.
  destruct postscript, postscript'; cbn [In]; intuition auto.
Qed.

(** X17: a catalog entry gets the translation's own text as key, instead
    of the English text, only for a field of a definition, of a
    downstream recipient, or for the postscript of Section 4: every other
    field of a successfully imported translation is also a field of the
    successfully imported English text of the same license code. *)
Theorem only_loop_fields_and_the_postscript_lack_an_english_key :
  forall (E : Env) (content_en content license_code language_code : string)
         (english_text messages_text : dict Val) (k : string),
    import_by_40_license_html E content_en license_code "en" = Ok english_text ->
    import_by_40_license_html E content license_code language_code
    = Ok messages_text ->
    Py.haskey messages_text k = true ->
    Py.haskey english_text k = false ->
    Py.startswith k "s1_definitions_" = true \/
    Py.startswith k "s2a5_license_grant_downstream_" = true \/
    k = postscript_field.
Proof.
  intros E content_en content lc lang en m k Hen Hm Km Ken.
  destruct (import_fields _ _ _ _ _ Hen)
    as (ed1 & defs1 & downs1 & _ & _ & _ & _ & _ & K1 & _).
  destruct (import_fields _ _ _ _ _ Hm)
    as (ed2 & defs2 & downs2 & _ & _ & _ & _ & _ & K2 & _).
  rewrite haskey_mem, K2 in Km. rewrite haskey_mem, K1 in Ken.
  apply mem_In in Km. apply mem_not_In in Ken.
  apply In_field_names in Km. destruct Km as [B | [D | W]].
  - right. right.
    destruct (base_fields_postscript _ _ _ _
                (postscript_found (BeautifulSoup E (normalize_emphasis content_en)))
                _ B) as [P | B']; [exact P |].
    exfalso. apply Ken. apply In_field_names. now left.
  - left. exact (definition_fields_prefix _ _ _ D).
  - right. left. exact (downstream_fields_prefix _ _ _ W).
Qed.

Lemma only_loop_fields_and_the_postscript_lack_an_english_key_witness :
  exists english_text messages_text,
    import_by_40_license_html Model.env Sample.english_without_postscript
      "by" "en" = Ok english_text /\
    import_by_40_license_html Model.env Sample.french "by" "fr"
    = Ok messages_text /\
    Py.haskey messages_text postscript_field = true /\
    Py.haskey english_text postscript_field = false /\
    (Py.startswith postscript_field "s1_definitions_" = true \/
     Py.startswith postscript_field "s2a5_license_grant_downstream_" = true \/
     postscript_field = postscript_field).
Proof.
  destruct (import_by_40_license_html Model.env Sample.english_without_postscript
              "by" "en") as [en |] eqn:Hen; [| vm_compute in Hen; discriminate Hen].
  destruct (import_by_40_license_html Model.env Sample.french "by" "fr")
    as [m |] eqn:Hm; [| vm_compute in Hm; discriminate Hm].
  exists en, m. split; [reflexivity |]. split; [reflexivity |].
  assert (Km : Py.haskey m postscript_field = true).
  { vm_compute in Hm. injection Hm as <-. reflexivity. }
  assert (Ken : Py.haskey en postscript_field = false).
  { vm_compute in Hen. injection Hen as <-. reflexivity. }
  split; [exact Km |]. split; [exact Ken |].
  exact (only_loop_fields_and_the_postscript_lack_an_english_key
           _ _ _ _ _ _ _ _ Hen Hm Km Ken).
Defined.
